(** * The KushoAI recorder: session orchestration and script transformation

    A shallow embedding of [src/recorder.js] (class [KushoRecorder]) and of
    the observer that [src/index.js] registers, together with the facts the
    specification states about them.

    Conventions of the model.

    - A text (a JavaScript string, the content of a file read or written as
      utf8) is a [string]: the bytes of its UTF-8 encoding.  For well-formed
      texts, equality, [includes], [startsWith], [endsWith], [split] and
      [replace] with ASCII arguments agree on the two representations;
      [trim] removes the white space of the language in its encoded form.
      A surrogate that stands alone, which here only [JSON.parse] can put
      into a string, from an escape, has no encoding: it is kept as what
      the runtime writes for it, U+FFFD.
    - The file system, the terminal, the editor, the remote service and the
      clock are the environment.  What they hold is part of the [State];
      what they answer is an oracle ([Env]).
    - A method of the recorder is a computation [M A]: it reads and updates
      the recorder and the world and ends with a value, with a thrown
      exception, or never ([Pending]: a question that is not answered, a loop
      that does not stop).
    - A listener runs to its end before the next event is served; the
      events of the environment (a write of the codegen tool, the events of
      an editor) are served one after another.
    - Everything observable is appended to a trace of [event]s. *)

From Stdlib Require Import Ascii ZArith Lia.
From stdpp Require Import base strings list gmap pretty.

Set Warnings "-register-all".
Local Open Scope Z_scope.

(* ================================================================== *)
(** * String primitives of the language *)
(* ================================================================== *)

Module JS.

(** [s.startsWith(p)] *)
Fixpoint startsWith (s p : string) : bool :=
  match p, s with
  | EmptyString, _ => true
  | String _ _, EmptyString => false
  | String b p', String a s' => if decide (a = b) then startsWith s' p' else false
  end.

(** [s.includes(p)] *)
Fixpoint includes (s p : string) : bool :=
  startsWith s p ||
  match s with
  | EmptyString => false
  | String _ s' => includes s' p
  end.

(** [s.endsWith(p)] *)
Definition endsWith (s p : string) : bool :=
  startsWith (String.rev s) (String.rev p).

(** [s.split(sep)] for a separator of one character; never empty. *)
Fixpoint split (sep : ascii) (s : string) : list string :=
  match s with
  | EmptyString => [EmptyString]
  | String c r =>
      if decide (c = sep) then EmptyString :: split sep r
      else match split sep r with
           | x :: xs => String c x :: xs
           | [] => [String c EmptyString]
           end
  end.

(** [l.join(sep)] *)
Fixpoint join (sep : string) (l : list string) : string :=
  match l with
  | [] => EmptyString
  | [x] => x
  | x :: xs => x +:+ sep +:+ join sep xs
  end.

(** [l.slice(i)] *)
Definition slice {A} (i : nat) (l : list A) : list A := drop i l.

(** White space and line terminators of the language, by the length of their
    encoding: TAB LF VT FF CR SP; U+00A0; U+1680, U+2000 to U+200A, U+2028,
    U+2029, U+202F, U+205F, U+3000, U+FEFF. *)
Definition ws1 (a : ascii) : bool :=
  let n := N_of_ascii a in
  ((9 <=? n) && (n <=? 13) || (n =? 32))%N.

Definition ws2 (a b : ascii) : bool :=
  ((N_of_ascii a =? 194) && (N_of_ascii b =? 160))%N.

Definition ws3 (a b c : ascii) : bool :=
  let x := N_of_ascii a in
  let y := N_of_ascii b in
  let z := N_of_ascii c in
  ( (x =? 225) && (y =? 154) && (z =? 128)
  || (x =? 226) && (y =? 128) &&
       ((128 <=? z) && (z <=? 138) || (z =? 168) || (z =? 169) || (z =? 175))
  || (x =? 226) && (y =? 129) && (z =? 159)
  || (x =? 227) && (y =? 128) && (z =? 128)
  || (x =? 239) && (y =? 187) && (z =? 191))%N.

(** Strips the white space at the head of [s].  With [fwd = false] the
    string is read backwards, so the bytes of a character come last first. *)
Fixpoint strip (fwd : bool) (s : string) : string :=
  match s with
  | EmptyString => s
  | String a r1 =>
      if ws1 a then strip fwd r1
      else match r1 with
           | EmptyString => s
           | String b r2 =>
               if (if fwd then ws2 a b else ws2 b a) then strip fwd r2
               else match r2 with
                    | EmptyString => s
                    | String c r3 =>
                        if (if fwd then ws3 a b c else ws3 c b a)
                        then strip fwd r3 else s
                    end
           end
  end.

Definition trimStart (s : string) : string := strip true s.
Definition trimEnd (s : string) : string :=
  String.rev (strip false (String.rev s)).

(** [s.trim()] *)
Definition trim (s : string) : string := trimEnd (trimStart s).

(** Truth value of a string in a condition: it is not empty. *)
Definition truthy (s : string) : bool :=
  match s with EmptyString => false | String _ _ => true end.

(** [s === ''] *)
Definition isEmpty (s : string) : bool := negb (truthy s).

(** Drops the first [n] characters. *)
Fixpoint skip (n : nat) (s : string) : string :=
  match n, s with
  | O, _ => s
  | S n', String _ r => skip n' r
  | S _, EmptyString => EmptyString
  end.

(** [s.replace(pat, rep)] with a string pattern: the first occurrence only. *)
Fixpoint replace (pat rep s : string) : string :=
  if startsWith s pat then rep +:+ skip (String.length pat) s
  else match s with
       | EmptyString => EmptyString
       | String c r => String c (replace pat rep r)
       end.

(** [s.replace(/[:.]/g, '-')] *)
Fixpoint dashes (s : string) : string :=
  match s with
  | EmptyString => EmptyString
  | String c r =>
      String (if decide (c = ":"%char) then "-"%char
              else if decide (c = "."%char) then "-"%char else c) (dashes r)
  end.

End JS.

(* ================================================================== *)
(** * The script transformer: [wrapInTestFunction] *)
(* ================================================================== *)

Definition LF : ascii := "010"%char.
Definition nl : string := String LF EmptyString.

(** The state of the scanning loop of [wrapInTestFunction]. *)
Record scan := {
  testStartIndex : nat;
  imports : string;
  setup : string
}.

(** The [for] loop over the lines, from line [i] on ([ls] holds the lines
    [i], [i+1], ...).  A [break] stops the recursion. *)
Fixpoint scanLines (ls : list string) (i : nat) (st : scan) : scan :=
  match ls with
  | [] => st
  | l :: rest =>
      let line := JS.trim l in
      if JS.startsWith line "import " || JS.startsWith line "const "
         || JS.startsWith line "require("
      then scanLines rest (S i)
             {| testStartIndex := S i;
                imports := imports st +:+ l +:+ nl;
                setup := setup st |}
      else if JS.includes line "test =" || JS.includes line "browser ="
              || JS.includes line "context ="
      then scanLines rest (S i)
             {| testStartIndex := S i;
                imports := imports st;
                setup := setup st +:+ l +:+ nl |}
      else if (0 <? String.length line)%nat then st
      else scanLines rest (S i) st
  end.

Definition testHeader : string :=
  nl +:+ "const { test, expect } = require('@playwright/test');" +:+ nl +:+ nl
  +:+ "test('KushoAI Generated Test', async ({ page }) => {" +:+ nl.

Definition testFooter : string := nl +:+ "});".

Definition indentLine (line : string) : string :=
  if JS.truthy (JS.trim line) then "  " +:+ line else line.

Definition wrapInTestFunction (code : string) : string :=
  if JS.includes code "test(" || JS.includes code "describe(" then code
  else
    let lines := JS.split LF code in
    let st := scanLines lines 0
                {| testStartIndex := 0; imports := EmptyString; setup := EmptyString |} in
    let testCode := JS.join nl (JS.slice (testStartIndex st) lines) in
    imports st +:+ testHeader
    +:+ JS.join nl (indentLine <$> JS.split LF testCode)
    +:+ testFooter.

(* ================================================================== *)
(** * JSON values, [JSON.parse] and [JSON.stringify] *)
(* ================================================================== *)

Module JSON.

(** A parsed value.  A number keeps the exact decimal value of its literal,
    [(-1)^neg * mant * 10^exp10]; the members of an object are kept in the
    order of the text, duplicates included. *)
Inductive json :=
| JNull
| JBool (b : bool)
| JNumber (neg : bool) (mant : N) (exp10 : Z)
| JString (s : string)
| JArray (l : list json)
| JObject (l : list (string * json)).

Definition code (a : ascii) : N := N_of_ascii a.
Definition chr (n : N) : ascii := ascii_of_N n.
Definition str1 (a : ascii) : string := String a EmptyString.

Definition DQ : ascii := chr 34.
Definition BSL : ascii := chr 92.

(** Insignificant white space of the grammar: space, TAB, LF, CR. *)
Definition isWs (a : ascii) : bool :=
  let n := code a in ((n =? 32) || (n =? 9) || (n =? 10) || (n =? 13))%N.

Fixpoint skipWs (s : string) : string :=
  match s with
  | EmptyString => s
  | String a r => if isWs a then skipWs r else s
  end.

Definition digitVal (a : ascii) : option N :=
  let n := code a in
  if ((48 <=? n) && (n <=? 57))%N then Some (n - 48)%N else None.

Definition hexVal (a : ascii) : option N :=
  let n := code a in
  if ((48 <=? n) && (n <=? 57))%N then Some (n - 48)%N
  else if ((65 <=? n) && (n <=? 70))%N then Some (n - 55)%N
  else if ((97 <=? n) && (n <=? 102))%N then Some (n - 87)%N
  else None.

Definition hex4 (a b c d : ascii) : option N :=
  match hexVal a, hexVal b, hexVal c, hexVal d with
  | Some x, Some y, Some z, Some w => Some (((x * 16 + y) * 16 + z) * 16 + w)%N
  | _, _, _, _ => None
  end.

Definition isHigh (cu : N) : bool := ((55296 <=? cu) && (cu <=? 56319))%N.
Definition isLow (cu : N) : bool := ((56320 <=? cu) && (cu <=? 57343))%N.

(** U+FFFD, the replacement character: EF BF BD. *)
Definition replacement : string :=
  String (chr 239) (String (chr 191) (str1 (chr 189))).

(** The encoding of a code point, as the runtime writes it.  A surrogate
    that stands alone has no encoding: [fs.writeFileSync], as every
    encoder of the runtime, writes U+FFFD for it; the program does nothing
    else with the parsed text than test that it is not empty, send it in a
    header and write it to a file. *)
Definition utf8 (cp : N) : string :=
  (if cp <? 128 then str1 (chr cp)
   else if cp <? 2048 then
     String (chr (192 + cp / 64)) (str1 (chr (128 + cp mod 64)))
   else if isHigh cp || isLow cp then replacement
   else if cp <? 65536 then
     String (chr (224 + cp / 4096))
       (String (chr (128 + (cp / 64) mod 64)) (str1 (chr (128 + cp mod 64))))
   else
     String (chr (240 + cp / 262144))
       (String (chr (128 + (cp / 4096) mod 64))
          (String (chr (128 + (cp / 64) mod 64))
             (str1 (chr (128 + cp mod 64))))))%N.
Definition pair (hi lo : N) : N :=
  (65536 + (hi - 55296) * 1024 + (lo - 56320))%N.

Definition flush (pend : option N) : string :=
  match pend with Some hi => utf8 hi | None => EmptyString end.

Definition prepend (p : string) (o : option (string * string))
  : option (string * string) :=
  match o with Some (t, rest) => Some (p +:+ t, rest) | None => None end.

(** The escapes of one character: the character they stand for. *)
Definition escape (e : ascii) : option ascii :=
  let n := code e in
  (if n =? 34 then Some (chr 34) else if n =? 92 then Some (chr 92)
   else if n =? 47 then Some (chr 47) else if n =? 98 then Some (chr 8)
   else if n =? 102 then Some (chr 12) else if n =? 110 then Some (chr 10)
   else if n =? 114 then Some (chr 13) else if n =? 116 then Some (chr 9)
   else None)%N.

(** The text of a string literal after its opening quote, and what follows
    the closing quote.  [pend] is a high surrogate read from an escape and
    waiting for its low half. *)
Fixpoint stringBody (pend : option N) (s : string) : option (string * string) :=
  match s with
  | EmptyString => None
  | String c r =>
      if decide (c = DQ) then Some (flush pend, r)
      else if decide (c = BSL) then
        match r with
        | EmptyString => None
        | String e r1 =>
            if decide (e = "u"%char) then
              match r1 with
              | String h1 (String h2 (String h3 (String h4 r2))) =>
                  match hex4 h1 h2 h3 h4 with
                  | None => None
                  | Some cu =>
                      match pend with
                      | Some hi =>
                          if isLow cu
                          then prepend (utf8 (pair hi cu)) (stringBody None r2)
                          else if isHigh cu
                          then prepend (utf8 hi) (stringBody (Some cu) r2)
                          else prepend (utf8 hi +:+ utf8 cu) (stringBody None r2)
                      | None =>
                          if isHigh cu then stringBody (Some cu) r2
                          else prepend (utf8 cu) (stringBody None r2)
                      end
                  end
              | _ => None
              end
            else
              match escape e with
              | Some x => prepend (flush pend +:+ str1 x) (stringBody None r1)
              | None => None
              end
        end
      else if (code c <? 32)%N then None
      else prepend (flush pend +:+ str1 c) (stringBody None r)
  end.

(** A run of decimal digits: its value after [acc], its length, the rest. *)
Fixpoint digits (s : string) (acc : N) (len : nat) : N * nat * string :=
  match s with
  | EmptyString => (acc, len, s)
  | String c r =>
      match digitVal c with
      | Some d => digits r (acc * 10 + d)%N (S len)
      | None => (acc, len, s)
      end
  end.

(** [-? int frac? exp?] with [int = 0 | [1-9][0-9]*]. *)
Definition number (s : string) : option (json * string) :=
  let '(neg, s1) :=
    match s with
    | String c r => if decide (c = "-"%char) then (true, r) else (false, s)
    | EmptyString => (false, s)
    end in
  let int :=
    match s1 with
    | String c r =>
        if decide (c = "0"%char) then Some (0%N, r)
        else match digitVal c with
             | Some d => let '(v, _, r') := digits r d 1 in Some (v, r')
             | None => None
             end
    | EmptyString => None
    end in
  match int with
  | None => None
  | Some (i, s2) =>
      let frac :=
        match s2 with
        | String c r =>
            if decide (c = "."%char) then
              let '(v, len, r') := digits r i 0 in
              if (len =? 0)%nat then None else Some (v, len, r')
            else Some (i, 0%nat, s2)
        | EmptyString => Some (i, 0%nat, s2)
        end in
      match frac with
      | None => None
      | Some (m, flen, s3) =>
          let unscaled := Some (JNumber neg m (- Z.of_nat flen), s3) in
          match s3 with
          | String c r =>
              if bool_decide (c = "e"%char) || bool_decide (c = "E"%char) then
                let '(eneg, r1) :=
                  match r with
                  | String sg r' =>
                      if decide (sg = "-"%char) then (true, r')
                      else if decide (sg = "+"%char) then (false, r')
                      else (false, r)
                  | EmptyString => (false, r)
                  end in
                let '(e, len, r2) := digits r1 0%N 0 in
                if (len =? 0)%nat then None
                else
                  let ez := if eneg then - Z.of_N e else Z.of_N e in
                  Some (JNumber neg m (ez - Z.of_nat flen), r2)
              else unscaled
          | EmptyString => unscaled
          end
      end
  end.

(** The result of a parser that runs on fuel. *)
Inductive parsed :=
| Parsed (v : json) (rest : string)
| Malformed
| OutOfFuel.

Definition ofOption (o : option (json * string)) : parsed :=
  match o with Some (v, r) => Parsed v r | None => Malformed end.

(** A value, after optional white space; then the elements of an array after
    its bracket and the members of an object after its brace, both not
    empty, up to the closing sign. *)
Fixpoint value (fuel : nat) (s : string) : parsed :=
  match fuel with
  | O => OutOfFuel
  | S f =>
      match skipWs s with
      | EmptyString => Malformed
      | String c r =>
          if decide (c = "{"%char) then
            match skipWs r with
            | String c' r' =>
                if decide (c' = "}"%char) then Parsed (JObject []) r'
                else members f (String c' r') []
            | EmptyString => Malformed
            end
          else if decide (c = "["%char) then
            match skipWs r with
            | String c' r' =>
                if decide (c' = "]"%char) then Parsed (JArray []) r'
                else elements f (String c' r') []
            | EmptyString => Malformed
            end
          else if decide (c = DQ) then
            match stringBody None r with
            | Some (t, r') => Parsed (JString t) r'
            | None => Malformed
            end
          else if JS.startsWith (String c r) "true"
          then Parsed (JBool true) (JS.skip 4 (String c r))
          else if JS.startsWith (String c r) "false"
          then Parsed (JBool false) (JS.skip 5 (String c r))
          else if JS.startsWith (String c r) "null"
          then Parsed JNull (JS.skip 4 (String c r))
          else ofOption (number (String c r))
      end
  end
with elements (fuel : nat) (s : string) (acc : list json) : parsed :=
  match fuel with
  | O => OutOfFuel
  | S f =>
      match value f s with
      | Parsed v r =>
          match skipWs r with
          | String c r' =>
              if decide (c = ","%char) then elements f r' (acc ++ [v])
              else if decide (c = "]"%char) then Parsed (JArray (acc ++ [v])) r'
              else Malformed
          | EmptyString => Malformed
          end
      | other => other
      end
  end
with members (fuel : nat) (s : string) (acc : list (string * json)) : parsed :=
  match fuel with
  | O => OutOfFuel
  | S f =>
      match skipWs s with
      | String q r =>
          if decide (q = DQ) then
            match stringBody None r with
            | Some (k, r1) =>
                match skipWs r1 with
                | String c r2 =>
                    if decide (c = ":"%char) then
                      match value f r2 with
                      | Parsed v r3 =>
                          match skipWs r3 with
                          | String c' r4 =>
                              if decide (c' = ","%char)
                              then members f r4 (acc ++ [(k, v)])
                              else if decide (c' = "}"%char)
                              then Parsed (JObject (acc ++ [(k, v)])) r4
                              else Malformed
                          | EmptyString => Malformed
                          end
                      | other => other
                      end
                    else Malformed
                | EmptyString => Malformed
                end
            | None => Malformed
            end
          else Malformed
      | EmptyString => Malformed
      end
  end.

(** Fuel that [value] never exhausts on [s] (see [value_fuel]). *)
Definition fuelFor (s : string) : nat := (2 * String.length s + 1)%nat.

(** [JSON.parse(s)]; [None] when it throws. *)
Definition parse (s : string) : option json :=
  match value (fuelFor s) s with
  | Parsed v r =>
      match skipWs r with EmptyString => Some v | String _ _ => None end
  | Malformed | OutOfFuel => None
  end.

(** [v[k]] on an object: the last member of that name. *)
Fixpoint member (k : string) (l : list (string * json)) : option json :=
  match l with
  | [] => None
  | (k', v) :: r =>
      match member k r with
      | Some v' => Some v'
      | None => if decide (k' = k) then Some v else None
      end
  end.

(** [v.k]: [None] when the access throws (on [null]); otherwise the value
    read, where [None] is [undefined]. *)
Definition get (v : json) (k : string) : option (option json) :=
  match v with
  | JNull => None
  | JObject l => Some (member k l)
  | JBool _ | JNumber _ _ _ | JString _ | JArray _ => Some None
  end.

(** A number literal denotes zero when its digits are zero, or when its
    value is at most [2^-1075] and rounds to zero. *)
Definition isZero (mant : N) (exp10 : Z) : bool :=
  (mant =? 0)%N
  || ((exp10 <? 0) && (Z.of_N mant * 2 ^ 1075 <=? 10 ^ (- exp10))).

(** Truth value in a condition. *)
Definition truthy (v : json) : bool :=
  match v with
  | JNull => false
  | JBool b => b
  | JNumber _ m e => negb (isZero m e)
  | JString s => JS.truthy s
  | JArray _ | JObject _ => true
  end.

Definition truthyOpt (o : option json) : bool :=
  match o with Some v => truthy v | None => false end.

Definition hexDigit (n : N) : ascii :=
  if (n <? 10)%N then chr (48 + n) else chr (87 + n).

(** The escape of one character inside a quoted string. *)
Definition quoteChar (c : ascii) : string :=
  let n := code c in
  (if n =? 34 then String BSL (str1 DQ)
   else if n =? 92 then String BSL (str1 BSL)
   else if n =? 8 then String BSL "b"
   else if n =? 12 then String BSL "f"
   else if n =? 10 then String BSL "n"
   else if n =? 13 then String BSL "r"
   else if n =? 9 then String BSL "t"
   else if n <? 32 then
     String BSL ("u00" +:+ String (hexDigit (n / 16)) (str1 (hexDigit (n mod 16))))
   else str1 c)%N.

Fixpoint quoteBody (s : string) : string :=
  match s with
  | EmptyString => EmptyString
  | String c r => quoteChar c +:+ quoteBody r
  end.

(** [JSON.stringify(s)] for a string [s]. *)
Definition quote (s : string) : string :=
  str1 DQ +:+ quoteBody s +:+ str1 DQ.

End JSON.

(* ================================================================== *)
(** * [path.join] (POSIX) *)
(* ================================================================== *)

Module Path.

Definition SEP : ascii := "/"%char.

(** One segment of the path pushed on the segments kept so far (the last
    one first): empty and [.] segments are dropped, [..] removes the segment
    before it, or stays when there is none to remove and the path is
    relative. *)
Definition step (allowAboveRoot : bool) (stack : list string) (seg : string)
  : list string :=
  if decide (seg = EmptyString) then stack
  else if decide (seg = ".") then stack
  else if decide (seg = "..") then
    match stack with
    | top :: below =>
        if decide (top = "..")
        then (if allowAboveRoot then ".." :: stack else stack)
        else below
    | [] => if allowAboveRoot then [".."] else []
    end
  else seg :: stack.

Definition normalizeString (path : string) (allowAboveRoot : bool) : string :=
  JS.join "/" (rev (foldl (step allowAboveRoot) [] (JS.split SEP path))).

(** [path.normalize(p)] *)
Definition normalize (path : string) : string :=
  if JS.isEmpty path then "."
  else
    let isAbsolute := JS.startsWith path "/" in
    let trailingSeparator := JS.endsWith path "/" in
    let p := normalizeString path (negb isAbsolute) in
    if JS.isEmpty p then
      if isAbsolute then "/" else if trailingSeparator then "./" else "."
    else
      (if isAbsolute then "/" else EmptyString)
      +:+ p +:+ (if trailingSeparator then "/" else EmptyString).

(** [path.join(...args)] *)
Definition join (args : list string) : string :=
  match filter (λ a, a ≠ EmptyString) args with
  | [] => "."
  | parts => normalize (JS.join "/" parts)
  end.

End Path.

(* ================================================================== *)
(** * The values of the headers of a request ([http]) *)
(* ================================================================== *)

Module Http.

Import JSON.

(** The characters that the value of a header can hold: TAB, U+0020 to
    U+007E and U+0080 to U+00FF (in UTF-8 the latter take two bytes, the
    first of which is C2 or C3). *)
Fixpoint headerChars (s : string) : bool :=
  match s with
  | EmptyString => true
  | String a r =>
      let n := code a in
      (if (n =? 9) || ((32 <=? n) && (n <=? 126)) then headerChars r
       else if (n =? 194) || (n =? 195) then
         match r with
         | String b r' =>
             (128 <=? code b) && (code b <=? 191) && headerChars r'
         | EmptyString => false
         end
       else false)%N
  end.

(** Whether the text that the runtime makes of the value [v] can be the
    value of a header.  The text of [null], of a boolean and of a number is
    ASCII, that of an object is [[object Object]], that of an array is the
    texts of its elements with commas between them. *)
Fixpoint headerValue (v : json) : bool :=
  match v with
  | JString s => headerChars s
  | JArray l => forallb headerValue l
  | JNull | JBool _ | JNumber _ _ _ | JObject _ => true
  end.

(** [validateHeaderValue]: a header given as [undefined] is refused, and so
    is one whose text holds a character that a header cannot hold. *)
Definition validHeader (value : option json) : bool :=
  match value with
  | Some v => headerValue v
  | None => false
  end.

End Http.

(* ================================================================== *)
(** * The recorder, the world around it and what can be observed *)
(* ================================================================== *)

Import JSON.

(** The external analyzer ([./wait-enhancer]), consumed as a pair of total
    functions. *)
Record WaitEnhancer := {
  enhanceCode : string → string;
  analyzeAndSuggestWaits : string → list string
}.

(** A spawned child process. *)
Record child := { command : string; arguments : list string }.

(** The callbacks given to [onUpdate].  The program has one: the observer of
    the [record] command ([src/index.js]), closed over [options.output]. *)
Inductive observer :=
| SaveOutput (output : option string).

(** The fields of [KushoRecorder]. *)
Record KushoRecorder := {
  outputFile : string;
  recordingDir : string;
  codegenProcess : option child;
  watcher : option string;
  onCodeUpdate : option observer;
  currentCode : string;
  waitEnhancer : WaitEnhancer;
  enableWaitEnhancement : bool;
  credentialsFile : string
}.

(** [new KushoRecorder()], for the directory of the module and the home
    directory of the user. *)
Definition constructor (dirname home : string) (enhancer : WaitEnhancer)
  : KushoRecorder :=
  {| outputFile := Path.join [dirname; "recordings"; "generated-test.js"];
     recordingDir := Path.join [dirname; "recordings"];
     codegenProcess := None;
     watcher := None;
     onCodeUpdate := None;
     currentCode := EmptyString;
     waitEnhancer := enhancer;
     enableWaitEnhancement := true;
     credentialsFile := Path.join [home; ".kusho-credentials"] |}.

(** What a method can throw. *)
Inductive exn :=
| FsError (path : string)
| SyntaxError
| TypeError
| StatusError (statusCode : Z) (data : string)
| RequestError (message : string).

(** The request sent to the extension service. *)
Record request := {
  postData : string;
  userEmail : option json;
  authToken : option json
}.

(** What comes back: a response, or the [error] event of the request. *)
Inductive reply :=
| Response (statusCode : Z) (data : string)
| Failure (message : string).

(** What happens to a spawned editor, in order: the user saves the file, the
    process emits [error] (it could not be launched), the process emits
    [close] with its exit code, which is [None] ([null]) when a signal ended
    it (after a failed launch the runtime reports a [close] too, with a
    negative code). *)
Inductive editorEvent :=
| Saves (content : string)
| EmitsError
| EmitsClose (code : option Z).

(** The answers of the environment. *)
Record Env := {
  editor : string → string → list editorEvent;
  service : request → reply;
  now : string;
  coerce : json → option string
}.

(** [editor cmd file]: the life of the editor [cmd] spawned on [file].
    [service r]: the outcome of the exchange for the request [r], which is
    taken to end: with a response, or with the [error] event of the request
    (a refused connection), a [Failure].
    [now]: the ISO text of the current date.
    [coerce v]: what [fs.writeFileSync] does with data [v] that is not a
    string: [None] when it throws, [Some t] when it writes the text [t]. *)

Inductive message :=
| MsgSuggestions
| MsgSuggestion (s : string)
| MsgRule
| MsgCode (code : string)
| MsgSavedTo (fullPath : string)
| MsgNoCode
| MsgCompleted
| MsgTestSaved
| MsgLocation (path : string)
| MsgOpeningEditor
| MsgEditorHint
| MsgNoEditor
| MsgManualEdit (path : string)
| MsgEdited
| MsgEditorErrors
| MsgCredentialsUnreadable
| MsgCredentialsRequired
| MsgCredentialsSaved
| MsgCredentialsNotSaved
| MsgUpdateCredentials
| MsgExtending
| MsgNewline
| MsgExtended
| MsgUpdated (path : string)
| MsgExtendError (e : exn)
| MsgPreserved (path : string).

Inductive prompt := AskFilename | AskEmail | AskToken.

(** The observable events. *)
Inductive event :=
| Log (m : message)
| EnhanceCode (code : string)
| AnalyzeAndSuggestWaits (code : string)
| Callback (code : string)
| Question (q : prompt)
| Spawn (cmd : string) (args : list string)
| Kill
| CloseWatcher
| SetInterval
| ClearInterval
| Request (r : request).

(** An editor that was spawned and whose events are still to come: what its
    two listeners are closed over. *)
Record editorChild := {
  editedFile : string;
  candidates : list string;
  position : nat
}.

(** The recorder and the world.  [files] maps a path to the content of the
    file there; a read of a path in [noRead] and a write to a path in
    [noWrite] throw; [stdin] holds the lines the user will enter;
    [children] holds the spawned editors, the oldest first. *)
Record State := {
  this : KushoRecorder;
  files : gmap string string;
  noRead : gset string;
  noWrite : gset string;
  stdin : list string;
  children : list editorChild;
  trace : list event
}.

Definition withThis (r : KushoRecorder) (s : State) : State :=
  {| this := r; files := files s; noRead := noRead s; noWrite := noWrite s;
     stdin := stdin s; children := children s; trace := trace s |}.

Definition withFiles (f : gmap string string) (s : State) : State :=
  {| this := this s; files := f; noRead := noRead s; noWrite := noWrite s;
     stdin := stdin s; children := children s; trace := trace s |}.

Definition withStdin (l : list string) (s : State) : State :=
  {| this := this s; files := files s; noRead := noRead s;
     noWrite := noWrite s; stdin := l; children := children s;
     trace := trace s |}.

Definition withTrace (t : list event) (s : State) : State :=
  {| this := this s; files := files s; noRead := noRead s;
     noWrite := noWrite s; stdin := stdin s; children := children s;
     trace := t |}.

Definition withChildren (c : list editorChild) (s : State) : State :=
  {| this := this s; files := files s; noRead := noRead s;
     noWrite := noWrite s; stdin := stdin s; children := c;
     trace := trace s |}.

Definition setCurrentCode (c : string) (r : KushoRecorder) : KushoRecorder :=
  {| outputFile := outputFile r; recordingDir := recordingDir r;
     codegenProcess := codegenProcess r; watcher := watcher r;
     onCodeUpdate := onCodeUpdate r; currentCode := c;
     waitEnhancer := waitEnhancer r;
     enableWaitEnhancement := enableWaitEnhancement r;
     credentialsFile := credentialsFile r |}.

Definition setWatcher (w : option string) (r : KushoRecorder) : KushoRecorder :=
  {| outputFile := outputFile r; recordingDir := recordingDir r;
     codegenProcess := codegenProcess r; watcher := w;
     onCodeUpdate := onCodeUpdate r; currentCode := currentCode r;
     waitEnhancer := waitEnhancer r;
     enableWaitEnhancement := enableWaitEnhancement r;
     credentialsFile := credentialsFile r |}.

Definition setCodegenProcess (p : option child) (r : KushoRecorder)
  : KushoRecorder :=
  {| outputFile := outputFile r; recordingDir := recordingDir r;
     codegenProcess := p; watcher := watcher r;
     onCodeUpdate := onCodeUpdate r; currentCode := currentCode r;
     waitEnhancer := waitEnhancer r;
     enableWaitEnhancement := enableWaitEnhancement r;
     credentialsFile := credentialsFile r |}.

Definition setOnCodeUpdate (o : option observer) (r : KushoRecorder)
  : KushoRecorder :=
  {| outputFile := outputFile r; recordingDir := recordingDir r;
     codegenProcess := codegenProcess r; watcher := watcher r;
     onCodeUpdate := o; currentCode := currentCode r;
     waitEnhancer := waitEnhancer r;
     enableWaitEnhancement := enableWaitEnhancement r;
     credentialsFile := credentialsFile r |}.

Definition setEnableWaitEnhancement (b : bool) (r : KushoRecorder)
  : KushoRecorder :=
  {| outputFile := outputFile r; recordingDir := recordingDir r;
     codegenProcess := codegenProcess r; watcher := watcher r;
     onCodeUpdate := onCodeUpdate r; currentCode := currentCode r;
     waitEnhancer := waitEnhancer r;
     enableWaitEnhancement := b;
     credentialsFile := credentialsFile r |}.

(* ================================================================== *)
(** * Computations *)
(* ================================================================== *)

Inductive outcome (A : Type) :=
| Ok (a : A)
| Throw (e : exn)
| Pending.
Arguments Ok {A} a.
Arguments Throw {A} e.
Arguments Pending {A}.

Definition M (A : Type) : Type := State → outcome A * State.

#[global] Instance M_ret : MRet M := λ A a s, (Ok a, s).

#[global] Instance M_bind : MBind M := λ A B f m s,
  match m s with
  | (Ok a, s') => f a s'
  | (Throw e, s') => (Throw e, s')
  | (Pending, s') => (Pending, s')
  end.

Definition throw {A} (e : exn) : M A := λ s, (Throw e, s).

(** [try { m } catch (e) { h e }] *)
Definition catch {A} (m : M A) (h : exn → M A) : M A := λ s,
  match m s with
  | (Throw e, s') => h e s'
  | r => r
  end.

Definition gets {A} (f : State → A) : M A := λ s, (Ok (f s), s).
Definition modify (f : State → State) : M unit := λ s, (Ok tt, f s).

Definition emit (e : event) : M unit :=
  modify (λ s, withTrace (trace s ++ [e]) s).

(** [console.log], [console.error] and [process.stdout.write] *)
Definition log (m : message) : M unit := emit (Log m).

Definition update (f : KushoRecorder → KushoRecorder) : M unit :=
  modify (λ s, withThis (f (this s)) s).

(** [fs.existsSync(p)] *)
Definition existsSync (p : string) : M bool :=
  gets (λ s, bool_decide (is_Some (files s !! p))).

(** [fs.readFileSync(p, 'utf8')] *)
Definition readFileSync (p : string) : M string := λ s,
  match files s !! p with
  | Some c => if decide (p ∈ noRead s) then (Throw (FsError p), s) else (Ok c, s)
  | None => (Throw (FsError p), s)
  end.

(** [fs.writeFileSync(p, data)] for a string [data] *)
Definition writeFileSync (p data : string) : M unit := λ s,
  if decide (p ∈ noWrite s) then (Throw (FsError p), s)
  else (Ok tt, withFiles (<[p := data]> (files s)) s).

(** [rl.question(q, callback)]: the value handed to the callback. *)
Definition readLine : M string := λ s,
  match stdin s with
  | l :: rest => (Ok l, withStdin rest s)
  | [] => (Pending, s)
  end.

Definition question (q : prompt) : M string :=
  _ ← emit (Question q); readLine.

(** [l.forEach(f)] *)
Fixpoint forEach {A} (l : list A) (f : A → M unit) : M unit :=
  match l with
  | [] => mret tt
  | x :: r => _ ← f x; forEach r f
  end.

(* ================================================================== *)
(** * The methods of [KushoRecorder] *)
(* ================================================================== *)

Section Recorder.

Context (env : Env).

Definition field {A} (f : KushoRecorder → A) : M A := gets (λ s, f (this s)).

(** A call of an [async] method that is not awaited: the caller goes on
    whether the method completes or not. *)
Definition detach (m : M unit) : M unit := λ s,
  match m s with
  | (Pending, s') => (Ok tt, s')
  | r => r
  end.

Definition saveCodeToFile (filename : string) : M string :=
  dir ← field recordingDir;
  let fullPath := Path.join [dir; filename] in
  code ← field currentCode;
  _ ← writeFileSync fullPath code;
  _ ← log (MsgSavedTo fullPath);
  mret fullPath.

(** The body of the observer registered by the [record] command. *)
Definition runObserver (o : observer) (code : string) : M unit :=
  match o with
  | SaveOutput (Some output) =>
      if JS.truthy output then _ ← saveCodeToFile output; mret tt else mret tt
  | SaveOutput None => mret tt
  end.

Definition onUpdate (callback : observer) : M unit :=
  update (setOnCodeUpdate (Some callback)).

Definition getCurrentCode : M string := field currentCode.

Definition handleCodeUpdate (code : string) : M unit :=
  enabled ← field enableWaitEnhancement;
  finalCode ←
    (if enabled : bool then
       enhancer ← field waitEnhancer;
       _ ← emit (EnhanceCode code);
       let enhanced := enhanceCode enhancer code in
       _ ← emit (AnalyzeAndSuggestWaits code);
       let suggestions := analyzeAndSuggestWaits enhancer code in
       _ ← (if (0 <? length suggestions)%nat then
              _ ← log MsgSuggestions;
              forEach suggestions (λ x, log (MsgSuggestion x))
            else mret tt);
       mret enhanced
     else mret code);
  let finalCode := wrapInTestFunction finalCode in
  _ ← log MsgRule;
  _ ← log (MsgCode finalCode);
  _ ← log MsgRule;
  _ ← update (setCurrentCode finalCode);
  callback ← field onCodeUpdate;
  match callback with
  | Some o => _ ← emit (Callback finalCode); runObserver o finalCode
  | None => mret tt
  end.

(** The listener that [startFileWatcher] gives to [fs.watch]. *)
Definition watchListener (eventType : string) : M unit :=
  if decide (eventType = "change") then
    catch
      (out ← field outputFile;
       newCode ← readFileSync out;
       current ← field currentCode;
       if decide (newCode ≠ current) then
         _ ← update (setCurrentCode newCode);
         handleCodeUpdate newCode
       else mret tt)
      (λ _, mret tt)
  else mret tt.

Definition startFileWatcher : M unit :=
  out ← field outputFile;
  update (setWatcher (Some out)).

(** One round of [checkFile] in [watchForChanges]; when the file is not
    there yet the timer is armed again. *)
Definition checkFile : M unit :=
  out ← field outputFile;
  found ← existsSync out;
  if found : bool then startFileWatcher else mret tt.

Definition stopWatching : M unit :=
  w ← field watcher;
  match w with
  | Some _ => _ ← emit CloseWatcher; update (setWatcher None)
  | None => mret tt
  end.

Definition stopRecording : M string :=
  p ← field codegenProcess;
  _ ← match p with
      | Some _ => _ ← emit Kill; update (setCodegenProcess None)
      | None => mret tt
      end;
  _ ← stopWatching;
  out ← field outputFile;
  found ← existsSync out;
  if found : bool then readFileSync out else field currentCode.

(** ** Credentials *)

Definition credentialsOf (email token : string) : json :=
  JObject [("email", JString email); ("token", JString token)].

(** [JSON.stringify({ email, token }, null, 2)] *)
Definition stringifyCredentials (email token : string) : string :=
  "{" +:+ nl +:+ "  " +:+ quote "email" +:+ ": " +:+ quote email +:+ ","
  +:+ nl +:+ "  " +:+ quote "token" +:+ ": " +:+ quote token +:+ nl +:+ "}".

Definition promptForCredentials : M json :=
  _ ← log MsgCredentialsRequired;
  email ← question AskEmail;
  token ← question AskToken;
  let credentials := credentialsOf email token in
  file ← field credentialsFile;
  _ ← catch
        (_ ← writeFileSync file (stringifyCredentials email token);
         log MsgCredentialsSaved)
        (λ _, log MsgCredentialsNotSaved);
  mret credentials.

Definition getCredentials : M json :=
  file ← field credentialsFile;
  cached ←
    catch
      (found ← existsSync file;
       if found : bool then
         data ← readFileSync file;
         match parse data with
         | Some v => mret (Some v)
         | None => throw SyntaxError
         end
       else mret None)
      (λ _, _ ← log MsgCredentialsUnreadable; mret None);
  match cached with
  | Some v => mret v
  | None => promptForCredentials
  end.

Definition updateCredentials : M json :=
  _ ← log MsgUpdateCredentials;
  promptForCredentials.

(** ** The extension client *)

(** [a || k] where [a] is the value of a property read *)
Definition orElse (a : option json) (k : json) : json :=
  match a with
  | Some v => if truthy v then v else k
  | None => k
  end.

(** What the [end] listener resolves with on a 2xx response. *)
Definition resolved (data : string) : json :=
  match parse data with
  | Some response =>
      match get response "extendedScript", get response "script" with
      | Some a, Some b => orElse a (orElse b (JString data))
      | _, _ => JString data
      end
  | None => JString data
  end.

(** [JSON.stringify({ script: scriptContent })] *)
Definition stringifyScript (scriptContent : string) : string :=
  "{" +:+ quote "script" +:+ ":" +:+ quote scriptContent +:+ "}".

(** [https.request] sets the headers before anything is sent, and throws
    a type error for a header that is not valid; thrown inside the executor
    of the promise, the error rejects it. *)
Definition callExtendAPI (scriptContent : string) (credentials : json) : M json :=
  let postData := stringifyScript scriptContent in
  match get credentials "email", get credentials "token" with
  | Some email, Some token =>
      if Http.validHeader email && Http.validHeader token then
        let r := {| postData := postData; userEmail := email;
                    authToken := token |} in
        _ ← emit (Request r);
        match service env r with
        | Response statusCode data =>
            if (200 <=? statusCode) && (statusCode <? 300)
            then mret (resolved data)
            else throw (StatusError statusCode data)
        | Failure message => throw (RequestError message)
        end
      else throw TypeError
  | _, _ => throw TypeError
  end.

(** [fs.writeFileSync(p, v)] for the value the promise resolved with. *)
Definition writeData (p : string) (v : json) : M unit :=
  match v with
  | JString t => writeFileSync p t
  | _ =>
      match coerce env v with
      | Some t => writeFileSync p t
      | None => throw TypeError
      end
  end.

(** The [try] block is cut where [loadingInterval] is assigned: the handler
    clears the interval exactly when the exception comes from the part after
    that point. *)
Definition extendScriptWithAPI (filePath : string) : M unit :=
  _ ← log MsgExtending;
  catch
    (credentials ← getCredentials;
     currentContent ← readFileSync filePath;
     _ ← emit SetInterval;
     catch
       (extendedScript ← callExtendAPI currentContent credentials;
        _ ← emit ClearInterval;
        _ ← log MsgNewline;
        _ ← writeData filePath extendedScript;
        _ ← log MsgExtended;
        log (MsgUpdated filePath))
       (λ error, _ ← emit ClearInterval; _ ← log MsgNewline; throw error))
    (λ error,
       _ ← log (MsgExtendError error);
       log (MsgPreserved filePath)).

(** ** Saving and editing *)

(** The name tried at the round [counter] of the loop. *)
Definition candidate (baseName : string) (counter : nat) : string :=
  baseName +:+ "-" +:+ pretty counter +:+ ".js".

(** The [while] loop of [saveCodeToUniqueFile], entered with [fullPath] and
    [counter]; it yields the final [fullPath].  A loop that outlives its
    fuel does not end. *)
Fixpoint whileExists (fuel : nat) (baseName : string) (counter : nat)
    (fullPath : string) : M string :=
  match fuel with
  | O => λ s, (Pending, s)
  | S fuel' =>
      found ← existsSync fullPath;
      if found : bool then
        dir ← field recordingDir;
        whileExists fuel' baseName (S counter)
          (Path.join [dir; candidate baseName counter])
      else mret fullPath
  end.

(** The fuel covers the first name and one round more than there are files
    (see [whileExists_ends]). *)
Definition saveCodeToUniqueFile (filename : string) : M string :=
  let baseName := JS.replace ".js" EmptyString filename in
  dir ← field recordingDir;
  n ← gets (λ s, size (files s));
  fullPath ← whileExists (S (S n)) baseName 1 (Path.join [dir; filename]);
  code ← field currentCode;
  _ ← writeFileSync fullPath code;
  mret fullPath.

(** The editor at [index] is spawned and its two listeners are registered;
    [editors[index]] exists exactly when [index < editors.length]. *)
Definition tryTerminalEditor (filePath : string) (editors : list string)
    (index : nat) : M unit :=
  match editors !! index with
  | None =>
      _ ← log MsgNoEditor;
      log (MsgManualEdit filePath)
  | Some ed =>
      _ ← emit (Spawn ed [filePath]);
      modify (λ s, withChildren
                     (children s ++ [{| editedFile := filePath;
                                        candidates := editors;
                                        position := index |}]) s)
  end.

(** The listener of the [error] event of the editor [c]. *)
Definition onEditorError (c : editorChild) : M unit :=
  tryTerminalEditor (editedFile c) (candidates c) (S (position c)).

(** The listener of the [close] event of the editor [c]. *)
Definition onEditorClose (c : editorChild) (code : option Z) : M unit :=
  if decide (code = Some 0) then
    _ ← log MsgEdited;
    detach (extendScriptWithAPI (editedFile c))
  else log MsgEditorErrors.

(** One event of the editor [c] reaches its listeners. *)
Definition deliver (c : editorChild) (ev : editorEvent) : M unit :=
  match ev with
  | Saves content =>
      modify (λ s, withFiles (<[editedFile c := content]> (files s)) s)
  | EmitsError => onEditorError c
  | EmitsClose code => onEditorClose c code
  end.

(** The runtime serves the events of the spawned editors, the oldest editor
    first, for [n] editors at most. *)
Fixpoint serveEditors (n : nat) : M unit :=
  match n with
  | O => mret tt
  | S n' =>
      cs ← gets children;
      match cs with
      | [] => mret tt
      | c :: rest =>
          _ ← modify (withChildren rest);
          _ ← match candidates c !! position c with
              | Some ed => forEach (editor env ed (editedFile c)) (deliver c)
              | None => mret tt
              end;
          serveEditors n'
      end
  end.

Definition terminalEditors : list string := ["nano"; "vim"; "vi"].

Definition openEditorInTerminal (filePath : string) : M unit :=
  _ ← log MsgOpeningEditor;
  _ ← log MsgEditorHint;
  tryTerminalEditor filePath terminalEditors 0.

Definition promptForFilename : M unit :=
  code ← field currentCode;
  if negb (JS.truthy code) || JS.isEmpty (JS.trim code) then log MsgNoCode
  else
    _ ← log MsgCompleted;
    answer ← question AskFilename;
    let filename :=
      if negb (JS.truthy answer) || JS.isEmpty (JS.trim answer)
      then "kusho-test-" +:+ JS.dashes (now env)
      else answer in
    let filename :=
      if negb (JS.endsWith filename ".js") then filename +:+ ".js"
      else filename in
    finalPath ← saveCodeToUniqueFile filename;
    _ ← log MsgTestSaved;
    _ ← log (MsgLocation finalPath);
    openEditorInTerminal finalPath.

(** The listener of the [close] event of the codegen process. *)
Definition onCodegenClose (code : option Z) : M unit :=
  _ ← stopWatching;
  promptForFilename.

(** The codegen tool rewrites the artifact file; an attached watcher is
    told of the change. *)
Definition codegenWrites (content : string) : M unit :=
  out ← field outputFile;
  _ ← modify (λ s, withFiles (<[out := content]> (files s)) s);
  w ← field watcher;
  match w with
  | Some _ => watchListener "change"
  | None => mret tt
  end.

End Recorder.

(* ================================================================== *)
(** * Vocabulary of the statements *)
(* ================================================================== *)

(** The marker check of [wrapInTestFunction]. *)
Definition hasMarker (code : string) : bool :=
  JS.includes code "test(" || JS.includes code "describe(".

(** A state with one more event. *)
Definition after (e : event) (s : State) : State :=
  withTrace (trace s ++ [e]) s.

(** A state with more events. *)
Definition afterAll (es : list event) (s : State) : State :=
  withTrace (trace s ++ es) s.

(** The three lines that display a transformed code. *)
Definition display (code : string) : list event :=
  [Log MsgRule; Log (MsgCode code); Log MsgRule].

(** Events of the enhancement stage. *)
Definition ofEnhancement (e : event) : bool :=
  match e with
  | EnhanceCode _ | AnalyzeAndSuggestWaits _ => true
  | Log MsgSuggestions | Log (MsgSuggestion _) => true
  | _ => false
  end.

(** Events of the extension step. *)
Definition ofExtension (e : event) : bool :=
  match e with
  | Log MsgExtending | Log MsgExtended | Log (MsgUpdated _)
  | Log (MsgExtendError _) | Log (MsgPreserved _) | Log MsgNewline => true
  | Log MsgCredentialsUnreadable | Log MsgCredentialsRequired
  | Log MsgCredentialsSaved | Log MsgCredentialsNotSaved => true
  | Question AskEmail | Question AskToken => true
  | SetInterval | ClearInterval | Request _ => true
  | _ => false
  end.

(** The number of transformations displayed in a trace. *)
Definition isDisplay (e : event) : bool :=
  match e with Log (MsgCode _) => true | _ => false end.

Definition transformations (t : list event) : nat :=
  length (filter (λ e, isDisplay e = true) t).

(** A reply that is not a success. *)
Definition failing (r : reply) : Prop :=
  match r with
  | Response statusCode _ => ¬ (200 ≤ statusCode < 300)
  | Failure _ => True
  end.

(** The parts of a state that a change event leaves alone. *)
Definition sameSetup (s s' : State) : Prop :=
  outputFile (this s') = outputFile (this s)
  ∧ watcher (this s') = watcher (this s)
  ∧ enableWaitEnhancement (this s') = enableWaitEnhancement (this s)
  ∧ onCodeUpdate (this s') = onCodeUpdate (this s)
  ∧ noRead s' = noRead s.

(* ================================================================== *)
(** * Scenarios *)
(* ================================================================== *)

(** An analyzer that changes nothing and suggests nothing. *)
Definition quietEnhancer : WaitEnhancer :=
  {| enhanceCode := λ code, code; analyzeAndSuggestWaits := λ _, [] |}.

(** An environment where no editor can be launched and whose service
    answers [r]. *)
Definition answering (r : reply) : Env :=
  {| editor := λ _ _, [EmitsError; EmitsClose (Some (-2))];
     service := λ _, r;
     now := "2026-01-01T00:00:00.000Z";
     coerce := λ _, None |}.

(** A recorder in [/app] for the user of [/home/u], in a world with the
    given files and answers, where every file can be read and written. *)
Definition world (r : KushoRecorder) (fs : gmap string string)
    (answers : list string) : State :=
  {| this := r; files := fs; noRead := ∅; noWrite := ∅;
     stdin := answers; children := []; trace := [] |}.

Definition recorder : KushoRecorder := constructor "/app" "/home/u" quietEnhancer.

(** A session of [record --no-wait-enhancement] whose watcher is attached. *)
Definition watching : State :=
  world (setWatcher (Some (outputFile recorder))
           (setEnableWaitEnhancement false recorder)) ∅ [].

Definition click : string := "await page.click('#a');".

(** [n] writes of the same content, each reported to the watcher. *)
Fixpoint sameWrites (n : nat) (content : string) : M unit :=
  match n with
  | O => mret tt
  | S n' => _ ← codegenWrites content; sameWrites n' content
  end.

(** The session [watching] after the codegen tool wrote [click] once. *)
Definition afterOneWrite : State := (codegenWrites click watching).2.

(** What [stopRecording] answers in [s]. *)
Definition stopAnswer (s : State) : outcome string :=
  match files s !! outputFile (this s) with
  | Some content =>
      if decide (outputFile (this s) ∈ noRead s)
      then Throw (FsError (outputFile (this s)))
      else Ok content
  | None => Ok (currentCode (this s))
  end.

(** The events of [stopRecording] in [s]. *)
Definition stopEvents (s : State) : list event :=
  match codegenProcess (this s) with Some _ => [Kill] | None => [] end
  ++ match watcher (this s) with Some _ => [CloseWatcher] | None => [] end.

(** The cached credentials cannot be had in [s]: the file is missing, or
    cannot be read, or does not hold JSON. *)
Definition cacheFails (s : State) : Prop :=
  files s !! credentialsFile (this s) = None
  ∨ (is_Some (files s !! credentialsFile (this s))
     ∧ credentialsFile (this s) ∈ noRead s)
  ∨ (∃ data, files s !! credentialsFile (this s) = Some data
             ∧ parse data = None).

(** The events of a prompt for credentials answered in [s]. *)
Definition promptEvents (s : State) : list event :=
  [Log MsgCredentialsRequired; Question AskEmail; Question AskToken;
   Log (if decide (credentialsFile (this s) ∈ noWrite s)
        then MsgCredentialsNotSaved else MsgCredentialsSaved)].

(** The files after a prompt for credentials answered in [s]. *)
Definition promptFiles (email token : string) (s : State) : gmap string string :=
  if decide (credentialsFile (this s) ∈ noWrite s) then files s
  else <[credentialsFile (this s) := stringifyCredentials email token]> (files s).

Definition cachePath : string := "/home/u/.kusho-credentials".

(** The credential file holds something that is not JSON, the user will
    enter an email and a token, and the credential file cannot be written. *)
Definition brokenCache : State :=
  {| this := recorder; files := {[ cachePath := "not json" ]};
     noRead := ∅; noWrite := {[ cachePath ]};
     stdin := ["a@b.com"; "t"]; children := []; trace := [] |}.

(** The request that [callExtendAPI] sends for a script and credentials
    with the two properties [email] and [token]. *)
Definition requestFor (content : string) (email token : option json) : request :=
  {| postData := stringifyScript content;
     userEmail := email; authToken := token |}.

(** A recognized field: a member of an object whose value counts as true. *)
Definition recognized (v : json) (k : string) : option json :=
  match v with
  | JObject l =>
      match member k l with
      | Some x => if truthy x then Some x else None
      | None => None
      end
  | _ => None
  end.

(** The script taken from a 2xx body, as the code decodes it: the first
    recognized field of [extendedScript] and [script], else the raw body. *)
Definition chosen (data : string) : json :=
  match parse data with
  | Some v =>
      match recognized v "extendedScript" with
      | Some x => x
      | None =>
          match recognized v "script" with
          | Some y => y
          | None => JString data
          end
      end
  | None => JString data
  end.

(** The script taken from a 2xx body, as the specification words it: the
    field [extendedScript] if present, else the field [script] if present,
    else the raw body. *)
Definition stated (data : string) : json :=
  match parse data with
  | Some (JObject l) =>
      match member "extendedScript" l with
      | Some x => x
      | None =>
          match member "script" l with
          | Some y => y
          | None => JString data
          end
      end
  | _ => JString data
  end.

(** What the target holds after the write of the value [v] in [s]. *)
Definition written (env : Env) (v : json) (f : string) (s : State)
  : option string :=
  match v with
  | JString x => Some x
  | _ =>
      match coerce env v with
      | Some x => Some x
      | None => files s !! f
      end
  end.

Definition target : string := "/app/recordings/login.js".

(** The credentials of the scenario are cached and a script is saved. *)
Definition cached : State :=
  world recorder
    {[ cachePath := stringifyCredentials "a@b.com" "t"; target := click ]} [].

(** A body with the field [extendedScript] holding [x]. *)
Definition extendedBody (x : string) : string :=
  "{" +:+ quote "extendedScript" +:+ ": " +:+ quote x +:+ "}".

(** The target is the credential file itself, which does not hold JSON. *)
Definition aliased : State :=
  world recorder {[ cachePath := "not json" ]} ["a@b.com"; "t"].


Definition childAt (f : string) (editors : list string) (i : nat) : editorChild :=
  {| editedFile := f; candidates := editors; position := i |}.





(** The state after the user saved the contents [saves] into [f], in turn. *)
Definition saved (f : string) (saves : list string) (s : State) : State :=
  withFiles (foldl (λ m content, <[f := content]> m) (files s) saves) s.


(** A recording is buffered and [my.json.js] is taken in the recordings. *)
Definition taken : State :=
  world (setCurrentCode "new test" recorder)
    {[ "/app/recordings/my.json.js" := "old test" ]} [].

(** The character [c] does not occur in [s]. *)
Fixpoint free (c : ascii) (s : string) : Prop :=
  match s with
  | EmptyString => True
  | String a r => a ≠ c ∧ free c r
  end.

(** The end of the name tried at the round [counter]. *)
Definition numbered (counter : nat) : string :=
  "-" +:+ pretty counter +:+ ".js".

(** A run of the parser on [s] that did not stop for lack of fuel and that,
    when it gives a value, has read something. *)
Definition wellRun (res : parsed) (s : string) : Prop :=
  match res with
  | Parsed _ r => (String.length r < String.length s)%nat
  | Malformed => True
  | OutOfFuel => False
  end.

(* ================================================================== *)
(** * The commands of the program ([src/index.js]) *)
(* ================================================================== *)

Module Cli.

(** What the commands print themselves. *)
Inductive cliMessage :=
| MsgInterrupted
| MsgSessionCompleted
| MsgCredentialsUpdated
| MsgFileNotFound (filePath : string)
| MsgExtendingFile
| MsgError (error : exn).

(** The process: the recorder with its world, and the lines printed by the
    command, each with the number of events of the recorder that came
    before it. *)
Record Process := {
  session : State;
  console : list (nat * cliMessage)
}.

(** How a command ends: it returns, throws, waits for an input that does
    not come, or leaves through [process.exit]. *)
Inductive ending (A : Type) :=
| Returns (a : A)
| Throws (e : exn)
| Waits
| Exits (code : Z).
Arguments Returns {A} a.
Arguments Throws {A} e.
Arguments Waits {A}.
Arguments Exits {A} code.

Definition C (A : Type) : Type := Process → ending A * Process.

#[export] Instance C_ret : MRet C := λ A a p, (Returns a, p).

#[export] Instance C_bind : MBind C := λ A B f m p,
  match m p with
  | (Returns a, p') => f a p'
  | (Throws e, p') => (Throws e, p')
  | (Waits, p') => (Waits, p')
  | (Exits code, p') => (Exits code, p')
  end.

(** A call of a method of the recorder. *)
Definition call {A} (m : M A) : C A := λ p,
  let p' := {| session := (m (session p)).2; console := console p |} in
  match (m (session p)).1 with
  | Ok a => (Returns a, p')
  | Throw e => (Throws e, p')
  | Pending => (Waits, p')
  end.

(** [console.log] and [console.error] of the commands *)
Definition say (m : cliMessage) : C unit := λ p,
  (Returns tt,
   {| session := session p;
      console := console p ++ [(length (trace (session p)), m)] |}).

(** [process.exit(code)] *)
Definition exit {A} (code : Z) : C A := λ p, (Exits code, p).

(** [try { m } catch (error) { h error }] *)
Definition tryCatch {A} (m : C A) (h : exn → C A) : C A := λ p,
  match m p with
  | (Throws e, p') => h e p'
  | r => r
  end.

Section Commands.

Context (env : Env) (dirname home : string) (enhancer : WaitEnhancer).

(** [const recorder = new KushoRecorder()] *)
Definition newRecorder : C unit :=
  call (modify (withThis (constructor dirname home enhancer))).

(** The [record] command up to the start of the recording: the recorder is
    made and configured from [options.waitEnhancement] and
    [options.output]. *)
Definition configure (waitEnhancement : bool) (output : option string)
  : C unit :=
  _ ← newRecorder;
  _ ← (if negb waitEnhancement
       then call (update (setEnableWaitEnhancement false))
       else mret tt);
  call (onUpdate (SaveOutput output)).

(** The handler of [SIGINT] that the [record] command registers. *)
Definition onInterrupt (output : option string) : C unit :=
  _ ← say MsgInterrupted;
  finalCode ← call stopRecording;
  _ ← match output with
      | Some o =>
          if JS.truthy finalCode && JS.truthy o
          then _ ← call (saveCodeToFile o); mret tt
          else mret tt
      | None => mret tt
      end;
  _ ← say MsgSessionCompleted;
  exit 0.

(** The [credentials] command. *)
Definition credentialsCommand : C unit :=
  _ ← newRecorder;
  _ ← call updateCredentials;
  say MsgCredentialsUpdated.

(** The [extend] command. *)
Definition extendCommand (filePath : string) : C unit :=
  _ ← newRecorder;
  tryCatch
    (found ← call (existsSync filePath);
     _ ← (if negb found
          then _ ← say (MsgFileNotFound filePath); exit 1
          else mret tt);
     _ ← say MsgExtendingFile;
     call (extendScriptWithAPI env filePath))
    (λ error, _ ← say (MsgError error); exit 1).

End Commands.

(** The process at the start of a command: nothing is printed yet. *)
Definition started (s : State) : Process := {| session := s; console := [] |}.

End Cli.

(* ================================================================== *)
(** * Vocabulary of the statements, continued *)
(* ================================================================== *)

(** The first test of the loop of [wrapInTestFunction] on a line. *)
Definition importLine (l : string) : bool :=
  JS.startsWith (JS.trim l) "import " || JS.startsWith (JS.trim l) "const "
  || JS.startsWith (JS.trim l) "require(".

(** The second test of the loop of [wrapInTestFunction] on a line. *)
Definition setupLine (l : string) : bool :=
  JS.includes (JS.trim l) "test =" || JS.includes (JS.trim l) "browser ="
  || JS.includes (JS.trim l) "context =".

(** The body of the test that [wrapInTestFunction] builds around [code]. *)
Definition testBody (code : string) : string :=
  JS.join nl (indentLine <$> JS.split LF code).

(** What is printed for the suggestions [l] of the analyzer. *)
Definition suggestionEvents (l : list string) : list event :=
  match l with
  | [] => []
  | _ :: _ => Log MsgSuggestions :: ((λ x, Log (MsgSuggestion x)) <$> l)
  end.

(** The events of the enhancement stage for the code [code]. *)
Definition enhancementEvents (enhancer : WaitEnhancer) (code : string)
  : list event :=
  [EnhanceCode code; AnalyzeAndSuggestWaits code]
  ++ suggestionEvents (analyzeAndSuggestWaits enhancer code).

(** The file name that [promptForFilename] makes of the answer. *)
Definition filenameFor (env : Env) (answer : string) : string :=
  let filename :=
    if negb (JS.truthy answer) || JS.isEmpty (JS.trim answer)
    then "kusho-test-" +:+ JS.dashes (now env)
    else answer in
  if negb (JS.endsWith filename ".js") then filename +:+ ".js" else filename.

(** The text that [fs.writeFileSync] writes for the value [v]: a string
    is written as it is, another value as the runtime coerces it, if it
    does. *)
Definition textOf (env : Env) (v : json) : option string :=
  match v with
  | JString x => Some x
  | _ => coerce env v
  end.

(** Events of the acquisition of the credentials. *)
Definition ofCredentials (e : event) : bool :=
  match e with
  | Log MsgCredentialsUnreadable | Log MsgCredentialsRequired
  | Log MsgCredentialsSaved | Log MsgCredentialsNotSaved => true
  | Question AskEmail | Question AskToken => true
  | _ => false
  end.

(** Whether the loading indicator is running after the events [t], when
    it was running or not ([b]) before them. *)
Definition ticking (b : bool) (t : list event) : bool :=
  foldl (λ b e, match e with
                | SetInterval => true
                | ClearInterval => false
                | _ => b
                end) b t.

(** From [s] to [s'] only events that are not of the extension step were
    added. *)
Definition quietly (s s' : State) : Prop :=
  ∃ es, trace s' = trace s ++ es ∧ Forall (λ e, ofExtension e = false) es.

(** No editor ever exits with the code zero. *)
Definition noCleanExit (env : Env) : Prop :=
  ∀ ed f, EmitsClose (Some 0) ∉ editor env ed f.

(* ================================================================== *)
(** * Scenarios, continued *)
(* ================================================================== *)

(** No credentials are cached; the user will enter an email and a token. *)
Definition unknownUser : State := world recorder ∅ ["a@b.com"; "t"].

(** An analyzer that adds a wait and has one suggestion. *)
Definition waitingEnhancer : WaitEnhancer :=
  {| enhanceCode := λ code, code +:+ nl +:+ "await page.waitForLoadState();";
     analyzeAndSuggestWaits := λ _, ["Wait for the page to load"] |}.

(** A session of [record -o out.js] with that analyzer, whose watcher is
    attached and whose artifact file holds [click]. *)
Definition recording : State :=
  world (setOnCodeUpdate (Some (SaveOutput (Some "out.js")))
           (setWatcher (Some "/app/recordings/generated-test.js")
              (constructor "/app" "/home/u" waitingEnhancer)))
    {[ "/app/recordings/generated-test.js" := click ]} [].

(** A recording is buffered, [login.js] is taken, and the user will name
    the test [login]. *)
Definition naming : State :=
  world (setCurrentCode (wrapInTestFunction click) recorder)
    {[ "/app/recordings/login.js" := "old test" ]} ["login"].

(** The credential file holds [null], and a script is saved. *)
Definition nullCache : State :=
  world recorder {[ cachePath := "null"; target := click ]} [].

(** A session that has just started: nothing is recorded, the watcher is
    not attached yet. *)
Definition idle : State := world recorder ∅ [].

(** The codegen tool writes [content] once, the poller then finds the file
    and attaches the watcher, and the codegen process closes. *)
Definition oneWriteSession (env : Env) (content : string) (code : option Z)
  : M unit :=
  _ ← codegenWrites content;
  _ ← checkFile;
  onCodegenClose env code.

(** The session from the close of the codegen process on: the listener of
    the close runs, then the runtime serves the first editor spawned. *)
Definition closing (env : Env) (code : option Z) : M unit :=
  _ ← onCodegenClose env code;
  serveEditors env 1.

(** [nano] can be launched; in it the user saves [content] and leaves with
    the exit code zero.  The service answers [r]. *)
Definition withNano (content : string) (r : reply) : Env :=
  {| editor := λ ed _, if decide (ed = "nano")
                       then [Saves content; EmitsClose (Some 0)]
                       else [EmitsError; EmitsClose (Some (-2))];
     service := λ _, r;
     now := "2026-01-01T00:00:00.000Z";
     coerce := λ _, None |}.

(** A recording is buffered, the credentials are cached, and the user will
    name the test [login]. *)
Definition finished : State :=
  world (setCurrentCode (wrapInTestFunction click) recorder)
    {[ cachePath := stringifyCredentials "a@b.com" "t" ]} ["login"].

(* ================================================================== *)
(** * Facts about strings *)
(* ================================================================== *)

Lemma app_cons (c : ascii) (a b : string) :
  String c a +:+ b = String c (a +:+ b).
Proof. reflexivity. Qed.

Lemma app_empty_l (b : string) : EmptyString +:+ b = b.
Proof. reflexivity. Qed.

Lemma app_empty_r (a : string) : a +:+ EmptyString = a.
Proof. induction a as [|c a IH]; [done|]. by rewrite app_cons, IH. Qed.

Lemma app_assoc_s (a b c : string) : (a +:+ b) +:+ c = a +:+ (b +:+ c).
Proof. induction a as [|x a IH]; [done|]. by rewrite !app_cons, IH. Qed.

Lemma startsWith_app (m b : string) : JS.startsWith (m +:+ b) m = true.
Proof.
  induction m as [|c m IH]; [by destruct b|].
  rewrite app_cons. simpl. by rewrite decide_True.
Qed.

Lemma startsWith_app_r (x m b : string) :
  JS.startsWith x m = true → JS.startsWith (x +:+ b) m = true.
Proof.
  revert x. induction m as [|c m IH]; intros x H; [by destruct (x +:+ b)|].
  destruct x as [|d x]; [done|]. rewrite app_cons. simpl in *.
  destruct (decide (d = c)); [by apply IH|done].
Qed.

Lemma includes_cons (c : ascii) (x m : string) :
  JS.includes (String c x) m = JS.startsWith (String c x) m || JS.includes x m.
Proof. reflexivity. Qed.

Lemma includes_app_r (x m b : string) :
  JS.includes x m = true → JS.includes (x +:+ b) m = true.
Proof.
  induction x as [|c x IH]; intros H.
  - destruct m; [by destruct b|done].
  - rewrite includes_cons in H. rewrite app_cons, includes_cons, <- app_cons.
    apply orb_true_iff in H as [H|H]; apply orb_true_iff.
    + left. by apply startsWith_app_r.
    + right. by apply IH.
Qed.

Lemma includes_app_l (a x m : string) :
  JS.includes x m = true → JS.includes (a +:+ x) m = true.
Proof.
  intros H. induction a as [|c a IH]; [done|].
  rewrite app_cons, includes_cons, IH. apply orb_true_r.
Qed.

Example trim_spaces :
  JS.trim ("  a b " +:+ String (ascii_of_N 194) (String (ascii_of_N 160) nl))
  = "a b".
Proof. reflexivity. Qed.

Example split_lines :
  JS.split LF ("a" +:+ nl +:+ nl +:+ "b" +:+ nl)
  = ["a"; EmptyString; "b"; EmptyString].
Proof. reflexivity. Qed.

Example replace_first : JS.replace ".js" EmptyString "a.js.js" = "a.js".
Proof. reflexivity. Qed.

Example join_recordings :
  Path.join ["/app"; "recordings"; "generated-test.js"]
  = "/app/recordings/generated-test.js"
  ∧ Path.join ["/app/recordings"; "../x.js"] = "/app/x.js"
  ∧ Path.join ["a"; "../../b/"] = "../b/"
  ∧ Path.join [EmptyString; EmptyString] = ".".
Proof. repeat split; reflexivity. Qed.

(* ================================================================== *)
(** * [JSON.parse] *)
(* ================================================================== *)

Example parse_object :
  parse (extendedBody "X") = Some (JObject [("extendedScript", JString "X")]).
Proof. reflexivity. Qed.

Example parse_values :
  parse "[1, 2.50, -0e3, true, null, {}] "
  = Some (JArray [JNumber false 1 0; JNumber false 250 (-2); JNumber true 0 3;
                  JBool true; JNull; JObject []]).
Proof. reflexivity. Qed.

Example parse_rejects :
  parse "[1,]" = None ∧ parse "01" = None ∧ parse "{'a': 1}" = None
  ∧ parse "nul" = None ∧ parse EmptyString = None ∧ parse "1 2" = None.
Proof. repeat split; reflexivity. Qed.

Example parse_credentials :
  parse (stringifyCredentials "a@b.com" "t") = Some (credentialsOf "a@b.com" "t").
Proof. reflexivity. Qed.

(** A surrogate that stands alone is U+FFFD; a pair is one character. *)
Example parse_surrogates :
  parse (String DQ ("a" +:+ String BSL "ud800b" +:+ str1 DQ))
  = Some (JString ("a" +:+ replacement +:+ "b"))
  ∧ parse (String DQ (String BSL "ud83d" +:+ String BSL "ude00" +:+ str1 DQ))
    = Some (JString (utf8 128512))
  ∧ parse (String DQ (String BSL "ude00" +:+ String BSL "ud83d" +:+ str1 DQ))
    = Some (JString (replacement +:+ replacement)).
Proof. repeat split; reflexivity. Qed.

Example header_values :
  Http.validHeader None = false
  ∧ Http.validHeader (Some (JString "a@b.com")) = true
  ∧ Http.validHeader (Some (JString ("a" +:+ nl +:+ "b"))) = false
  ∧ Http.validHeader (Some (JString "é")) = true
  ∧ Http.validHeader (Some (JString "€")) = false
  ∧ Http.validHeader (Some (JString replacement)) = false
  ∧ Http.validHeader (Some JNull) = true
  ∧ Http.validHeader (Some (JArray [JString "a"; JString nl])) = false.
Proof. repeat split; reflexivity. Qed.

Example rounds_to_zero :
  truthy (JNumber false 1 (-400)) = false ∧ truthy (JNumber false 1 (-300)) = true.
Proof. split; reflexivity. Qed.

(** ** The parser has fuel enough *)

Lemma skipWs_length (s : string) :
  (String.length (skipWs s) ≤ String.length s)%nat.
Proof.
  induction s as [|c s IH]; [done|]. simpl.
  destruct (isWs c); simpl; lia.
Qed.

Lemma skipWs_cons (s r : string) (c : ascii) :
  skipWs s = String c r → (String.length r < String.length s)%nat.
Proof.
  intros H. pose proof (skipWs_length s) as L. rewrite H in L. simpl in L. lia.
Qed.

Lemma prepend_rest (p t r : string) (o : option (string * string)) :
  prepend p o = Some (t, r) → ∃ t', o = Some (t', r).
Proof. destruct o as [[t' r']|]; [|done]. intros [= _ ->]. eauto. Qed.

Lemma stringBody_length (n : nat) :
  ∀ s pend t r,
    (String.length s ≤ n)%nat →
    stringBody pend s = Some (t, r) →
    (String.length r < String.length s)%nat.
Proof.
  induction n as [|n IH]; intros s pend t r Hn H.
  - destruct s; [done|simpl in Hn; lia].
  - destruct s as [|c s]; [done|]. simpl in Hn. simpl in H.
    destruct (decide (c = DQ)); [injection H as _ <-; simpl; lia|].
    destruct (decide (c = BSL)).
    + destruct s as [|x s1]; [done|]. simpl in Hn.
      destruct (decide (x = "u"%char)).
      * destruct s1 as [|h1 [|h2 [|h3 [|h4 r2]]]]; try done. simpl in Hn.
        destruct (hex4 h1 h2 h3 h4) as [cu|]; [|done].
        assert (∀ pend' t', stringBody pend' r2 = Some (t', r) →
                  (String.length r < String.length r2)%nat) as Hrec
          by (intros ? ? ?; eapply IH; [|done]; lia).
        destruct pend as [hi|].
        -- destruct (isLow cu); [|destruct (isHigh cu)];
             apply prepend_rest in H as [t' H]; apply Hrec in H; simpl; lia.
        -- destruct (isHigh cu); [|apply prepend_rest in H as [t' H]];
             apply Hrec in H; simpl; lia.
      * destruct (escape x); [|done].
        apply prepend_rest in H as [t' H]. apply IH in H; [|lia]. simpl. lia.
    + destruct (code c <? 32)%N; [done|].
      apply prepend_rest in H as [t' H]. apply IH in H; [|lia]. simpl. lia.
Qed.

Lemma digits_length (s : string) (acc : N) (len : nat) :
  (String.length (digits s acc len).2 + ((digits s acc len).1.2 - len)
   = String.length s)%nat
  ∧ (len ≤ (digits s acc len).1.2)%nat.
Proof.
  revert acc len. induction s as [|c s IH]; intros acc len; simpl.
  - lia.
  - destruct (digitVal c) as [d|]; simpl; [|lia].
    destruct (IH (acc * 10 + d)%N (S len)). lia.
Qed.

Lemma number_length (s : string) (v : json) (r : string) :
  number s = Some (v, r) → (String.length r < String.length s)%nat.
Proof.
  unfold number.
  destruct (match s with
            | EmptyString => (false, s)
            | String c r0 =>
                if decide (c = "-"%char) then (true, r0) else (false, s)
            end) as [neg s1] eqn:E1.
  assert (String.length s1 ≤ String.length s)%nat as L1.
  { destruct s as [|c s']; [by injection E1 as _ <-|].
    destruct (decide (c = "-"%char)); injection E1 as _ <-; simpl; lia. }
  clear E1.
  destruct s1 as [|c s2]; [done|]. simpl in L1.
  destruct (if decide (c = "0"%char) then Some (0%N, s2)
            else match digitVal c with
                 | Some d => let '(v0, _, r') := digits s2 d 1 in Some (v0, r')
                 | None => None
                 end) as [[i s3]|] eqn:E2; [|done].
  assert (String.length s3 ≤ String.length s2)%nat as L2.
  { destruct (decide (c = "0"%char)); [by injection E2 as _ <-|].
    destruct (digitVal c) as [d|]; [|done].
    pose proof (digits_length s2 d 1) as [L _].
    destruct (digits s2 d 1) as [[v0 l0] r']. injection E2 as _ <-.
    simpl in L. lia. }
  clear E2.
  destruct (match s3 with
            | EmptyString => Some (i, 0%nat, s3)
            | String c0 r0 =>
                if decide (c0 = "."%char)
                then let '(v0, len, r') := digits r0 i 0 in
                     if (len =? 0)%nat then None else Some (v0, len, r')
                else Some (i, 0%nat, s3)
            end) as [[[m flen] s4]|] eqn:E3; [|done].
  assert (String.length s4 ≤ String.length s3)%nat as L3.
  { destruct s3 as [|c0 r0]; [by injection E3 as _ _ <-|].
    destruct (decide (c0 = "."%char)); [|by injection E3 as _ _ <-].
    pose proof (digits_length r0 i 0) as [L _].
    destruct (digits r0 i 0) as [[v0 l0] r'].
    destruct (l0 =? 0)%nat; [done|]. injection E3 as _ _ <-.
    simpl in *. lia. }
  clear E3.
  destruct s4 as [|c1 r1]; [intros [= _ <-]; simpl in *; lia|].
  destruct (bool_decide (c1 = "e"%char) || bool_decide (c1 = "E"%char));
    [|intros [= _ <-]; simpl in *; lia].
  destruct (match r1 with
            | EmptyString => (false, r1)
            | String sg r' =>
                if decide (sg = "-"%char) then (true, r')
                else if decide (sg = "+"%char) then (false, r')
                else (false, r1)
            end) as [eneg r2] eqn:E4.
  assert (String.length r2 ≤ String.length r1)%nat as L4.
  { destruct r1 as [|sg r']; [by injection E4 as _ <-|].
    destruct (decide (sg = "-"%char)); [injection E4 as _ <-; simpl; lia|].
    destruct (decide (sg = "+"%char)); injection E4 as _ <-; simpl; lia. }
  clear E4.
  pose proof (digits_length r2 0%N 0) as [L _].
  destruct (digits r2 0%N 0) as [[e l0] r3].
  destruct (l0 =? 0)%nat; [done|]. intros [= _ <-]. simpl in *. lia.
Qed.

Lemma skip_startsWith (s p : string) :
  JS.startsWith s p = true →
  (String.length (JS.skip (String.length p) s) + String.length p
   = String.length s)%nat.
Proof.
  revert s. induction p as [|b p IH]; intros s H; [simpl; lia|].
  destruct s as [|a s]; [done|]. simpl in *.
  destruct (decide (a = b)); [|done]. apply IH in H. lia.
Qed.

Lemma wellRun_shorter (res : parsed) (s s' : string) :
  wellRun res s' → (String.length s' ≤ String.length s)%nat → wellRun res s.
Proof. destruct res; simpl; [lia|done..]. Qed.

(** Every call of the parser is given fuel enough for the text it reads. *)
Lemma parser_fuel (f : nat) :
  (∀ s, (2 * String.length s < f)%nat → wellRun (value f s) s)
  ∧ (∀ s acc, (2 * String.length s + 1 < f)%nat →
              wellRun (elements f s acc) s)
  ∧ (∀ s acc, (2 * String.length s + 1 < f)%nat →
              wellRun (members f s acc) s).
Proof.
  induction f as [|f (IHv & IHe & IHm)]; [repeat split; intros; lia|].
  split; [|split].
  - intros s Hf. cbn [value].
    destruct (skipWs s) as [|c r] eqn:W; [done|]. apply skipWs_cons in W.
    destruct (decide (c = "{"%char)).
    { destruct (skipWs r) as [|c' r'] eqn:W'; [done|].
      apply skipWs_cons in W'.
      destruct (decide (c' = "}"%char)); [simpl; lia|].
      eapply wellRun_shorter; [apply IHm|]; simpl; lia. }
    destruct (decide (c = "["%char)).
    { destruct (skipWs r) as [|c' r'] eqn:W'; [done|].
      apply skipWs_cons in W'.
      destruct (decide (c' = "]"%char)); [simpl; lia|].
      eapply wellRun_shorter; [apply IHe|]; simpl; lia. }
    destruct (decide (c = DQ)).
    { destruct (stringBody None r) as [[t r']|] eqn:B; [|done].
      apply (stringBody_length _ _ _ _ _ (le_n _)) in B. simpl. lia. }
    destruct (JS.startsWith (String c r) "true") eqn:T.
    { apply skip_startsWith in T. simpl in *. lia. }
    destruct (JS.startsWith (String c r) "false") eqn:F.
    { apply skip_startsWith in F. simpl in *. lia. }
    destruct (JS.startsWith (String c r) "null") eqn:U.
    { apply skip_startsWith in U. simpl in *. lia. }
    destruct (number (String c r)) as [[v r']|] eqn:Nm; [|done].
    apply number_length in Nm. simpl in *. lia.
  - intros s acc Hf. cbn [elements].
    assert (wellRun (value f s) s) as Hv by (apply IHv; lia).
    destruct (value f s) as [v r| |]; [|done..]. simpl in Hv.
    destruct (skipWs r) as [|c r'] eqn:W; [done|]. apply skipWs_cons in W.
    destruct (decide (c = ","%char)).
    { eapply wellRun_shorter; [apply IHe|]; lia. }
    destruct (decide (c = "]"%char)); [simpl; lia|done].
  - intros s acc Hf. cbn [members].
    destruct (skipWs s) as [|q r] eqn:W; [done|]. apply skipWs_cons in W.
    destruct (decide (q = DQ)); [|done].
    destruct (stringBody None r) as [[k r1]|] eqn:B; [|done].
    apply (stringBody_length _ _ _ _ _ (le_n _)) in B.
    destruct (skipWs r1) as [|c r2] eqn:W1; [done|]. apply skipWs_cons in W1.
    destruct (decide (c = ":"%char)); [|done].
    assert (wellRun (value f r2) r2) as Hv by (apply IHv; lia).
    destruct (value f r2) as [v r3| |]; [|done..]. simpl in Hv.
    destruct (skipWs r3) as [|c' r4] eqn:W3; [done|]. apply skipWs_cons in W3.
    destruct (decide (c' = ","%char)).
    { eapply wellRun_shorter; [apply IHm|]; lia. }
    destruct (decide (c' = "}"%char)); [simpl; lia|done].
Qed.

(** [JSON.parse] never fails for lack of fuel: [None] is a syntax error. *)
Lemma value_fuel (s : string) : value (fuelFor s) s ≠ OutOfFuel.
Proof.
  destruct (parser_fuel (fuelFor s)) as (H & _ & _).
  specialize (H s). unfold fuelFor in *. intros E. rewrite E in H.
  apply H. lia.
Qed.

(* ================================================================== *)
(** * The script transformer *)
(* ================================================================== *)

Lemma testHeader_marker : JS.includes testHeader "test(" = true.
Proof. vm_compute. reflexivity. Qed.

Example wrap_click :
  wrapInTestFunction ("const { chromium } = require('x');" +:+ nl +:+ click)
  = "const { chromium } = require('x');" +:+ nl
    +:+ testHeader +:+ "  " +:+ click +:+ testFooter.
Proof. reflexivity. Qed.

Example wrap_wrapped :
  wrapInTestFunction "test('t', async () => {});" = "test('t', async () => {});".
Proof. reflexivity. Qed.

(** What [wrapInTestFunction] builds carries the marker. *)
Lemma wrap_marked (code : string) :
  hasMarker code = false → JS.includes (wrapInTestFunction code) "test(" = true.
Proof.
  intros H. unfold wrapInTestFunction. unfold hasMarker in H. rewrite H.
  cbv zeta. apply includes_app_l, includes_app_r, testHeader_marker.
Qed.

Lemma wrap_marker (code : string) : hasMarker (wrapInTestFunction code) = true.
Proof.
  destruct (hasMarker code) eqn:H.
  - unfold wrapInTestFunction. unfold hasMarker in H. rewrite H. exact H.
  - unfold hasMarker at 1. by rewrite wrap_marked.
Qed.

Lemma wrap_of_marked (code : string) :
  hasMarker code = true → wrapInTestFunction code = code.
Proof. intros H. unfold wrapInTestFunction. unfold hasMarker in H. by rewrite H. Qed.

(** Wrapping is idempotent on every code. *)
Lemma wrap_idempotent (code : string) :
  wrapInTestFunction (wrapInTestFunction code) = wrapInTestFunction code.
Proof. apply wrap_of_marked, wrap_marker. Qed.

(** An unwrapped code is changed by the wrapping. *)
Lemma wrap_changes (code : string) :
  hasMarker code = false → wrapInTestFunction code ≠ code.
Proof.
  intros H E. pose proof (wrap_marker code) as M. rewrite E in M. congruence.
Qed.

(** C3. For every code string [c] without a test or suite marker, the
    wrapped code carries the marker [test(], so wrapping it again returns
    it unchanged: [wrap (wrap c) = wrap c]. *)
Theorem wrap_twice (c : string) :
  hasMarker c = false →
  JS.includes (wrapInTestFunction c) "test(" = true
  ∧ wrapInTestFunction (wrapInTestFunction c) = wrapInTestFunction c.
Proof.
  intros H. split; [by apply wrap_marked|apply wrap_idempotent].
Qed.

Lemma wrap_twice_witness :
  hasMarker "await page.click('#a');" = false
  ∧ JS.includes (wrapInTestFunction "await page.click('#a');") "test(" = true
  ∧ wrapInTestFunction (wrapInTestFunction "await page.click('#a');")
    = wrapInTestFunction "await page.click('#a');".
Proof.
  split; [reflexivity|].
  apply (wrap_twice "await page.click('#a');"). reflexivity.
Defined.

(* ================================================================== *)
(** * Running computations *)
(* ================================================================== *)

Ltac run :=
  repeat (cbv beta iota zeta delta
            [mbind M_bind mret M_ret field gets modify emit log update
             existsSync throw catch after afterAll display fst snd
             this files noRead noWrite stdin children trace withThis
             withFiles withStdin withTrace withChildren
             outputFile recordingDir codegenProcess watcher onCodeUpdate
             currentCode waitEnhancer enableWaitEnhancement credentialsFile
             setCurrentCode setWatcher setCodegenProcess setOnCodeUpdate
             setEnableWaitEnhancement]).

Ltac run_in H :=
  repeat (cbv beta iota zeta delta
            [mbind M_bind mret M_ret field gets modify emit log update
             existsSync throw catch after afterAll display fst snd
             this files noRead noWrite stdin children trace withThis
             withFiles withStdin withTrace withChildren
             outputFile recordingDir codegenProcess watcher onCodeUpdate
             currentCode waitEnhancer enableWaitEnhancement credentialsFile
             setCurrentCode setWatcher setCodegenProcess setOnCodeUpdate
             setEnableWaitEnhancement] in H).

(* ================================================================== *)
(** * The change-handling pipeline *)
(* ================================================================== *)

Lemma handle_disabled (s : State) (c : string) :
  enableWaitEnhancement (this s) = false →
  ∃ r s' rest,
    handleCodeUpdate c s = (r, s')
    ∧ currentCode (this s') = wrapInTestFunction c
    ∧ trace s' = trace s ++ display (wrapInTestFunction c) ++ rest
    ∧ Forall (λ e, ofEnhancement e = false ∧ isDisplay e = false) rest
    ∧ match onCodeUpdate (this s) with
      | Some _ => head rest = Some (Callback (wrapInTestFunction c))
      | None => rest = []
      end
    ∧ sameSetup s s'
    ∧ r ≠ Pending.
Proof.
  destruct s as [[out dir proc w cb cur enh en cred] fs nr nw inp ch tr].
  simpl. intros ->. unfold handleCodeUpdate, sameSetup. run.
  destruct cb as [[[output|]]|].
  - unfold runObserver. destruct (JS.truthy output).
    + unfold saveCodeToFile, writeFileSync. run.
      destruct (decide (_ ∈ nw)).
      * eexists _, _, [Callback _]. repeat split; run; try done.
        -- by rewrite <- !app_assoc.
        -- by repeat constructor.
      * eexists _, _, [Callback _; Log (MsgSavedTo _)].
        repeat split; run; try done.
        -- by rewrite <- !app_assoc.
        -- by repeat constructor.
    + eexists _, _, [Callback _]. repeat split; run; try done.
      * by rewrite <- !app_assoc.
      * by repeat constructor.
  - eexists _, _, [Callback _]. repeat split; run; try done.
    + by rewrite <- !app_assoc.
    + by repeat constructor.
  - eexists _, _, []. repeat split; run; try done.
    by rewrite <- !app_assoc.
Qed.

(** C7. With wait enhancement disabled, for every code [c] the pipeline
    displays, buffers and hands to the observer exactly
    [wrapInTestFunction c]; nothing of the enhancement stage happens: the
    analyzer is not called and no suggestion is printed. *)
Theorem transform_without_enhancement (s : State) (c : string) :
  enableWaitEnhancement (this s) = false →
  ∃ r s' rest,
    handleCodeUpdate c s = (r, s')
    ∧ currentCode (this s') = wrapInTestFunction c
    ∧ trace s' = trace s ++ display (wrapInTestFunction c) ++ rest
    ∧ Forall (λ e, ofEnhancement e = false) rest
    ∧ match onCodeUpdate (this s) with
      | Some _ => head rest = Some (Callback (wrapInTestFunction c))
      | None => rest = []
      end.
Proof.
  intros H. destruct (handle_disabled s c H)
    as (r & s' & rest & E & Hc & Ht & Hf & Ho & _ & _).
  exists r, s', rest. repeat split; try done.
  eapply Forall_impl; [exact Hf|]. by intros e [? _].
Qed.

Lemma transform_without_enhancement_witness :
  enableWaitEnhancement (this watching) = false
  ∧ ∃ r s' rest,
      handleCodeUpdate click watching = (r, s')
      ∧ currentCode (this s') = wrapInTestFunction click
      ∧ trace s' = trace watching ++ display (wrapInTestFunction click) ++ rest
      ∧ Forall (λ e, ofEnhancement e = false) rest
      ∧ match onCodeUpdate (this watching) with
        | Some _ => head rest = Some (Callback (wrapInTestFunction click))
        | None => rest = []
        end.
Proof.
  split; [reflexivity|].
  apply (transform_without_enhancement watching click). reflexivity.
Defined.

Lemma transformations_app (t u : list event) :
  transformations (t ++ u) = (transformations t + transformations u)%nat.
Proof. unfold transformations. by rewrite filter_app, length_app. Qed.

Lemma transformations_quiet (t : list event) :
  Forall (λ e, ofEnhancement e = false ∧ isDisplay e = false) t →
  transformations t = 0%nat.
Proof.
  unfold transformations. induction 1 as [|e t [_ He] _ IH]; [done|].
  rewrite filter_cons_False; [done|]. by rewrite He.
Qed.

Lemma transformations_display (code : string) :
  transformations (display code) = 1%nat.
Proof. reflexivity. Qed.

(** A write whose content is the buffer itself is discarded. *)
Lemma write_of_buffer_discarded (s : State) (c w : string) :
  watcher (this s) = Some w →
  outputFile (this s) ∉ noRead s →
  currentCode (this s) = c →
  codegenWrites c s
  = (Ok tt, withFiles (<[outputFile (this s) := c]> (files s)) s).
Proof.
  destruct s as [[out dir proc wa cb cur enh en cred] fs nr nw inp ch tr].
  simpl. intros -> Hr ->. unfold codegenWrites. run.
  unfold watchListener. rewrite decide_True by done.
  unfold readFileSync. run. rewrite lookup_insert_eq.
  rewrite decide_False by done. by rewrite decide_False by (by intros []).
Qed.

(** A write whose content differs from the buffer is transformed; without
    enhancement the buffer then holds the wrapped code. *)
Lemma write_fires (s : State) (c w : string) :
  watcher (this s) = Some w →
  enableWaitEnhancement (this s) = false →
  outputFile (this s) ∉ noRead s →
  currentCode (this s) ≠ c →
  ∃ s',
    codegenWrites c s = (Ok tt, s')
    ∧ currentCode (this s') = wrapInTestFunction c
    ∧ transformations (trace s') = S (transformations (trace s))
    ∧ sameSetup s s'.
Proof.
  intros Hw He Hr Hc.
  pose (s1 := withThis (setCurrentCode c (this s))
                (withFiles (<[outputFile (this s) := c]> (files s)) s)).
  destruct (handle_disabled s1 c)
    as (r & s' & rest & E & Hcur & Ht & Hq & _ & Hs & Hp);
    [by destruct s as [[]]|].
  assert (codegenWrites c s = (Ok tt, s')) as ->.
  { destruct s as [[out dir proc wa cb cur enh en cred] fs nr nw inp ch tr].
    simpl in *. subst wa en. unfold codegenWrites. run.
    unfold watchListener. rewrite decide_True by done.
    unfold readFileSync. run. rewrite lookup_insert_eq.
    rewrite decide_False by done. rewrite decide_True by done.
    unfold s1 in E. run_in E. rewrite E. by destruct r as [[]| |]. }
  eexists _. split; [done|]. split; [done|]. split.
  - rewrite Ht. rewrite !transformations_app, (transformations_quiet rest Hq).
    rewrite transformations_display. change (trace s1) with (trace s). lia.
  - unfold sameSetup in *. by destruct s as [[]].
Qed.

(** Writes of one unwrapped content are all transformed: the comparison is
    made with the buffer, which holds the wrapped code after the first. *)
Lemma same_writes_all_fire (n : nat) (s : State) (c w : string) :
  watcher (this s) = Some w →
  enableWaitEnhancement (this s) = false →
  outputFile (this s) ∉ noRead s →
  hasMarker c = false →
  currentCode (this s) ≠ c →
  transformations (trace (sameWrites n c s).2)
  = (transformations (trace s) + n)%nat.
Proof.
  intros Hw He Hr Hm. revert s Hw He Hr.
  induction n as [|n IH]; intros s Hw He Hr Hc; simpl; [lia|].
  destruct (write_fires s c w Hw He Hr Hc)
    as (s' & E & Hcur & Ht & Ho & Hw' & He' & _ & Hr').
  unfold mbind, M_bind. rewrite E. rewrite IH.
  - lia.
  - by rewrite Hw'.
  - by rewrite He'.
  - by rewrite Ho, Hr'.
  - rewrite Hcur. by apply wrap_changes.
Qed.

(** C1, where the code departs from it.  Two byte-identical writes of an
    unwrapped code fire two transformation events, not one: the second
    write is compared with the buffer, which by then holds the transformed
    code and not the content last read. *)
Theorem identical_write_fires_again :
  (sameWrites 2 click watching).1 = Ok tt
  ∧ trace (sameWrites 2 click watching).2
    = display (wrapInTestFunction click) ++ display (wrapInTestFunction click)
  ∧ transformations (trace (sameWrites 2 click watching).2) = 2%nat.
Proof. vm_compute. done. Qed.

(* ================================================================== *)
(** * Stopping *)
(* ================================================================== *)

(** C6, as the code has it.  [stopRecording] kills the subprocess if there
    is one, closes the watcher if there is one and touches no file.  Its
    answer is [stopAnswer]: the content of the artifact file when that file
    exists and can be read; the error of the read, thrown, when the file
    exists and cannot be read; the buffered code only when the file does
    not exist.  Run again, it does nothing more and ends the same way. *)
Theorem stopRecording_spec (s : State) :
  ∃ s',
    stopRecording s = (stopAnswer s, s')
    ∧ codegenProcess (this s') = None
    ∧ watcher (this s') = None
    ∧ currentCode (this s') = currentCode (this s)
    ∧ files s' = files s
    ∧ trace s' = trace s ++ stopEvents s
    ∧ stopRecording s' = (stopAnswer s, s').
Proof.
  destruct s as [[out dir proc w cb cur enh en cred] fs nr nw inp ch tr].
  unfold stopRecording, stopWatching, readFileSync, stopAnswer, stopEvents.
  destruct proc, w; run; destruct (fs !! out) eqn:F;
    rewrite ?bool_decide_eq_true_2, ?bool_decide_eq_false_2
      by (rewrite ?F; eauto using is_Some_None);
    run; rewrite ?F; try destruct (decide (out ∈ nr));
    eexists; repeat split; run; rewrite ?F;
    rewrite ?bool_decide_eq_true_2, ?bool_decide_eq_false_2
      by (rewrite ?F; eauto using is_Some_None);
    rewrite ?F, ?app_nil_r, <- ?app_assoc; try done;
    by rewrite ?decide_True, ?decide_False by done.
Qed.

(** C6 as stated fails: in a session whose buffer holds the transformation
    of the very content on disk, [stopRecording] answers with the raw
    content of the file and not with the buffered code. *)
Lemma stopRecording_prefers_file :
  files afterOneWrite !! outputFile (this afterOneWrite) = Some click
  ∧ currentCode (this afterOneWrite) = wrapInTestFunction click
  ∧ (stopRecording afterOneWrite).1 = Ok click
  ∧ (stopRecording afterOneWrite).1 ≠ Ok (currentCode (this afterOneWrite)).
Proof. vm_compute. repeat split; done. Qed.

(* ================================================================== *)
(** * The end of a recording *)
(* ================================================================== *)

(** C10. When the codegen subprocess closes while the buffer is empty or
    holds white space only, the session ends with the warning alone: the
    watcher is closed if attached, no question is asked, no file is written,
    no editor is spawned and no extension runs. *)
Theorem close_without_code (env : Env) (s : State) (code : option Z) :
  JS.trim (currentCode (this s)) = EmptyString →
  ∃ s',
    onCodegenClose env code s = (Ok tt, s')
    ∧ trace s'
      = trace s
        ++ match watcher (this s) with Some _ => [CloseWatcher] | None => [] end
        ++ [Log MsgNoCode]
    ∧ files s' = files s
    ∧ stdin s' = stdin s
    ∧ children s' = children s
    ∧ watcher (this s') = None.
Proof.
  destruct s as [[out dir proc w cb cur enh en cred] fs nr nw inp ch tr].
  simpl. intros H. unfold onCodegenClose, stopWatching, promptForFilename.
  destruct w; run; rewrite H; simpl JS.isEmpty; rewrite orb_true_r;
    eexists; repeat split; run; by rewrite <- ?app_assoc.
Qed.

Lemma close_without_code_witness :
  let s := world (setCurrentCode "   " recorder) ∅ ["name"] in
  JS.trim (currentCode (this s)) = EmptyString
  ∧ ∃ s',
      onCodegenClose (answering (Failure "down")) (Some 0) s = (Ok tt, s')
      ∧ trace s'
        = trace s
          ++ match watcher (this s) with
             | Some _ => [CloseWatcher]
             | None => []
             end
          ++ [Log MsgNoCode]
      ∧ files s' = files s
      ∧ stdin s' = stdin s
      ∧ children s' = children s
      ∧ watcher (this s') = None.
Proof.
  split; [reflexivity|].
  apply (close_without_code (answering (Failure "down"))
           (world (setCurrentCode "   " recorder) ∅ ["name"]) (Some 0)).
  reflexivity.
Defined.

(* ================================================================== *)
(** * The credential store *)
(* ================================================================== *)

(** A prompt that gets its two answers returns them, whether or not they
    could be saved. *)
Lemma promptForCredentials_answered (s : State) (email token : string)
    (rest : list string) :
  stdin s = email :: token :: rest →
  ∃ s',
    promptForCredentials s = (Ok (credentialsOf email token), s')
    ∧ this s' = this s
    ∧ stdin s' = rest
    ∧ noRead s' = noRead s
    ∧ noWrite s' = noWrite s
    ∧ files s' = promptFiles email token s
    ∧ trace s' = trace s ++ promptEvents s.
Proof.
  destruct s as [[out dir proc w cb cur enh en cred] fs nr nw inp ch tr].
  simpl. intros ->.
  unfold promptForCredentials, question, readLine, writeFileSync,
    promptFiles, promptEvents.
  run. destruct (decide (cred ∈ nw)); run;
    eexists; repeat split; by rewrite <- !app_assoc.
Qed.

(** What a prompt can do to the files, whatever it is answered. *)
Lemma promptForCredentials_frame (s : State) :
  this (promptForCredentials s).2 = this s
  ∧ noWrite (promptForCredentials s).2 = noWrite s
  ∧ noRead (promptForCredentials s).2 = noRead s
  ∧ children (promptForCredentials s).2 = children s
  ∧ ∀ f, f ≠ credentialsFile (this s) →
         files (promptForCredentials s).2 !! f = files s !! f.
Proof.
  destruct s as [[out dir proc w cb cur enh en cred] fs nr nw inp ch tr].
  unfold promptForCredentials, question, readLine, writeFileSync. run.
  destruct inp as [|email [|token rest]]; run; [done..|].
  destruct (decide (cred ∈ nw)); run; repeat split; try done.
  intros f Hf. by rewrite lookup_insert_ne.
Qed.

(** [getCredentials] ends in a prompt exactly when the cache fails. *)
Lemma getCredentials_cases (s : State) :
  (cacheFails s
   ∧ ∃ es, getCredentials s = promptForCredentials (afterAll es s)
           ∧ es = match files s !! credentialsFile (this s) with
                  | Some _ => [Log MsgCredentialsUnreadable]
                  | None => []
                  end)
  ∨ (∃ data v, files s !! credentialsFile (this s) = Some data
               ∧ (credentialsFile (this s) ∉ noRead s)
               ∧ parse data = Some v
               ∧ getCredentials s = (Ok v, s)).
Proof.
  destruct s as [[out dir proc w cb cur enh en cred] fs nr nw inp ch tr].
  unfold getCredentials, readFileSync, cacheFails. run.
  destruct (fs !! cred) as [data|] eqn:F.
  - rewrite bool_decide_eq_true_2 by eauto. run. rewrite F.
    destruct (decide (cred ∈ nr)).
    + left. split; [right; left; eauto|]. eexists. split; [|done]. by run.
    + destruct (parse data) as [v|] eqn:P; run.
      * right. by exists data, v.
      * left. split; [right; right; eauto|]. eexists. split; [|done]. by run.
  - rewrite bool_decide_eq_false_2 by (by intros [? ?]). run.
    left. split; [by left|]. exists []. split; [|done]. run.
    by rewrite app_nil_r.
Qed.

Lemma getCredentials_frame (s : State) :
  this (getCredentials s).2 = this s
  ∧ noWrite (getCredentials s).2 = noWrite s
  ∧ noRead (getCredentials s).2 = noRead s
  ∧ children (getCredentials s).2 = children s
  ∧ ∀ f, f ≠ credentialsFile (this s) →
         files (getCredentials s).2 !! f = files s !! f.
Proof.
  destruct (getCredentials_cases s) as [(_ & es & -> & _)|(d & v & _ & _ & _ & ->)].
  - apply (promptForCredentials_frame (afterAll es s)).
  - done.
Qed.

(** [getCredentials] never throws. *)
Lemma getCredentials_no_throw (s : State) (e : exn) :
  (getCredentials s).1 ≠ Throw e.
Proof.
  destruct (getCredentials_cases s) as [(_ & es & -> & _)|(d & v & _ & _ & _ & ->)];
    [|done].
  generalize (afterAll es s). clear. intros s.
  destruct s as [[out dir proc w cb cur enh en cred] fs nr nw inp ch tr].
  unfold promptForCredentials, question, readLine, writeFileSync. run.
  destruct inp as [|email [|token rest]]; run; [done..|].
  by destruct (decide (cred ∈ nw)).
Qed.



(* ================================================================== *)
(** * The extension client *)
(* ================================================================== *)

(** The decoding of the source picks the first recognized field. *)
Lemma resolved_chosen (data : string) : resolved data = chosen data.
Proof.
  unfold resolved, chosen. destruct (parse data) as [v|]; [|done].
  destruct v; try done. simpl.
  destruct (member "extendedScript" l) as [x|]; simpl.
  - destruct (truthy x); [done|].
    destruct (member "script" l) as [y|]; simpl; [|done].
    by destruct (truthy y).
  - destruct (member "script" l) as [y|]; simpl; [|done].
    by destruct (truthy y).
Qed.

Lemma callExtendAPI_run (env : Env) (content : string) (credentials : json)
    (s : State) :
  callExtendAPI env content credentials s
  = match get credentials "email", get credentials "token" with
    | Some email, Some token =>
        if Http.validHeader email && Http.validHeader token then
          let r := requestFor content email token in
          (match service env r with
           | Response statusCode data =>
               if (200 <=? statusCode) && (statusCode <? 300)
               then Ok (resolved data)
               else Throw (StatusError statusCode data)
           | Failure message => Throw (RequestError message)
           end, after (Request r) s)
        else (Throw TypeError, s)
    | _, _ => (Throw TypeError, s)
    end.
Proof.
  unfold callExtendAPI, requestFor.
  destruct (get credentials "email") as [email|]; [|done].
  destruct (get credentials "token") as [token|]; [|done].
  destruct (Http.validHeader email && Http.validHeader token); [|done].
  run. destruct (service env _) as [st data|m]; [|done].
  by destruct ((200 <=? st) && (st <? 300)).
Qed.

Lemma failing_not_ok (r : reply) :
  failing r →
  match r with
  | Response statusCode data =>
      (200 <=? statusCode) && (statusCode <? 300) = false
  | Failure _ => True
  end.
Proof.
  destruct r as [st data|m]; [|done]. simpl. intros H.
  apply andb_false_iff.
  destruct (Z.leb_spec 200 st); [|by left].
  destruct (Z.ltb_spec st 300); [|by right]. lia.
Qed.

(** When the service fails, the extension step changes no file beyond what
    the acquisition of the credentials did. *)
Lemma extend_failing_files (env : Env) (f : string) (s : State) :
  (∀ r, failing (service env r)) →
  files (extendScriptWithAPI env f s).2
  = files (getCredentials (after (Log MsgExtending) s)).2.
Proof.
  intros Hfail. unfold extendScriptWithAPI.
  unfold mbind at 1. unfold M_bind at 1. unfold log at 1, emit at 1, modify at 1.
  fold (after (Log MsgExtending) s). generalize (after (Log MsgExtending) s).
  clear s. intros s. unfold catch at 1. unfold mbind at 1. unfold M_bind at 1.
  destruct (getCredentials s) as [[credentials|e|] s1]; [|by run..].
  unfold mbind at 1. unfold M_bind at 1. unfold readFileSync.
  destruct (files s1 !! f) as [content|]; [|by run].
  destruct (decide (f ∈ noRead s1)); [by run|].
  unfold mbind at 1. unfold M_bind at 1. unfold emit at 1, modify at 1.
  unfold catch at 1. unfold mbind at 1. unfold M_bind at 1.
  rewrite callExtendAPI_run.
  destruct (get credentials "email") as [email|]; [|by run].
  destruct (get credentials "token") as [token|]; [|by run].
  destruct (Http.validHeader email && Http.validHeader token); [|by run].
  cbv zeta. pose proof (failing_not_ok _ (Hfail (requestFor content email token))) as H.
  destruct (service env _) as [st data|m]; [rewrite H|]; by run.
Qed.

(** C2, for a target that is not the credential file.  For every such
    target and every failing exchange (a status outside 200..299 or a
    transport error), the content of the target after [extendScriptWithAPI]
    is its content before. *)
Theorem failed_extension_preserves_target (env : Env) (f : string) (s : State) :
  f ≠ credentialsFile (this s) →
  (∀ r, failing (service env r)) →
  files (extendScriptWithAPI env f s).2 !! f = files s !! f.
Proof.
  intros Hf Hfail. rewrite extend_failing_files by done.
  destruct (getCredentials_frame (after (Log MsgExtending) s))
    as (_ & _ & _ & _ & H).
  rewrite H; [done|]. by destruct s as [[]].
Qed.

Lemma failed_extension_preserves_target_witness :
  target ≠ credentialsFile (this cached)
  ∧ (∀ r, failing (service (answering (Response 500 "down")) r))
  ∧ files (extendScriptWithAPI (answering (Response 500 "down")) target cached).2
      !! target
    = files cached !! target.
Proof.
  assert (target ≠ credentialsFile (this cached)) as H1 by (by vm_compute).
  assert (∀ r, failing (service (answering (Response 500 "down")) r)) as H2.
  { intros r. simpl. lia. }
  split; [exact H1|]. split; [exact H2|].
  exact (failed_extension_preserves_target _ target cached H1 H2).
Defined.

(** C2 as stated fails when the target is the credential file: the failed
    attempt first asks for the credentials, since the file does not parse,
    and saves them over the target; the service then answers 500. *)
Lemma failed_extension_rewrites_cache :
  failing (Response 500 "down")
  ∧ files aliased !! cachePath = Some "not json"
  ∧ files (extendScriptWithAPI (answering (Response 500 "down")) cachePath
             aliased).2 !! cachePath
    = Some (stringifyCredentials "a@b.com" "t")
  ∧ files (extendScriptWithAPI (answering (Response 500 "down")) cachePath
             aliased).2 !! cachePath
    ≠ files aliased !! cachePath.
Proof. split; [simpl; lia|]. vm_compute. repeat split; done. Qed.

(** C5, with fields that count as true.  When the credentials are
    acquired with an email and a token that are valid values of a header,
    the target is read and the service answers with a status in 200..299,
    the value handed to the write of the target is the field
    [extendedScript] of the parsed body if it is there and counts as true (a
    string: not empty), else the field [script] likewise, else the raw
    body, which is also what a body that does not parse, or is no object,
    gives.  When the target can be written, a string so chosen is its final
    content, and another value is written as the runtime coerces it, or not
    at all; when the target cannot be written it keeps its content. *)
Theorem successful_extension_writes (env : Env) (f : string) (s s1 : State)
    (credentials : json) (email token : option json)
    (content data : string) (statusCode : Z) :
  getCredentials (after (Log MsgExtending) s) = (Ok credentials, s1) →
  files s1 !! f = Some content →
  f ∉ noRead s1 →
  get credentials "email" = Some email →
  get credentials "token" = Some token →
  Http.validHeader email = true →
  Http.validHeader token = true →
  service env (requestFor content email token) = Response statusCode data →
  200 ≤ statusCode < 300 →
  resolved data = chosen data
  ∧ files (extendScriptWithAPI env f s).2 !! f
    = if decide (f ∈ noWrite s1) then Some content
      else written env (chosen data) f s1.
Proof.
  intros Hc Hf Hr He Ht Ve Vt Hs Hst. split; [apply resolved_chosen|].
  rewrite <- resolved_chosen.
  unfold extendScriptWithAPI.
  unfold mbind at 1. unfold M_bind at 1. unfold log at 1, emit at 1, modify at 1.
  fold (after (Log MsgExtending) s).
  unfold catch at 1. unfold mbind at 1. unfold M_bind at 1. rewrite Hc.
  unfold mbind at 1. unfold M_bind at 1. unfold readFileSync. rewrite Hf.
  rewrite decide_False by done.
  unfold mbind at 1. unfold M_bind at 1. unfold emit at 1, modify at 1.
  unfold catch at 1. unfold mbind at 1. unfold M_bind at 1.
  rewrite callExtendAPI_run, He, Ht, Ve, Vt. cbv zeta. cbn [andb]. rewrite Hs.
  assert ((200 <=? statusCode) && (statusCode <? 300) = true) as ->.
  { apply andb_true_iff. split; [apply Z.leb_le|apply Z.ltb_lt]; lia. }
  unfold writeData, written, writeFileSync.
  destruct s1 as [r1 fs nr nw inp ch tr]. simpl in *.
  destruct (resolved data) as [|b|n m e|x|l|l]; run;
    try (destruct (coerce env _) as [x|]; run);
    destruct (decide (f ∈ nw)); run;
    by rewrite ?lookup_insert_eq.
Qed.

Lemma successful_extension_writes_witness :
  let env := answering (Response 200 (extendedBody "X")) in
  let s1 := after (Log MsgExtending) cached in
  let credentials := credentialsOf "a@b.com" "t" in
  getCredentials (after (Log MsgExtending) cached) = (Ok credentials, s1)
  ∧ files s1 !! target = Some click
  ∧ (target ∉ noRead s1)
  ∧ get credentials "email" = Some (Some (JString "a@b.com"))
  ∧ get credentials "token" = Some (Some (JString "t"))
  ∧ Http.validHeader (Some (JString "a@b.com")) = true
  ∧ Http.validHeader (Some (JString "t")) = true
  ∧ service env
      (requestFor click (Some (JString "a@b.com")) (Some (JString "t")))
    = Response 200 (extendedBody "X")
  ∧ 200 ≤ 200 < 300
  ∧ files (extendScriptWithAPI env target cached).2 !! target = Some "X".
Proof.
  intros env s1 credentials.
  assert (getCredentials (after (Log MsgExtending) cached) = (Ok credentials, s1))
    as H1 by (by vm_compute).
  assert (files s1 !! target = Some click) as H2 by (by vm_compute).
  assert (target ∉ noRead s1) as H3 by set_solver.
  assert (200 ≤ 200 < 300) as H5 by lia.
  repeat (split; [done|]).
  destruct (successful_extension_writes env target cached s1 credentials
              (Some (JString "a@b.com")) (Some (JString "t")) click
              (extendedBody "X") 200 H1 H2 H3 eq_refl eq_refl eq_refl eq_refl
              eq_refl H5)
    as [_ H].
  rewrite H. reflexivity.
Defined.

(** C5 as stated fails on a field that is present and empty: the claim
    takes the (empty) field, the code writes the raw body. *)
Lemma empty_field_is_skipped :
  let body := extendedBody EmptyString in
  stated body = JString EmptyString
  ∧ files (extendScriptWithAPI (answering (Response 200 body)) target cached).2
      !! target = Some body
  ∧ body ≠ EmptyString.
Proof. vm_compute. repeat split; done. Qed.

(** A surrogate that stands alone in the script answered is written as
    U+FFFD. *)
Example lone_surrogate_is_written :
  files (extendScriptWithAPI
           (answering
              (Response 200
                 ("{" +:+ quote "extendedScript" +:+ ": "
                  +:+ String DQ ("a" +:+ String BSL "ud800b" +:+ str1 DQ)
                  +:+ "}")))
           target cached).2 !! target
  = Some ("a" +:+ replacement +:+ "b").
Proof. vm_compute. reflexivity. Qed.

(** The extension step ends, or waits for an answer for ever; it never
    throws and leaves the recorder and the spawned editors as they are. *)
Lemma extend_frame (env : Env) (f : string) (s : State) :
  ∃ r s',
    extendScriptWithAPI env f s = (r, s')
    ∧ (r = Ok tt ∨ r = Pending)
    ∧ this s' = this s
    ∧ children s' = children s.
Proof.
  unfold extendScriptWithAPI.
  unfold mbind at 1. unfold M_bind at 1. unfold log at 1, emit at 1, modify at 1.
  fold (after (Log MsgExtending) s).
  assert (this (after (Log MsgExtending) s) = this s
          ∧ children (after (Log MsgExtending) s) = children s) as [<- <-]
    by done.
  generalize (after (Log MsgExtending) s). clear s. intros s.
  unfold catch at 1. unfold mbind at 1. unfold M_bind at 1.
  destruct (getCredentials_frame s) as (Ht & _ & _ & Hc & _).
  pose proof (getCredentials_no_throw s) as Hn.
  destruct (getCredentials s) as [[credentials|e|] s1]; simpl in *;
    [|by destruct (Hn e)|by eauto 10].
  clear Hn. rewrite <- Ht, <- Hc. clear Ht Hc s.
  unfold mbind at 1. unfold M_bind at 1. unfold readFileSync.
  destruct (files s1 !! f) as [content|];
    [|run; eexists _, _; split; [done|]; by eauto].
  destruct (decide (f ∈ noRead s1));
    [run; eexists _, _; split; [done|]; by eauto|].
  unfold mbind at 1. unfold M_bind at 1. unfold emit at 1, modify at 1.
  unfold catch at 1. unfold mbind at 1. unfold M_bind at 1.
  rewrite callExtendAPI_run.
  destruct (get credentials "email") as [email|];
    [|run; eexists _, _; split; [done|]; by eauto].
  destruct (get credentials "token") as [token|];
    [|run; eexists _, _; split; [done|]; by eauto].
  destruct (Http.validHeader email && Http.validHeader token);
    [|run; eexists _, _; split; [done|]; by eauto].
  cbv zeta.
  destruct (service env _) as [st data|m];
    [|run; eexists _, _; split; [done|]; by eauto].
  destruct ((200 <=? st) && (st <? 300));
    [|run; eexists _, _; split; [done|]; by eauto].
  unfold writeData, writeFileSync.
  destruct s1 as [r1 fs nr nw inp ch tr].
  destruct (resolved data) as [|b|neg m e|x|l|l]; run;
    try (destruct (coerce env _) as [x|]; run);
    try (destruct (decide (f ∈ nw)); run);
    eexists _, _; (split; [done|]); by eauto.
Qed.

(* ================================================================== *)
(** * The editors *)
(* ================================================================== *)

Lemma serveEditors_none (env : Env) (n : nat) (s : State) :
  children s = [] → serveEditors env n s = (Ok tt, s).
Proof.
  intros H. destruct n; [done|]. simpl. unfold mbind, M_bind, gets.
  by rewrite H.
Qed.




Lemma saves_then (env : Env) (c : editorChild) (saves : list string)
    (rest : list editorEvent) (s : State) :
  forEach ((Saves <$> saves) ++ rest) (deliver env c) s
  = forEach rest (deliver env c) (saved (editedFile c) saves s).
Proof.
  revert s. induction saves as [|x saves IH]; intros s; simpl.
  - by destruct s.
  - unfold mbind at 1. unfold M_bind at 1. unfold modify at 1.
    rewrite IH. by destruct s.
Qed.

(** The editor at [i] runs: the user saves, then leaves with an exit code. *)
Lemma serve_close (env : Env) (f : string) (editors : list string)
    (i n : nat) (ed : string) (saves : list string) (code : option Z)
    (s : State) :
  children s = [childAt f editors i] →
  editors !! i = Some ed →
  editor env ed f = (Saves <$> saves) ++ [EmitsClose code] →
  serveEditors env (S n) s
  = if decide (code = Some 0)
    then detach (extendScriptWithAPI env f)
           (after (Log MsgEdited) (saved f saves (withChildren [] s)))
    else (Ok tt, after (Log MsgEditorErrors) (saved f saves (withChildren [] s))).
Proof.
  intros Hc He Hev.
  simpl. unfold mbind at 1. unfold M_bind at 1. unfold gets at 1. rewrite Hc.
  unfold mbind at 1. unfold M_bind at 1. unfold modify at 1.
  unfold mbind at 1. unfold M_bind at 1.
  unfold childAt at 1 2 3. cbn [candidates position editedFile].
  rewrite He, Hev, saves_then. simpl forEach.
  unfold mbind at 1. unfold M_bind at 1. unfold onEditorClose.
  unfold childAt. cbn [editedFile].
  destruct (decide (code = Some 0)).
  - unfold mbind at 1. unfold M_bind at 1. unfold log at 1, emit at 1, modify at 1.
    fold (after (Log MsgEdited) (saved f saves (withChildren [] s))).
    destruct (extend_frame env f
                (after (Log MsgEdited) (saved f saves (withChildren [] s))))
      as (r & s' & E & Hr & _ & Hch).
    unfold detach. rewrite E.
    destruct Hr as [-> | ->]; run; by rewrite serveEditors_none.
  - run. by rewrite serveEditors_none.
Qed.


(** No editor can be launched: the three are tried in turn, each [close]
    is reported, and the search is given up. *)
Example no_editor :
  trace ((openEditorInTerminal target
          ≫= λ _, serveEditors (answering (Failure "down")) 4) cached).2
  = [Log MsgOpeningEditor; Log MsgEditorHint; Spawn "nano" [target];
     Spawn "vim" [target]; Log MsgEditorErrors;
     Spawn "vi" [target]; Log MsgEditorErrors;
     Log MsgNoEditor; Log (MsgManualEdit target); Log MsgEditorErrors].
Proof. vm_compute. reflexivity. Qed.




(* ================================================================== *)
(** * Saving under a fresh name *)
(* ================================================================== *)

(** ** The names tried are all different *)

Lemma free_app (c : ascii) (a b : string) :
  free c a → free c b → free c (a +:+ b).
Proof.
  induction a as [|x a IH]; [done|]. intros [? ?] ?. rewrite app_cons.
  split; [done|by apply IH].
Qed.

Lemma split_free (sep : ascii) (t : string) :
  free sep t → JS.split sep t = [t].
Proof.
  induction t as [|c t IH]; [done|]. intros [Hc Ht]. simpl.
  rewrite decide_False by done. by rewrite IH.
Qed.

(** Text without separator added to a path only extends its last segment. *)
Lemma split_app_free (sep : ascii) (p : string) :
  ∃ init last,
    JS.split sep p = init ++ [last]
    ∧ ∀ t, free sep t → JS.split sep (p +:+ t) = init ++ [last +:+ t].
Proof.
  induction p as [|c p (init & last & E & H)].
  - exists [], EmptyString. split; [done|]. intros t Ht.
    by rewrite app_empty_l, split_free.
  - destruct (decide (c = sep)) as [->|Hc].
    + exists (EmptyString :: init), last. split.
      * simpl. rewrite decide_True by done. by rewrite E.
      * intros t Ht. rewrite app_cons. simpl. rewrite decide_True by done.
        by rewrite H.
    + destruct init as [|x init].
      * exists [], (String c last). split.
        -- simpl. rewrite decide_False by done. by rewrite E.
        -- intros t Ht. rewrite app_cons. simpl. rewrite decide_False by done.
           by rewrite H.
      * exists (String c x :: init), last. split.
        -- simpl. rewrite decide_False by done. by rewrite E.
        -- intros t Ht. rewrite app_cons. simpl. rewrite decide_False by done.
           by rewrite H.
Qed.

Lemma join_snoc (sep : string) (l : list string) (x : string) :
  JS.join sep (l ++ [x])
  = match l with
    | [] => x
    | _ :: _ => (JS.join sep l +:+ sep) +:+ x
    end.
Proof.
  induction l as [|y l IH]; [done|].
  change ((y :: l) ++ [x]) with (y :: (l ++ [x])).
  destruct l as [|z l].
  - simpl. by rewrite app_assoc_s.
  - change (JS.join sep (y :: (z :: l) ++ [x]))
      with (y +:+ sep +:+ JS.join sep ((z :: l) ++ [x])).
    rewrite IH.
    change (JS.join sep (y :: z :: l))
      with (y +:+ sep +:+ JS.join sep (z :: l)).
    by rewrite !app_assoc_s.
Qed.

(** A segment that ends with a numbered suffix is kept as it is. *)
Lemma step_numbered (allow : bool) (stack : list string) (last t : string) :
  Path.step allow stack (last +:+ String "-" t)
  = (last +:+ String "-" t) :: stack.
Proof.
  unfold Path.step.
  destruct last as [|a [|b [|c last]]]; rewrite ?app_cons, ?app_empty_l;
    repeat (rewrite decide_False; [|by intros [=]]); try done.
  all: repeat (rewrite decide_False;
               [|intros [=]; by destruct last]); done.
Qed.

Lemma normalizeString_numbered (p : string) (allow : bool) :
  ∃ q, ∀ t, free Path.SEP t →
    Path.normalizeString (p +:+ String "-" t) allow = q +:+ String "-" t.
Proof.
  destruct (split_app_free Path.SEP p) as (init & last & _ & H).
  exists (match rev (foldl (Path.step allow) [] init) with
          | [] => last
          | l => (JS.join "/" l +:+ "/") +:+ last
          end).
  intros t Ht. unfold Path.normalizeString.
  rewrite H by (by split). rewrite foldl_app. simpl foldl.
  rewrite step_numbered. simpl rev. rewrite join_snoc.
  destruct (rev _); [done|]. by rewrite !app_assoc_s.
Qed.

Lemma rev_app_acc (x acc : string) :
  String.rev_app x acc = String.rev x +:+ acc.
Proof.
  revert acc. induction x as [|c x IH]; intros acc; [done|].
  unfold String.rev. simpl. rewrite (IH (String c acc)), (IH (String c EmptyString)).
  by rewrite app_assoc_s.
Qed.

Lemma rev_snoc (x : string) (c : ascii) :
  String.rev (x +:+ String c EmptyString) = String c (String.rev x).
Proof.
  induction x as [|d x IH]; [done|].
  rewrite app_cons. unfold String.rev at 1. simpl.
  rewrite rev_app_acc, IH. unfold String.rev at 2. simpl.
  by rewrite rev_app_acc.
Qed.

Lemma rev_cons (c : ascii) (x : string) :
  String.rev (String c x) = String.rev x +:+ String c EmptyString.
Proof. unfold String.rev at 1. simpl. by rewrite rev_app_acc. Qed.

Lemma rev_app_s (x y : string) :
  String.rev (x +:+ y) = String.rev y +:+ String.rev x.
Proof.
  induction x as [|c x IH]; [by rewrite app_empty_l, app_empty_r|].
  by rewrite app_cons, !rev_cons, IH, app_assoc_s.
Qed.

Lemma rev_involutive_s (x : string) : String.rev (String.rev x) = x.
Proof.
  induction x as [|c x IH]; [done|]. by rewrite rev_cons, rev_snoc, IH.
Qed.

Lemma app_inj_r (a b s : string) : a +:+ s = b +:+ s → a = b.
Proof.
  intros H. apply (f_equal String.rev) in H. rewrite !rev_app_s in H.
  apply (inj _) in H. apply (f_equal String.rev) in H.
  by rewrite !rev_involutive_s in H.
Qed.

Lemma endsWith_snoc (x : string) (c d : ascii) :
  JS.endsWith (x +:+ String c EmptyString) (String d EmptyString)
  = bool_decide (c = d).
Proof.
  unfold JS.endsWith. rewrite rev_snoc. simpl.
  destruct (decide (c = d)).
  - rewrite bool_decide_eq_true_2 by done. by destruct (String.rev x).
  - by rewrite bool_decide_eq_false_2.
Qed.

Lemma normalize_numbered (p : string) :
  ∃ r, ∀ t, free Path.SEP t →
    JS.endsWith (p +:+ String "-" t) "/" = false →
    Path.normalize (p +:+ String "-" t) = r +:+ String "-" t.
Proof.
  destruct (normalizeString_numbered p (negb (JS.startsWith p "/"))) as [q Hq].
  exists ((if JS.startsWith p "/" then "/" else EmptyString) +:+ q).
  intros t Ht He. unfold Path.normalize. rewrite He.
  assert (JS.isEmpty (p +:+ String "-" t) = false) as -> by (by destruct p).
  assert (JS.startsWith (p +:+ String "-" t) "/" = JS.startsWith p "/") as ->.
  { destruct p as [|c p]; [done|]. rewrite app_cons. simpl.
    destruct (decide (c = "/"%char)); [|done]. by destruct p. }
  rewrite Hq by done.
  assert (JS.isEmpty (q +:+ String "-" t) = false) as -> by (by destruct q).
  by rewrite app_empty_r, app_assoc_s.
Qed.

Lemma pretty_N_go_free (x : N) (s : string) :
  free Path.SEP s → free Path.SEP (pretty_N_go x s).
Proof.
  revert s. induction (N.lt_wf_0 x) as [x _ IH]; intros s Hs.
  destruct (decide (x = 0)%N) as [->|Hx]; [by rewrite pretty_N_go_0|].
  rewrite pretty_N_go_step by lia. apply IH.
  - apply N.div_lt; lia.
  - split; [|done]. unfold pretty_N_char. by repeat case_match.
Qed.

Lemma pretty_free (k : nat) : free Path.SEP (pretty k).
Proof.
  unfold pretty, pretty_nat, pretty, pretty_N.
  case_decide; [by repeat split|]. by apply pretty_N_go_free.
Qed.

Lemma join_two (dir name : string) :
  name ≠ EmptyString →
  Path.join [dir; name]
  = Path.normalize (if decide (dir = EmptyString) then name
                    else dir +:+ "/" +:+ name).
Proof.
  intros Hn. unfold Path.join. rewrite !filter_cons, filter_nil.
  destruct (decide (dir = EmptyString)) as [->|Hd].
  - rewrite decide_False by (by intros H; apply H).
    by rewrite decide_True by done.
  - by rewrite !decide_True by done.
Qed.

(** The path of a numbered name is a fixed text followed by the number. *)
Lemma join_numbered (dir baseName : string) :
  ∃ r, ∀ k, Path.join [dir; candidate baseName k] = r +:+ numbered k.
Proof.
  assert (∀ k : nat, free Path.SEP (pretty k +:+ ".js")) as Hfree.
  { intros k. apply free_app; [apply pretty_free|by repeat split]. }
  assert (∀ p (k : nat),
            JS.endsWith (p +:+ String "-" (pretty k +:+ ".js")) "/" = false)
    as Hend.
  { intros p k.
    change (p +:+ String "-" (pretty k +:+ ".js"))
      with (p +:+ ("-" +:+ pretty k +:+ ".j" +:+ "s")).
    rewrite <- !app_assoc_s. by rewrite endsWith_snoc. }
  assert (∀ k, candidate baseName k ≠ EmptyString) as Hne.
  { intros k. unfold candidate. by destruct baseName. }
  destruct (decide (dir = EmptyString)) as [->|Hd].
  - destruct (normalize_numbered baseName) as [r Hr]. exists r. intros k.
    rewrite join_two by done. rewrite decide_True by done.
    unfold candidate, numbered. by apply Hr.
  - destruct (normalize_numbered (dir +:+ "/" +:+ baseName)) as [r Hr].
    exists r. intros k. rewrite join_two by done. rewrite decide_False by done.
    unfold candidate, numbered.
    transitivity (Path.normalize ((dir +:+ "/" +:+ baseName)
                                  +:+ String "-" (pretty k +:+ ".js"))).
    + f_equal. by rewrite !app_assoc_s.
    + by rewrite Hr.
Qed.

Lemma candidate_inj (dir baseName : string) :
  Inj (=) (=) (λ k, Path.join [dir; candidate baseName k]).
Proof.
  destruct (join_numbered dir baseName) as [r Hr].
  intros j k H. rewrite !Hr in H. apply (inj _) in H.
  unfold numbered in H. injection H as H. rewrite !app_empty_l in H.
  apply app_inj_r in H. by apply (inj _) in H.
Qed.

(** ** The loop of [saveCodeToUniqueFile] *)

(** The loop reads the files and changes nothing.  It ends with the first
    of the names tried that is free, all the names tried before being
    taken; or it outlives its fuel, all the names tried being taken. *)
Lemma whileExists_run (fuel : nat) (baseName : string) (c : nat)
    (p : string) (s : State) :
  let P := λ k, Path.join [recordingDir (this s); candidate baseName k] in
  (∃ q, whileExists fuel baseName c p s = (Ok q, s)
        ∧ files s !! q = None
        ∧ (q = p
           ∨ (is_Some (files s !! p)
              ∧ ∃ j, (c ≤ j)%nat ∧ q = P j
                     ∧ ∀ i, (c ≤ i < j)%nat → is_Some (files s !! P i))))
  ∨ (whileExists fuel baseName c p s = (Pending, s)
     ∧ (fuel = 0%nat
        ∨ (is_Some (files s !! p)
           ∧ ∀ i, (c ≤ i < c + (fuel - 1))%nat → is_Some (files s !! P i)))).
Proof.
  intros P. revert c p. induction fuel as [|fuel IH]; intros c p.
  - right. split; [done|by left].
  - assert (whileExists (S fuel) baseName c p s
            = match files s !! p with
              | Some _ => whileExists fuel baseName (S c) (P c) s
              | None => (Ok p, s)
              end) as ->.
    { simpl. unfold mbind, M_bind, existsSync, field, gets.
      destruct (files s !! p) as [content|].
      - by rewrite bool_decide_eq_true_2 by eauto.
      - by rewrite bool_decide_eq_false_2 by (by intros [? ?]). }
    destruct (files s !! p) as [content|] eqn:F.
    + destruct (IH (S c) (P c)) as [(q & E & Hq & Hcase)|(E & Hcase)].
      * left. exists q. split; [exact E|]. split; [done|]. right.
        split; [eauto|]. destruct Hcase as [->|(Hp & j & Hj & -> & Hall)].
        -- exists c. split; [lia|]. split; [done|]. intros i ?. lia.
        -- exists j. split; [lia|]. split; [done|]. intros i Hi.
           destruct (decide (i = c)) as [->|]; [done|]. apply Hall. lia.
      * right. split; [exact E|]. right. split; [eauto|]. intros i Hi.
        destruct Hcase as [->|[Hp Hall]]; [simpl in Hi; lia|].
        destruct (decide (i = c)) as [->|]; [done|]. apply Hall. lia.
    + left. exists p. split; [done|]. split; [done|]. by left.
Qed.

(** More names than there are files cannot all be taken. *)
Lemma candidates_not_all_taken (dir baseName : string)
    (fs : gmap string string) (c : nat) :
  ¬ ∀ i, (c ≤ i < c + S (size fs))%nat →
         is_Some (fs !! Path.join [dir; candidate baseName i]).
Proof.
  intros Hall.
  pose (P := λ k, Path.join [dir; candidate baseName k]).
  pose (l := P <$> seq c (S (size fs))).
  assert (NoDup l) as Hnd.
  { apply (@NoDup_fmap_2 _ _ P (candidate_inj dir baseName)), NoDup_seq. }
  assert (list_to_set l ⊆ dom fs) as Hsub.
  { intros x Hx. apply elem_of_list_to_set, list_elem_of_fmap in Hx
      as (i & -> & Hi). apply elem_of_seq in Hi.
    apply elem_of_dom, Hall. lia. }
  apply subseteq_size in Hsub.
  rewrite size_list_to_set, size_dom in Hsub by done.
  unfold l in Hsub. rewrite length_fmap, length_seq in Hsub. lia.
Qed.

(** With the fuel that [saveCodeToUniqueFile] gives it, the loop ends. *)
Lemma whileExists_ends (baseName p : string) (s : State) :
  ∃ q, whileExists (S (S (size (files s)))) baseName 1 p s = (Ok q, s)
       ∧ files s !! q = None
       ∧ (q = p
          ∨ (is_Some (files s !! p)
             ∧ ∃ j, (1 ≤ j)%nat
                    ∧ q = Path.join [recordingDir (this s); candidate baseName j]
                    ∧ ∀ i, (1 ≤ i < j)%nat →
                        is_Some (files s !! Path.join
                                   [recordingDir (this s); candidate baseName i]))).
Proof.
  destruct (whileExists_run (S (S (size (files s)))) baseName 1 p s)
    as [H|(_ & [?|[_ Hall]])]; [done|done|].
  destruct (candidates_not_all_taken (recordingDir (this s)) baseName
              (files s) 1).
  intros i Hi. apply Hall. simpl. lia.
Qed.

Lemma save_run (filename q : string) (s : State) :
  whileExists (S (S (size (files s)))) (JS.replace ".js" EmptyString filename) 1
    (Path.join [recordingDir (this s); filename]) s = (Ok q, s) →
  saveCodeToUniqueFile filename s
  = if decide (q ∈ noWrite s) then (Throw (FsError q), s)
    else (Ok q, withFiles (<[q := currentCode (this s)]> (files s)) s).
Proof.
  intros E. unfold saveCodeToUniqueFile.
  unfold mbind at 1. unfold M_bind at 1. unfold field at 1, gets at 1.
  unfold mbind at 1. unfold M_bind at 1. unfold gets at 1.
  unfold mbind at 1. unfold M_bind at 1. rewrite E.
  unfold writeFileSync, mbind, M_bind, field, gets, mret, M_ret.
  by destruct (decide (q ∈ noWrite s)).
Qed.

(** [saveCodeToUniqueFile] always ends, and the only path it writes to is
    one where there was no file. *)
Lemma save_never_overwrites (filename : string) (s : State) :
  ∃ p, files s !! p = None
       ∧ (saveCodeToUniqueFile filename s
          = (Ok p, withFiles (<[p := currentCode (this s)]> (files s)) s)
          ∨ saveCodeToUniqueFile filename s = (Throw (FsError p), s)).
Proof.
  destruct (whileExists_ends (JS.replace ".js" EmptyString filename)
              (Path.join [recordingDir (this s); filename]) s)
    as (q & E & Hq & _).
  exists q. split; [done|]. rewrite (save_run filename q s E).
  destruct (decide (q ∈ _)); [by right|by left].
Qed.

Lemma replace_cons (pat rep : string) (c : ascii) (r : string) :
  JS.replace pat rep (String c r)
  = if JS.startsWith (String c r) pat
    then rep +:+ JS.skip (String.length pat) (String c r)
    else String c (JS.replace pat rep r).
Proof. reflexivity. Qed.

(** Removing [.js] from [x.js] gives [x] when [x] holds no [.js]. *)
Lemma replace_extension (x : string) :
  JS.includes x ".js" = false →
  JS.replace ".js" EmptyString (x +:+ ".js") = x.
Proof.
  induction x as [|c x IH]; [done|]. intros H.
  rewrite includes_cons in H. apply orb_false_iff in H as [Hs Hi].
  rewrite app_cons, replace_cons.
  assert (JS.startsWith (String c (x +:+ ".js")) ".js" = false) as ->.
  { destruct x as [|d [|e x]]; rewrite ?app_cons, ?app_empty_l;
      simpl; simpl in Hs; repeat (case_decide; try done).
    by destruct x. }
  by rewrite IH.
Qed.

(** For a name [x.js] whose stem [x] holds no [.js]: a free name is used
    as it is; a taken name gives [x-k.js] for the first [k >= 1] that is
    free. *)
Lemma save_numbering (x : string) (s : State) :
  JS.includes x ".js" = false →
  let P := λ k, Path.join [recordingDir (this s);
                           x +:+ "-" +:+ pretty k +:+ ".js"] in
  let p0 := Path.join [recordingDir (this s); x +:+ ".js"] in
  ∃ q, files s !! q = None
       ∧ (saveCodeToUniqueFile (x +:+ ".js") s
          = (Ok q, withFiles (<[q := currentCode (this s)]> (files s)) s)
          ∨ saveCodeToUniqueFile (x +:+ ".js") s = (Throw (FsError q), s))
       ∧ match files s !! p0 with
         | None => q = p0
         | Some _ =>
             ∃ k, (1 ≤ k)%nat ∧ q = P k
                  ∧ ∀ i, (1 ≤ i < k)%nat → is_Some (files s !! P i)
         end.
Proof.
  intros Hx P p0.
  destruct (whileExists_ends x p0 s) as (q & E & Hq & Hcase).
  exists q. split; [done|]. split.
  - rewrite (save_run (x +:+ ".js") q s)
      by (by rewrite replace_extension).
    destruct (decide (q ∈ _)); [by right|by left].
  - destruct Hcase as [->|([content F] & k & Hk & -> & Hall)].
    + by rewrite Hq.
    + rewrite F. by exists k.
Qed.

(** C4, where the code departs from it.  The file name [my.json.js] is
    taken; the save goes to [myon.js-1.js] and not to [my.json-1.js]: the
    base name is computed by removing the first [.js] of the name, which
    here is not its extension. *)
Theorem unique_name_of_json_stem :
  files taken !! "/app/recordings/my.json.js" = Some "old test"
  ∧ (saveCodeToUniqueFile "my.json.js" taken).1
    = Ok "/app/recordings/myon.js-1.js"
  ∧ files (saveCodeToUniqueFile "my.json.js" taken).2
      !! "/app/recordings/myon.js-1.js" = Some "new test"
  ∧ files (saveCodeToUniqueFile "my.json.js" taken).2
      !! "/app/recordings/my.json-1.js" = None.
Proof. vm_compute. repeat split; done. Qed.

(* ================================================================== *)
(** * Quoting and parsing *)
(* ================================================================== *)

(** One quoted character is read back as the character. *)
Lemma stringBody_quoteChar (c : ascii) (t : string) :
  stringBody None (quoteChar c +:+ t) = prepend (str1 c) (stringBody None t).
Proof. destruct c as [[] [] [] [] [] [] [] []]; reflexivity. Qed.

Lemma prepend_some (p t r : string) :
  prepend p (Some (t, r)) = Some (p +:+ t, r).
Proof. reflexivity. Qed.

(** The body of a quoted string is read back up to its closing quote. *)
Lemma stringBody_quoteBody (s rest : string) :
  stringBody None (quoteBody s +:+ String DQ rest) = Some (s, rest).
Proof.
  induction s as [|c s IH]; [reflexivity|].
  change (quoteBody (String c s)) with (quoteChar c +:+ quoteBody s).
  by rewrite app_assoc_s, stringBody_quoteChar, IH.
Qed.

Lemma quote_app (s rest : string) :
  quote s +:+ rest = String DQ (quoteBody s +:+ String DQ rest).
Proof. unfold quote. by rewrite !app_assoc_s. Qed.

(** A quoted string, after white space, is a value. *)
Lemma value_quoted (f : nat) (lead s rest : string) :
  skipWs lead = EmptyString →
  value (S f) (lead +:+ String DQ (quoteBody s +:+ String DQ rest))
  = Parsed (JString s) rest.
Proof.
  intros Hl. cbn [value].
  assert (skipWs (lead +:+ String DQ (quoteBody s +:+ String DQ rest))
          = String DQ (quoteBody s +:+ String DQ rest)) as ->.
  { induction lead as [|a lead IH]; [reflexivity|].
    rewrite app_cons. simpl in *. destruct (isWs a); [by apply IH|done]. }
  rewrite decide_False by done. rewrite decide_False by done.
  rewrite decide_True by done. by rewrite stringBody_quoteBody.
Qed.

(** [JSON.parse(JSON.stringify(s)) = s] for every string [s]. *)
Lemma parse_quote (s : string) : parse (quote s) = Some (JString s).
Proof.
  unfold parse, fuelFor. rewrite Nat.add_1_r.
  generalize (2 * String.length (quote s))%nat. intros n.
  rewrite <- (app_empty_r (quote s)), quote_app.
  pose proof (value_quoted n EmptyString s EmptyString eq_refl) as H.
  rewrite app_empty_l in H. by rewrite H.
Qed.

Lemma skipWs_lead (lead : string) (c : ascii) (r : string) :
  skipWs lead = EmptyString → isWs c = false →
  skipWs (lead +:+ String c r) = String c r.
Proof.
  intros Hl Hc. induction lead as [|a lead IH].
  - rewrite app_empty_l. simpl. by rewrite Hc.
  - rewrite app_cons. simpl in *. destruct (isWs a); [by apply IH|done].
Qed.

(** An object whose text opens with white space and a quote. *)
Lemma value_object (f : nat) (lead r : string) :
  skipWs lead = EmptyString →
  value (S f) (String "{" (lead +:+ String DQ r)) = members f (String DQ r) [].
Proof.
  intros Hl. cbn [value].
  change (skipWs (String "{" (lead +:+ String DQ r)))
    with (String "{" (lead +:+ String DQ r)).
  cbv beta iota. rewrite decide_True by done. by rewrite skipWs_lead.
Qed.

(** One member [k: v] whose value is a quoted string. *)
Lemma members_quoted (f : nat) (lead k sp v rest : string)
    (acc : list (string * json)) :
  skipWs lead = EmptyString → skipWs sp = EmptyString →
  members (S (S f))
    (lead +:+ quote k +:+ String ":" (sp +:+ quote v +:+ rest)) acc
  = match skipWs rest with
    | String c r =>
        if decide (c = ","%char)
        then members (S f) r (acc ++ [(k, JString v)])
        else if decide (c = "}"%char)
        then Parsed (JObject (acc ++ [(k, JString v)])) r
        else Malformed
    | EmptyString => Malformed
    end.
Proof.
  intros Hl Hs. rewrite !quote_app. cbn [members].
  rewrite skipWs_lead by done. cbv beta iota. rewrite decide_True by done.
  rewrite stringBody_quoteBody.
  change (skipWs (String ":" ?x)) with (String ":" x).
  cbv beta iota. rewrite decide_True by done. by rewrite value_quoted.
Qed.

(** The text saved by [promptForCredentials] parses to the credentials. *)
Lemma parse_credentials_text (email token : string) :
  parse (stringifyCredentials email token) = Some (credentialsOf email token).
Proof.
  unfold parse.
  assert (∃ n, fuelFor (stringifyCredentials email token) = S (S (S (S n))))
    as [n ->].
  { unfold fuelFor, stringifyCredentials. rewrite !app_cons.
    cbn [String.length]. eexists. rewrite Nat.add_1_r. simpl. by rewrite !Nat.add_succ_r. }
  unfold stringifyCredentials.
  change ("{" +:+ nl +:+ "  " +:+ quote "email" +:+ ": " +:+ quote email +:+ ","
          +:+ nl +:+ "  " +:+ quote "token" +:+ ": " +:+ quote token +:+ nl +:+ "}")
    with (String "{" ((nl +:+ "  ") +:+ quote "email" +:+ String ":"
            (" " +:+ quote email +:+ String ","
               ((nl +:+ "  ") +:+ quote "token" +:+ String ":"
                  (" " +:+ quote token +:+ (nl +:+ "}")))))).
  rewrite (quote_app "email") at 1.
  rewrite value_object by done. rewrite <- quote_app.
  rewrite <- (app_empty_l (quote "email" +:+ _)).
  rewrite members_quoted by done.
  change (skipWs (String "," ?x)) with (String "," x).
  cbv beta iota. rewrite decide_True by done.
  rewrite members_quoted by done.
  reflexivity.
Qed.

(** The body of the request parses to an object that holds the script. *)
Lemma parse_script_text (content : string) :
  parse (stringifyScript content) = Some (JObject [("script", JString content)]).
Proof.
  unfold parse.
  assert (∃ n, fuelFor (stringifyScript content) = S (S (S n))) as [n ->].
  { unfold fuelFor, stringifyScript. rewrite !app_cons.
    cbn [String.length]. eexists. rewrite Nat.add_1_r. simpl.
    by rewrite !Nat.add_succ_r. }
  unfold stringifyScript.
  change ("{" +:+ quote "script" +:+ ":" +:+ quote content +:+ "}")
    with (String "{" (quote "script" +:+ String ":" (quote content +:+ "}"))).
  rewrite (quote_app "script") at 1.
  rewrite <- (app_empty_l (String DQ _)).
  rewrite value_object by done. rewrite <- quote_app.
  rewrite <- (app_empty_l (quote "script" +:+ _)).
  rewrite <- (app_empty_l (quote content +:+ _)).
  rewrite members_quoted by done.
  reflexivity.
Qed.

(* ================================================================== *)
(** * The credential store, continued *)
(* ================================================================== *)

(** X1. Credentials entered at the prompt and saved are found again: the
    next [getCredentials] returns the same email and token from the file,
    asks nothing and changes nothing. *)
Theorem credentials_round_trip (s : State) (email token : string)
    (rest : list string) :
  stdin s = email :: token :: rest →
  credentialsFile (this s) ∉ noWrite s →
  credentialsFile (this s) ∉ noRead s →
  ∃ s',
    promptForCredentials s = (Ok (credentialsOf email token), s')
    ∧ files s' !! credentialsFile (this s')
      = Some (stringifyCredentials email token)
    ∧ getCredentials s' = (Ok (credentialsOf email token), s').
Proof.
  intros Hin Hw Hr.
  destruct (promptForCredentials_answered s email token rest Hin)
    as (s' & E & Ht & _ & Hnr & _ & Hf & _).
  exists s'. split; [exact E|].
  assert (files s' !! credentialsFile (this s')
          = Some (stringifyCredentials email token)) as F.
  { rewrite Hf, Ht. unfold promptFiles. rewrite decide_False by done.
    by rewrite lookup_insert_eq. }
  split; [exact F|].
  destruct (getCredentials_cases s')
    as [(Hc & _)|(data & v & F' & _ & P & ->)].
  - exfalso. destruct Hc as [H|[[_ H]|(d & H & H')]].
    + rewrite F in H. discriminate.
    + rewrite Hnr, Ht in H. done.
    + rewrite F in H. injection H as <-.
      rewrite parse_credentials_text in H'. discriminate.
  - rewrite F in F'. injection F' as <-.
    rewrite parse_credentials_text in P. by injection P as <-.
Qed.

Lemma credentials_round_trip_witness :
  stdin unknownUser = ["a@b.com"; "t"]
  ∧ (credentialsFile (this unknownUser) ∉ noWrite unknownUser)
  ∧ (credentialsFile (this unknownUser) ∉ noRead unknownUser)
  ∧ ∃ s',
      promptForCredentials unknownUser = (Ok (credentialsOf "a@b.com" "t"), s')
      ∧ files s' !! credentialsFile (this s')
        = Some (stringifyCredentials "a@b.com" "t")
      ∧ getCredentials s' = (Ok (credentialsOf "a@b.com" "t"), s').
Proof.
  assert (credentialsFile (this unknownUser) ∉ noWrite unknownUser) as Hw
    by set_solver.
  assert (credentialsFile (this unknownUser) ∉ noRead unknownUser) as Hr
    by set_solver.
  split; [reflexivity|]. split; [exact Hw|]. split; [exact Hr|].
  exact (credentials_round_trip unknownUser "a@b.com" "t" [] eq_refl Hw Hr).
Defined.

(* ================================================================== *)
(** * The extension client, continued *)
(* ================================================================== *)

(** X2. With credentials whose properties [email] and [token] are valid
    values of a header, [callExtendAPI] sends exactly one request; its
    headers are the two properties as they are, and its body is a JSON
    object whose only member, [script], is the script, whatever characters
    the script holds.  When a property is missing, or is not a valid value
    of a header, nothing is sent: the call throws a type error and leaves
    the state as it is. *)
Theorem request_carries_script (env : Env) (content : string)
    (credentials : json) (email token : option json) (s : State) :
  get credentials "email" = Some email →
  get credentials "token" = Some token →
  if Http.validHeader email && Http.validHeader token
  then ∃ r, trace (callExtendAPI env content credentials s).2
            = trace s ++ [Request r]
            ∧ userEmail r = email
            ∧ authToken r = token
            ∧ parse (postData r) = Some (JObject [("script", JString content)])
  else callExtendAPI env content credentials s = (Throw TypeError, s).
Proof.
  intros He Ht. rewrite callExtendAPI_run, He, Ht.
  destruct (Http.validHeader email && Http.validHeader token); [|done].
  cbv zeta. exists (requestFor content email token). repeat split.
  apply parse_script_text.
Qed.

Lemma request_carries_script_witness :
  (get (credentialsOf "a@b.com" "t") "email" = Some (Some (JString "a@b.com"))
   ∧ get (credentialsOf "a@b.com" "t") "token" = Some (Some (JString "t"))
   ∧ ∃ r, trace (callExtendAPI (answering (Failure "down")) click
                   (credentialsOf "a@b.com" "t") cached).2
          = trace cached ++ [Request r]
          ∧ userEmail r = Some (JString "a@b.com")
          ∧ authToken r = Some (JString "t")
          ∧ parse (postData r) = Some (JObject [("script", JString click)]))
  ∧ (get (JObject []) "email" = Some None
     ∧ get (JObject []) "token" = Some None
     ∧ callExtendAPI (answering (Failure "down")) click (JObject []) cached
       = (Throw TypeError, cached)).
Proof.
  split.
  - split; [reflexivity|]. split; [reflexivity|].
    exact (request_carries_script (answering (Failure "down")) click
             (credentialsOf "a@b.com" "t") _ _ cached eq_refl eq_refl).
  - split; [reflexivity|]. split; [reflexivity|].
    exact (request_carries_script (answering (Failure "down")) click
             (JObject []) _ _ cached eq_refl eq_refl).
Defined.

(* ================================================================== *)
(** * The script transformer, continued *)
(* ================================================================== *)

Lemma split_line (l r : string) :
  free LF l → JS.split LF (l +:+ String LF r) = l :: JS.split LF r.
Proof.
  induction l as [|c l IH].
  - intros _. by rewrite app_empty_l.
  - intros [Hc Hl]. rewrite app_cons. simpl. rewrite decide_False by done.
    by rewrite IH.
Qed.

Lemma join_split (s : string) : JS.join nl (JS.split LF s) = s.
Proof.
  induction s as [|c s IH]; [done|]. simpl.
  destruct (decide (c = LF)) as [->|Hc].
  - destruct (JS.split LF s) as [|x xs] eqn:E; [by destruct s; simpl in *; repeat case_match|].
    change (JS.join nl (EmptyString :: x :: xs))
      with (EmptyString +:+ nl +:+ JS.join nl (x :: xs)).
    by rewrite IH.
  - destruct (JS.split LF s) as [|x xs] eqn:E.
    + simpl in IH. by subst.
    + destruct xs as [|y ys].
      * simpl in *. by subst.
      * change (JS.join nl (String c x :: y :: ys))
          with (String c (x +:+ nl +:+ JS.join nl (y :: ys))).
        by rewrite <- IH.
Qed.

Lemma includes_app_false (a x m : string) :
  JS.includes (a +:+ x) m = false → JS.includes x m = false.
Proof.
  intros H. destruct (JS.includes x m) eqn:E; [|done].
  by rewrite includes_app_l in H.
Qed.

Lemma hasMarker_app (a x : string) :
  hasMarker (a +:+ x) = false → hasMarker x = false.
Proof.
  unfold hasMarker. intros H. apply orb_false_iff in H as [H1 H2].
  by rewrite (includes_app_false a x _ H1), (includes_app_false a x _ H2).
Qed.

(** A scan that starts one line later and with more text collected ends
    one line later and with that text before what it collects. *)
Lemma scanLines_shift (ls : list string) (i : nat) (st : scan) (p q : string) :
  scanLines ls (S i)
    {| testStartIndex := S (testStartIndex st);
       imports := p +:+ imports st; setup := q +:+ setup st |}
  = {| testStartIndex := S (testStartIndex (scanLines ls i st));
       imports := p +:+ imports (scanLines ls i st);
       setup := q +:+ setup (scanLines ls i st) |}.
Proof.
  revert i st. induction ls as [|l ls IH]; intros i st; [done|].
  cbn [scanLines]. cbv zeta.
  destruct (JS.startsWith (JS.trim l) "import " || JS.startsWith (JS.trim l) "const "
            || JS.startsWith (JS.trim l) "require(").
  - cbn [testStartIndex imports setup].
    rewrite <- (IH (S i) {| testStartIndex := S i;
                            imports := imports st +:+ l +:+ nl;
                            setup := setup st |}).
    cbn [testStartIndex imports setup]. by rewrite app_assoc_s.
  - destruct (JS.includes (JS.trim l) "test =" || JS.includes (JS.trim l) "browser ="
              || JS.includes (JS.trim l) "context =").
    + cbn [testStartIndex imports setup].
      rewrite <- (IH (S i) {| testStartIndex := S i;
                              imports := imports st;
                              setup := setup st +:+ l +:+ nl |}).
      cbn [testStartIndex imports setup]. by rewrite app_assoc_s.
    + destruct (0 <? String.length (JS.trim l))%nat; [done|]. apply IH.
Qed.

Lemma scanLines_after (ls : list string) (p q : string) :
  let st := scanLines ls 0 {| testStartIndex := 0; imports := EmptyString;
                              setup := EmptyString |} in
  scanLines ls 1 {| testStartIndex := 1; imports := p; setup := q |}
  = {| testStartIndex := S (testStartIndex st);
       imports := p +:+ imports st; setup := q +:+ setup st |}.
Proof.
  cbv zeta.
  rewrite <- (scanLines_shift ls 0 {| testStartIndex := 0; imports := EmptyString;
                                     setup := EmptyString |} p q).
  cbn [testStartIndex imports setup]. by rewrite !app_empty_r.
Qed.

(** The wrapping of a code without marker, from the result of the scan. *)
Lemma wrap_unmarked (code : string) :
  hasMarker code = false →
  wrapInTestFunction code
  = let st := scanLines (JS.split LF code) 0
                {| testStartIndex := 0; imports := EmptyString;
                   setup := EmptyString |} in
    imports st +:+ testHeader
    +:+ testBody (JS.join nl (JS.slice (testStartIndex st) (JS.split LF code)))
    +:+ testFooter.
Proof. intros H. unfold wrapInTestFunction. unfold hasMarker in H. by rewrite H. Qed.

(** X3. A first line that starts, after white space, with [import ],
    [const ] or [require(] is kept as it is, in front of the wrapping of
    the rest of the code. *)
Theorem wrap_hoists_import (l r : string) :
  free LF l →
  importLine l = true →
  hasMarker (l +:+ nl +:+ r) = false →
  wrapInTestFunction (l +:+ nl +:+ r) = l +:+ nl +:+ wrapInTestFunction r.
Proof.
  intros Hl Hi Hm.
  assert (hasMarker r = false) as Hr.
  { apply (hasMarker_app (l +:+ nl)). by rewrite app_assoc_s. }
  rewrite (wrap_unmarked _ Hm), (wrap_unmarked _ Hr). cbv zeta.
  change (l +:+ nl +:+ r) with (l +:+ String LF r).
  rewrite split_line by done. cbn [scanLines]. cbv zeta.
  unfold importLine in Hi. rewrite Hi.
  cbn [testStartIndex imports setup].
  rewrite scanLines_after. cbv zeta.
  cbn [testStartIndex imports setup]. unfold JS.slice. cbn [drop].
  by rewrite !app_empty_l, !app_assoc_s.
Qed.

Lemma wrap_hoists_import_witness :
  free LF "import { x } from 'y';"
  ∧ importLine "import { x } from 'y';" = true
  ∧ hasMarker ("import { x } from 'y';" +:+ nl +:+ click) = false
  ∧ wrapInTestFunction ("import { x } from 'y';" +:+ nl +:+ click)
    = "import { x } from 'y';" +:+ nl +:+ wrapInTestFunction click.
Proof.
  assert (free LF "import { x } from 'y';") as H by (by repeat split).
  split; [exact H|]. split; [reflexivity|]. split; [reflexivity|].
  exact (wrap_hoists_import "import { x } from 'y';" click H eq_refl eq_refl).
Defined.

(** X4. A first line that is no import and holds [test =], [browser =] or
    [context =] is lost: the wrapping of the code is the wrapping of the
    rest of the code. *)
Theorem wrap_drops_setup (l r : string) :
  free LF l →
  importLine l = false →
  setupLine l = true →
  hasMarker (l +:+ nl +:+ r) = false →
  wrapInTestFunction (l +:+ nl +:+ r) = wrapInTestFunction r.
Proof.
  intros Hl Hi Hs Hm.
  assert (hasMarker r = false) as Hr.
  { apply (hasMarker_app (l +:+ nl)). by rewrite app_assoc_s. }
  rewrite (wrap_unmarked _ Hm), (wrap_unmarked _ Hr). cbv zeta.
  change (l +:+ nl +:+ r) with (l +:+ String LF r).
  rewrite split_line by done. cbn [scanLines]. cbv zeta.
  unfold importLine in Hi. rewrite Hi.
  unfold setupLine in Hs. rewrite Hs.
  cbn [testStartIndex imports setup].
  rewrite scanLines_after. cbv zeta.
  cbn [testStartIndex imports setup]. unfold JS.slice. cbn [drop].
  by rewrite !app_empty_l.
Qed.

Lemma wrap_drops_setup_witness :
  free LF "let context = await browser.newContext();"
  ∧ importLine "let context = await browser.newContext();" = false
  ∧ setupLine "let context = await browser.newContext();" = true
  ∧ hasMarker ("let context = await browser.newContext();" +:+ nl +:+ click)
    = false
  ∧ wrapInTestFunction
      ("let context = await browser.newContext();" +:+ nl +:+ click)
    = wrapInTestFunction click.
Proof.
  assert (free LF "let context = await browser.newContext();") as H
    by (by repeat split).
  split; [exact H|]. split; [reflexivity|]. split; [reflexivity|].
  split; [reflexivity|].
  exact (wrap_drops_setup "let context = await browser.newContext();" click
           H eq_refl eq_refl eq_refl).
Defined.

(** X5. A code whose first line is a statement (not blank, no import, no
    setup), be that line the whole code or not, is wrapped whole: nothing
    is hoisted, and every line of the code stands between the header and
    the footer, indented by two spaces when it is not blank. *)
Theorem wrap_statement_first (code l : string) :
  head (JS.split LF code) = Some l →
  importLine l = false →
  setupLine l = false →
  JS.trim l ≠ EmptyString →
  hasMarker code = false →
  wrapInTestFunction code = testHeader +:+ testBody code +:+ testFooter.
Proof.
  intros Hl Hi Hs Ht Hm.
  rewrite (wrap_unmarked _ Hm). cbv zeta.
  destruct (JS.split LF code) as [|l' ls] eqn:E; [done|].
  injection Hl as ->. cbn [scanLines]. cbv zeta.
  unfold importLine in Hi. rewrite Hi.
  unfold setupLine in Hs. rewrite Hs.
  assert ((0 <? String.length (JS.trim l))%nat = true) as ->.
  { by destruct (JS.trim l). }
  cbn [testStartIndex imports setup]. unfold JS.slice. cbn [drop].
  by rewrite app_empty_l, <- E, join_split.
Qed.

Lemma wrap_statement_first_witness :
  head (JS.split LF click) = Some click
  ∧ importLine click = false
  ∧ setupLine click = false
  ∧ JS.trim click ≠ EmptyString
  ∧ hasMarker click = false
  ∧ wrapInTestFunction click
    = testHeader +:+ "  " +:+ click +:+ testFooter.
Proof.
  assert (JS.trim click ≠ EmptyString) as Ht by (by vm_compute).
  split; [reflexivity|]. split; [reflexivity|]. split; [reflexivity|].
  split; [exact Ht|]. split; [reflexivity|].
  exact (wrap_statement_first click click eq_refl eq_refl eq_refl Ht eq_refl).
Defined.

(* ================================================================== *)
(** * The change-handling pipeline, continued *)
(* ================================================================== *)

Lemma forEach_suggestions (l : list string) (s : State) :
  forEach l (λ x, log (MsgSuggestion x)) s
  = (Ok tt, afterAll ((λ x, Log (MsgSuggestion x)) <$> l) s).
Proof.
  revert s. induction l as [|x l IH]; intros s.
  - simpl. run. destruct s; simpl. by rewrite app_nil_r.
  - simpl. unfold mbind at 1. unfold M_bind at 1.
    unfold log at 1, emit at 1, modify at 1. rewrite IH.
    destruct s; unfold afterAll; simpl. by rewrite <- app_assoc.
Qed.

(** The enhancement stage: the analyzer is given the code as it was read. *)
Lemma suggestions_run (enhancer : WaitEnhancer) (c : string) (s : State) :
  (_ ← emit (EnhanceCode c);
   _ ← emit (AnalyzeAndSuggestWaits c);
   _ ← (if (0 <? length (analyzeAndSuggestWaits enhancer c))%nat then
          _ ← log MsgSuggestions;
          forEach (analyzeAndSuggestWaits enhancer c)
            (λ x, log (MsgSuggestion x))
        else mret tt);
   mret (enhanceCode enhancer c)) s
  = (Ok (enhanceCode enhancer c), afterAll (enhancementEvents enhancer c) s).
Proof.
  unfold enhancementEvents.
  destruct (analyzeAndSuggestWaits enhancer c) as [|x l] eqn:E.
  - simpl. run. destruct s; simpl. by rewrite <- app_assoc.
  - simpl length. cbn [Nat.ltb Nat.leb].
    unfold mbind at 1. unfold M_bind at 1. unfold emit at 1, modify at 1.
    unfold mbind at 1. unfold M_bind at 1. unfold emit at 1, modify at 1.
    unfold mbind at 1. unfold M_bind at 1.
    unfold mbind at 1. unfold M_bind at 1. unfold log at 1, emit at 1, modify at 1.
    rewrite forEach_suggestions. run.
    destruct s; simpl. rewrite <- !app_assoc. reflexivity.
Qed.

(** What [handleCodeUpdate] does, in full. *)
Lemma handle_run (s : State) (c : string) :
  let final :=
    wrapInTestFunction
      (if enableWaitEnhancement (this s)
       then enhanceCode (waitEnhancer (this s)) c else c) in
  let pre :=
    if enableWaitEnhancement (this s)
    then enhancementEvents (waitEnhancer (this s)) c else [] in
  ∃ r s' rest,
    handleCodeUpdate c s = (r, s')
    ∧ this s' = setCurrentCode final (this s)
    ∧ noRead s' = noRead s ∧ noWrite s' = noWrite s
    ∧ stdin s' = stdin s ∧ children s' = children s
    ∧ trace s' = trace s ++ pre ++ display final ++ rest
    ∧ match onCodeUpdate (this s) with
      | Some (SaveOutput (Some out)) =>
          if JS.truthy out then
            let p := Path.join [recordingDir (this s); out] in
            if decide (p ∈ noWrite s)
            then r = Throw (FsError p) ∧ files s' = files s
                 ∧ rest = [Callback final]
            else r = Ok tt ∧ files s' = <[p := final]> (files s)
                 ∧ rest = [Callback final; Log (MsgSavedTo p)]
          else r = Ok tt ∧ files s' = files s ∧ rest = [Callback final]
      | Some (SaveOutput None) =>
          r = Ok tt ∧ files s' = files s ∧ rest = [Callback final]
      | None => r = Ok tt ∧ files s' = files s ∧ rest = []
      end.
Proof.
  intros final pre.
  assert (∃ code1 s1,
            handleCodeUpdate c s
            = (_ ← log MsgRule;
               _ ← log (MsgCode (wrapInTestFunction code1));
               _ ← log MsgRule;
               _ ← update (setCurrentCode (wrapInTestFunction code1));
               callback ← field onCodeUpdate;
               match callback with
               | Some o => _ ← emit (Callback (wrapInTestFunction code1));
                           runObserver o (wrapInTestFunction code1)
               | None => mret tt
               end) s1
            ∧ wrapInTestFunction code1 = final
            ∧ s1 = afterAll pre s) as (code1 & s1 & -> & Hf & ->).
  { unfold handleCodeUpdate, final, pre.
    unfold mbind at 1. unfold M_bind at 1. unfold field at 1, gets at 1.
    destruct (enableWaitEnhancement (this s)).
    - unfold mbind at 1. unfold M_bind at 1.
      unfold mbind at 1. unfold M_bind at 1. unfold field at 1, gets at 1.
      rewrite suggestions_run. by eexists _, _.
    - unfold mbind at 1. unfold M_bind at 1. unfold mret at 1, M_ret at 1.
      eexists _, _. split; [done|]. split; [done|].
      destruct s; unfold afterAll; simpl. by rewrite app_nil_r. }
  rewrite Hf. clear Hf code1.
  destruct s as [[out dir proc w cb cur enh en cred] fs nr nw inp ch tr].
  generalize dependent final. generalize dependent pre. intros pre final.
  simpl. run.
  destruct cb as [[[output|]]|].
  - unfold runObserver. destruct (JS.truthy output).
    + unfold saveCodeToFile, writeFileSync. run.
      destruct (decide (_ ∈ nw)).
      * eexists _, _, _. repeat split; run; try done.
        by rewrite <- !app_assoc.
      * eexists _, _, _. repeat split; run; try done.
        by rewrite <- !app_assoc.
    + eexists _, _, _. repeat split; run; try done.
      by rewrite <- !app_assoc.
  - eexists _, _, _. repeat split; run; try done.
    by rewrite <- !app_assoc.
  - eexists _, _, []. repeat split; run; try done.
    by rewrite <- !app_assoc.
Qed.

(** X6. With wait enhancement enabled, the analyzer is given the code as
    it was read, for the enhancement and for the suggestions; the
    suggestions are printed under their heading, which is left out when
    there is none; what is displayed, buffered and handed to the observer
    is the wrapping of the enhanced code. *)
Theorem transform_with_enhancement (s : State) (c : string) :
  enableWaitEnhancement (this s) = true →
  let enhanced := enhanceCode (waitEnhancer (this s)) c in
  ∃ r s' rest,
    handleCodeUpdate c s = (r, s')
    ∧ currentCode (this s') = wrapInTestFunction enhanced
    ∧ trace s'
      = trace s
        ++ [EnhanceCode c; AnalyzeAndSuggestWaits c]
        ++ suggestionEvents (analyzeAndSuggestWaits (waitEnhancer (this s)) c)
        ++ display (wrapInTestFunction enhanced) ++ rest
    ∧ Forall (λ e, ofEnhancement e = false) rest
    ∧ match onCodeUpdate (this s) with
      | Some _ => head rest = Some (Callback (wrapInTestFunction enhanced))
      | None => rest = []
      end.
Proof.
  intros He enhanced.
  destruct (handle_run s c) as (r & s' & rest & E & Ht & _ & _ & _ & _ & Htr & Ho).
  rewrite He in *. fold enhanced in Ht, Htr, Ho.
  exists r, s', rest. split; [exact E|]. split; [by rewrite Ht|].
  split; [rewrite Htr; unfold enhancementEvents; by rewrite <- !app_assoc|].
  destruct (onCodeUpdate (this s)) as [[[out|]]|].
  - destruct (JS.truthy out); [cbv zeta in Ho; destruct (decide _)|];
      destruct Ho as (_ & _ & ->); split; try done; by repeat constructor.
  - destruct Ho as (_ & _ & ->). split; [|done]. by repeat constructor.
  - destruct Ho as (_ & _ & ->). by split.
Qed.

Lemma transform_with_enhancement_witness :
  enableWaitEnhancement (this recording) = true
  ∧ ∃ r s' rest,
      handleCodeUpdate click recording = (r, s')
      ∧ currentCode (this s')
        = wrapInTestFunction (click +:+ nl +:+ "await page.waitForLoadState();")
      ∧ trace s'
        = trace recording
          ++ [EnhanceCode click; AnalyzeAndSuggestWaits click]
          ++ suggestionEvents ["Wait for the page to load"]
          ++ display (wrapInTestFunction
                        (click +:+ nl +:+ "await page.waitForLoadState();"))
          ++ rest
      ∧ Forall (λ e, ofEnhancement e = false) rest
      ∧ match onCodeUpdate (this recording) with
        | Some _ =>
            head rest
            = Some (Callback
                      (wrapInTestFunction
                         (click +:+ nl +:+ "await page.waitForLoadState();")))
        | None => rest = []
        end.
Proof.
  split; [reflexivity|].
  exact (transform_with_enhancement recording click eq_refl).
Defined.

(** What the listener of the watcher does on a change that it reads. *)
Lemma watchListener_reads (s : State) (c : string) :
  files s !! outputFile (this s) = Some c →
  outputFile (this s) ∉ noRead s →
  watchListener "change" s
  = if decide (c ≠ currentCode (this s))
    then catch (handleCodeUpdate c) (λ _, mret tt)
           (withThis (setCurrentCode c (this s)) s)
    else (Ok tt, s).
Proof.
  intros F R. unfold watchListener. rewrite decide_True by done.
  unfold catch at 1. unfold mbind at 1. unfold M_bind at 1.
  unfold field at 1, gets at 1.
  unfold mbind at 1. unfold M_bind at 1. unfold readFileSync. rewrite F.
  rewrite decide_False by done.
  unfold mbind at 1. unfold M_bind at 1. unfold field at 1, gets at 1.
  destruct (decide (c ≠ currentCode (this s))); [|done].
  unfold mbind at 1. unfold M_bind at 1. unfold update at 1, modify at 1.
  unfold catch. by destruct (handleCodeUpdate c _) as [[[]| |] s'].
Qed.

(** X7. The listener of the watcher never throws and never waits: an
    error of the read, of the transformation or of the observer (a save
    that fails) is swallowed, whatever the event and the state. *)
Theorem watcher_swallows_errors (s : State) (eventType : string) :
  (watchListener eventType s).1 = Ok tt.
Proof.
  destruct (decide (eventType = "change")) as [->|Hn];
    [|by unfold watchListener; rewrite decide_False].
  destruct (files s !! outputFile (this s)) as [c|] eqn:F.
  - destruct (decide (outputFile (this s) ∈ noRead s)) as [R|R].
    + unfold watchListener. rewrite decide_True by done.
      unfold catch, mbind, M_bind, field, gets, readFileSync.
      rewrite F. by rewrite decide_True by done.
    + rewrite (watchListener_reads s c F R).
      destruct (decide (c ≠ currentCode (this s))); [|done].
      destruct (handle_run (withThis (setCurrentCode c (this s)) s) c)
        as (r & s' & rest & E & _ & _ & _ & _ & _ & _ & Ho).
      unfold catch. rewrite E.
      destruct (onCodeUpdate _) as [[[out|]]|].
      * destruct (JS.truthy out); [cbv zeta in Ho; destruct (decide _)|];
          by destruct Ho as (-> & _ & _).
      * by destruct Ho as (-> & _ & _).
      * by destruct Ho as (-> & _ & _).
  - unfold watchListener. rewrite decide_True by done.
    unfold catch, mbind, M_bind, field, gets, readFileSync. by rewrite F.
Qed.

(** X8. With [--output], a change that is read and differs from the
    buffer ends with the output file holding exactly the buffer, that is
    the transformed code, when the file can be written. *)
Theorem output_file_mirrors_buffer (s : State) (c out : string) :
  files s !! outputFile (this s) = Some c →
  outputFile (this s) ∉ noRead s →
  c ≠ currentCode (this s) →
  onCodeUpdate (this s) = Some (SaveOutput (Some out)) →
  JS.truthy out = true →
  Path.join [recordingDir (this s); out] ∉ noWrite s →
  ∃ s',
    watchListener "change" s = (Ok tt, s')
    ∧ currentCode (this s')
      = wrapInTestFunction
          (if enableWaitEnhancement (this s)
           then enhanceCode (waitEnhancer (this s)) c else c)
    ∧ files s' !! Path.join [recordingDir (this s); out]
      = Some (currentCode (this s')).
Proof.
  intros F R Hc Ho Ht Hw. rewrite (watchListener_reads s c F R).
  rewrite decide_True by done.
  destruct (handle_run (withThis (setCurrentCode c (this s)) s) c)
    as (r & s' & rest & E & Hthis & _ & _ & _ & _ & _ & Hcase).
  assert (onCodeUpdate (this (withThis (setCurrentCode c (this s)) s))
          = Some (SaveOutput (Some out))) as Ho' by (by destruct s as [[]]).
  rewrite Ho', Ht in Hcase. cbv zeta in Hcase.
  assert (recordingDir (this (withThis (setCurrentCode c (this s)) s))
          = recordingDir (this s)) as Hd by (by destruct s as [[]]).
  assert (noWrite (withThis (setCurrentCode c (this s)) s) = noWrite s) as Hn
    by (by destruct s).
  rewrite Hd, Hn in Hcase. rewrite decide_False in Hcase by done.
  destruct Hcase as (-> & Hf & _).
  exists s'. unfold catch. rewrite E. split; [done|].
  rewrite Hthis, Hf. destruct s as [[]]; simpl. by rewrite lookup_insert_eq.
Qed.

Lemma output_file_mirrors_buffer_witness :
  files recording !! outputFile (this recording) = Some click
  ∧ (outputFile (this recording) ∉ noRead recording)
  ∧ click ≠ currentCode (this recording)
  ∧ onCodeUpdate (this recording) = Some (SaveOutput (Some "out.js"))
  ∧ JS.truthy "out.js" = true
  ∧ (Path.join [recordingDir (this recording); "out.js"] ∉ noWrite recording)
  ∧ ∃ s',
      watchListener "change" recording = (Ok tt, s')
      ∧ currentCode (this s')
        = wrapInTestFunction
            (if enableWaitEnhancement (this recording)
             then enhanceCode (waitEnhancer (this recording)) click else click)
      ∧ files s' !! Path.join [recordingDir (this recording); "out.js"]
        = Some (currentCode (this s')).
Proof.
  assert (outputFile (this recording) ∉ noRead recording) as H2 by set_solver.
  assert (click ≠ currentCode (this recording)) as H3 by done.
  assert (Path.join [recordingDir (this recording); "out.js"]
            ∉ noWrite recording) as H6 by set_solver.
  split; [reflexivity|]. split; [exact H2|]. split; [exact H3|].
  split; [reflexivity|]. split; [reflexivity|]. split; [exact H6|].
  exact (output_file_mirrors_buffer recording click "out.js"
           eq_refl H2 H3 eq_refl eq_refl H6).
Defined.

(** X9. The listener of the watcher does nothing at all, and leaves the
    state as it is, when the event is not [change], when the artifact file
    is missing or cannot be read, and when its content is the buffer. *)
Theorem change_is_ignored (s : State) (eventType : string) :
  eventType ≠ "change"
  ∨ files s !! outputFile (this s) = None
  ∨ outputFile (this s) ∈ noRead s
  ∨ files s !! outputFile (this s) = Some (currentCode (this s)) →
  watchListener eventType s = (Ok tt, s).
Proof.
  intros H. unfold watchListener.
  destruct (decide (eventType = "change")) as [->|Hn]; [|done].
  unfold catch, mbind, M_bind, field, gets, readFileSync.
  destruct H as [H|[H|[H|H]]]; [done|by rewrite H|..].
  - destruct (files s !! outputFile (this s)); [|done].
    by rewrite decide_True by done.
  - rewrite H. destruct (decide (outputFile (this s) ∈ noRead s)); [done|].
    by rewrite decide_False by (by intros []).
Qed.

Lemma change_is_ignored_witness :
  (("rename" : string) ≠ "change"
   ∨ files recording !! outputFile (this recording) = None
   ∨ outputFile (this recording) ∈ noRead recording
   ∨ files recording !! outputFile (this recording)
     = Some (currentCode (this recording)))
  ∧ watchListener "rename" recording = (Ok tt, recording).
Proof.
  assert (("rename" : string) ≠ "change"
          ∨ files recording !! outputFile (this recording) = None
          ∨ outputFile (this recording) ∈ noRead recording
          ∨ files recording !! outputFile (this recording)
            = Some (currentCode (this recording))) as H by (by left).
  split; [exact H|]. exact (change_is_ignored recording "rename" H).
Defined.

(* ================================================================== *)
(** * Saving under a fresh name, continued *)
(* ================================================================== *)

(** X10. [saveCodeToUniqueFile] always ends, and what it does is decided
    by one path, where there was no file: when that path can be written,
    the buffer is written there, the path is returned and nothing else is
    changed, no other file in particular; when it cannot, the call throws
    the error of the write and leaves the state as it is. *)
Theorem unique_save_is_fresh (filename : string) (s : State) :
  ∃ p, files s !! p = None
       ∧ saveCodeToUniqueFile filename s
         = if decide (p ∈ noWrite s) then (Throw (FsError p), s)
           else (Ok p, withFiles (<[p := currentCode (this s)]> (files s)) s).
Proof.
  destruct (whileExists_ends (JS.replace ".js" EmptyString filename)
              (Path.join [recordingDir (this s); filename]) s)
    as (p & E & Hp & _).
  exists p. split; [done|]. exact (save_run filename p s E).
Qed.

(** X11. The name used by [saveCodeToUniqueFile]: the name asked for when
    it is free; otherwise the base name, which is the name without its
    first [.js], followed by [-k.js] for the least [k >= 1] that gives a
    free name. *)
Theorem unique_save_first_free (filename : string) (s : State) :
  let baseName := JS.replace ".js" EmptyString filename in
  let P := λ k, Path.join [recordingDir (this s); candidate baseName k] in
  let p0 := Path.join [recordingDir (this s); filename] in
  ∃ q, ((saveCodeToUniqueFile filename s).1 = Ok q
        ∨ (saveCodeToUniqueFile filename s).1 = Throw (FsError q))
       ∧ match files s !! p0 with
         | None => q = p0
         | Some _ =>
             ∃ k, (1 ≤ k)%nat ∧ q = P k ∧ files s !! P k = None
                  ∧ ∀ i, (1 ≤ i < k)%nat → is_Some (files s !! P i)
         end.
Proof.
  intros baseName P p0.
  destruct (whileExists_ends baseName p0 s) as (q & E & Hq & Hcase).
  exists q. split.
  - rewrite (save_run filename q s E).
    destruct (decide (q ∈ _)); [by right|by left].
  - destruct Hcase as [->|([content F] & k & Hk & -> & Hall)].
    + by rewrite Hq.
    + rewrite F. by exists k.
Qed.

Lemma endsWith_app (a b : string) : JS.endsWith (a +:+ b) b = true.
Proof. unfold JS.endsWith. rewrite rev_app_s. apply startsWith_app. Qed.

(** What [promptForFilename] does once the loop has found its path. *)
Lemma promptForFilename_run (env : Env) (s : State) (answer p : string)
    (rest : list string) :
  JS.trim (currentCode (this s)) ≠ EmptyString →
  stdin s = answer :: rest →
  let s1 := withStdin rest (afterAll [Log MsgCompleted; Question AskFilename] s) in
  whileExists (S (S (size (files s))))
    (JS.replace ".js" EmptyString (filenameFor env answer)) 1
    (Path.join [recordingDir (this s); filenameFor env answer]) s1 = (Ok p, s1) →
  promptForFilename env s
  = if decide (p ∈ noWrite s) then (Throw (FsError p), s1)
    else (Ok tt,
          withChildren (children s ++ [childAt p terminalEditors 0])
            (afterAll [Log MsgTestSaved; Log (MsgLocation p);
                       Log MsgOpeningEditor; Log MsgEditorHint;
                       Spawn "nano" [p]]
               (withFiles (<[p := currentCode (this s)]> (files s)) s1))).
Proof.
  intros Hc Hin s1 E. unfold promptForFilename.
  unfold mbind at 1. unfold M_bind at 1. unfold field at 1, gets at 1.
  assert (negb (JS.truthy (currentCode (this s)))
          || JS.isEmpty (JS.trim (currentCode (this s))) = false) as ->.
  { destruct (currentCode (this s)) eqn:C; [done|]. simpl.
    unfold JS.isEmpty. by destruct (JS.trim (String a s0)). }
  unfold mbind at 1. unfold M_bind at 1. unfold log at 1, emit at 1, modify at 1.
  unfold mbind at 1. unfold M_bind at 1.
  unfold question at 1. unfold mbind at 1. unfold M_bind at 1.
  unfold emit at 1, modify at 1. unfold readLine.
  assert (stdin (withTrace
                   (trace (withTrace (trace s ++ [Log MsgCompleted]) s)
                    ++ [Question AskFilename])
                   (withTrace (trace s ++ [Log MsgCompleted]) s))
          = answer :: rest) as -> by (by destruct s).
  assert (withStdin rest
            (withTrace
               (trace (withTrace (trace s ++ [Log MsgCompleted]) s)
                ++ [Question AskFilename])
               (withTrace (trace s ++ [Log MsgCompleted]) s)) = s1) as ->.
  { unfold s1, afterAll. destruct s; simpl. by rewrite <- app_assoc. }
  fold (filenameFor env answer).
  unfold mbind at 1. unfold M_bind at 1.
  assert (size (files s) = size (files s1)) as Hsz by (by destruct s).
  assert (recordingDir (this s) = recordingDir (this s1)) as Hd
    by (by destruct s).
  rewrite Hsz, Hd in E. rewrite (save_run _ p s1 E).
  assert (noWrite s1 = noWrite s) as -> by (by destruct s).
  destruct (decide (p ∈ noWrite s)); [done|].
  unfold openEditorInTerminal, tryTerminalEditor. simpl lookup.
  destruct s as [r fs nr nw inp ch tr]. unfold s1. run.
  by rewrite <- !app_assoc.
Qed.

(** X12. When the codegen process closes with code in the buffer and the
    user answers, the buffer is saved under the name made of the answer
    (with [.js] added unless it ends so; a name of its own for a blank
    answer), or under a numbered name when that one is taken, at a path
    where there was no file; the first editor is then spawned on that
    path.  When the file cannot be written the listener throws after the
    question and nothing is saved. *)
Theorem recording_is_saved (env : Env) (s : State) (answer : string)
    (rest : list string) :
  JS.trim (currentCode (this s)) ≠ EmptyString →
  stdin s = answer :: rest →
  ∃ p s',
    promptForFilename env s
    = (if decide (p ∈ noWrite s) then Throw (FsError p) else Ok tt, s')
    ∧ files s !! p = None
    ∧ (files s !! Path.join [recordingDir (this s); filenameFor env answer] = None
       → p = Path.join [recordingDir (this s); filenameFor env answer])
    ∧ stdin s' = rest
    ∧ if decide (p ∈ noWrite s)
      then files s' = files s
           ∧ children s' = children s
           ∧ trace s' = trace s ++ [Log MsgCompleted; Question AskFilename]
      else files s' = <[p := currentCode (this s)]> (files s)
           ∧ children s' = children s ++ [childAt p terminalEditors 0]
           ∧ trace s'
             = trace s
               ++ [Log MsgCompleted; Question AskFilename; Log MsgTestSaved;
                   Log (MsgLocation p); Log MsgOpeningEditor;
                   Log MsgEditorHint; Spawn "nano" [p]].
Proof.
  intros Hc Hin.
  pose (s1 := withStdin rest
                (afterAll [Log MsgCompleted; Question AskFilename] s)).
  destruct (whileExists_ends
              (JS.replace ".js" EmptyString (filenameFor env answer))
              (Path.join [recordingDir (this s1); filenameFor env answer]) s1)
    as (p & E & Hp & Hcase).
  assert (files s1 = files s) as Hf by (by destruct s).
  assert (recordingDir (this s1) = recordingDir (this s)) as Hd
    by (by destruct s).
  rewrite Hf in E, Hp, Hcase. rewrite Hd in E, Hcase.
  rewrite (promptForFilename_run env s answer p rest Hc Hin E).
  fold s1. exists p.
  destruct (decide (p ∈ noWrite s)).
  - exists s1. split; [done|]. split; [done|]. split.
    + intros F. destruct Hcase as [->|([? F'] & _)]; [done|congruence].
    + destruct s; simpl. by rewrite ?app_nil_r.
  - eexists. split; [done|]. split; [done|]. split.
    + intros F. destruct Hcase as [->|([? F'] & _)]; [done|congruence].
    + destruct s; simpl. by rewrite <- !app_assoc.
Qed.

Lemma recording_is_saved_witness :
  JS.trim (currentCode (this naming)) ≠ EmptyString
  ∧ stdin naming = ["login"]
  ∧ ∃ p s',
      promptForFilename (answering (Failure "down")) naming
      = (if decide (p ∈ noWrite naming) then Throw (FsError p) else Ok tt, s')
      ∧ files naming !! p = None
      ∧ (files naming
           !! Path.join [recordingDir (this naming);
                         filenameFor (answering (Failure "down")) "login"] = None
         → p = Path.join [recordingDir (this naming);
                          filenameFor (answering (Failure "down")) "login"])
      ∧ stdin s' = []
      ∧ if decide (p ∈ noWrite naming)
        then files s' = files naming
             ∧ children s' = children naming
             ∧ trace s' = trace naming ++ [Log MsgCompleted; Question AskFilename]
        else files s' = <[p := currentCode (this naming)]> (files naming)
             ∧ children s' = children naming ++ [childAt p terminalEditors 0]
             ∧ trace s'
               = trace naming
                 ++ [Log MsgCompleted; Question AskFilename; Log MsgTestSaved;
                     Log (MsgLocation p); Log MsgOpeningEditor;
                     Log MsgEditorHint; Spawn "nano" [p]].
Proof.
  assert (JS.trim (currentCode (this naming)) ≠ EmptyString) as H
    by (by vm_compute).
  split; [exact H|]. split; [reflexivity|].
  exact (recording_is_saved (answering (Failure "down")) naming "login" []
           H eq_refl).
Defined.

Lemma free_rev (c : ascii) (x : string) : free c x → free c (String.rev x).
Proof.
  induction x as [|a x IH]; [done|]. intros [Ha Hx]. rewrite rev_cons.
  apply free_app; [by apply IH|by split].
Qed.

Lemma endsWith_free (x : string) : free "." x → JS.endsWith x ".js" = false.
Proof.
  intros H. apply (free_rev "." x) in H. unfold JS.endsWith.
  change (String.rev ".js") with "sj.".
  destruct (String.rev x) as [|a [|b [|c r]]]; simpl; repeat case_decide;
    try done.
  subst. by destruct H as (_ & _ & ? & _).
Qed.

Lemma includes_free (x : string) : free "." x → JS.includes x ".js" = false.
Proof.
  induction x as [|a x IH]; [done|]. intros [Ha Hx].
  rewrite includes_cons, (IH Hx). simpl. by rewrite decide_False.
Qed.

Lemma dashes_free (s : string) :
  free "." (JS.dashes s) ∧ free ":" (JS.dashes s).
Proof.
  induction s as [|a s [IH1 IH2]]; [done|]. simpl.
  repeat case_decide; subst; repeat split; done.
Qed.

(** X13. A blank answer to the question of the file name gives the name
    [kusho-test-] followed by the date, in which every colon and dot is
    replaced by a dash, and [.js]; the base name for the numbered names
    is then that name without its extension. *)
Theorem blank_answer_name (env : Env) (answer : string) :
  JS.trim answer = EmptyString →
  filenameFor env answer = "kusho-test-" +:+ JS.dashes (now env) +:+ ".js"
  ∧ JS.replace ".js" EmptyString (filenameFor env answer)
    = "kusho-test-" +:+ JS.dashes (now env)
  ∧ free "." (JS.dashes (now env))
  ∧ free ":" (JS.dashes (now env)).
Proof.
  intros Ht. destruct (dashes_free (now env)) as [Hd Hc].
  assert (free "." ("kusho-test-" +:+ JS.dashes (now env))) as Hf.
  { apply free_app; [by repeat split|done]. }
  assert (filenameFor env answer
          = ("kusho-test-" +:+ JS.dashes (now env)) +:+ ".js") as E.
  { unfold filenameFor. rewrite Ht. cbn [JS.isEmpty JS.truthy negb].
    rewrite orb_true_r. by rewrite endsWith_free. }
  split; [by rewrite E, app_assoc_s|]. split; [|done].
  rewrite E. apply replace_extension. by apply includes_free.
Qed.

Lemma blank_answer_name_witness :
  JS.trim "  " = EmptyString
  ∧ filenameFor (answering (Failure "down")) "  "
    = "kusho-test-2026-01-01T00-00-00-000Z.js"
  ∧ JS.replace ".js" EmptyString (filenameFor (answering (Failure "down")) "  ")
    = "kusho-test-2026-01-01T00-00-00-000Z".
Proof.
  split; [reflexivity|].
  destruct (blank_answer_name (answering (Failure "down")) "  " eq_refl)
    as (E1 & E2 & _).
  split; [exact E1|exact E2].
Defined.

(* ================================================================== *)
(** * The extension step, as a whole *)
(* ================================================================== *)

Ltac extend_frame_tac :=
  eexists _, _;
  split; [reflexivity|]; split; [reflexivity|]; split; [reflexivity|];
  split; [reflexivity|]; split; [reflexivity|]; split; [reflexivity|];
  split; [cbn [trace]; rewrite <- ?app_assoc; reflexivity|].

Lemma writeData_run (env : Env) (p : string) (v : json) (s : State) :
  writeData env p v s
  = match textOf env v with
    | Some x => writeFileSync p x s
    | None => (Throw TypeError, s)
    end.
Proof. unfold writeData, textOf. destruct v; try done; by destruct (coerce env _). Qed.

(** The ways [extendScriptWithAPI] can go once the credentials are had:
    the target cannot be read; the request cannot be made; the exchange
    fails; the write fails; all goes well. *)
Lemma extend_cases (env : Env) (f : string) (s s1 : State) (credentials : json) :
  getCredentials (after (Log MsgExtending) s) = (Ok credentials, s1) →
  ∃ s' es,
    extendScriptWithAPI env f s = (Ok tt, s')
    ∧ this s' = this s1 ∧ stdin s' = stdin s1 ∧ children s' = children s1
    ∧ noRead s' = noRead s1 ∧ noWrite s' = noWrite s1
    ∧ trace s' = trace s1 ++ es
    ∧ ((files s' = files s1
        ∧ es = [Log (MsgExtendError (FsError f)); Log (MsgPreserved f)]
        ∧ (files s1 !! f = None ∨ f ∈ noRead s1))
       ∨ (files s' = files s1
          ∧ es = [SetInterval; ClearInterval; Log MsgNewline;
                  Log (MsgExtendError TypeError); Log (MsgPreserved f)])
       ∨ (∃ r e, files s' = files s1
                 ∧ es = [SetInterval; Request r; ClearInterval; Log MsgNewline;
                         Log (MsgExtendError e); Log (MsgPreserved f)]
                 ∧ failing (service env r))
       ∨ (∃ r e, files s' = files s1
                 ∧ es = [SetInterval; Request r; ClearInterval; Log MsgNewline;
                         ClearInterval; Log MsgNewline;
                         Log (MsgExtendError e); Log (MsgPreserved f)]
                 ∧ ¬ failing (service env r))
       ∨ (∃ content email token statusCode data x,
            files s1 !! f = Some content
            ∧ files s' = <[f := x]> (files s1)
            ∧ es = [SetInterval; Request (requestFor content email token);
                    ClearInterval; Log MsgNewline;
                    Log MsgExtended; Log (MsgUpdated f)]
            ∧ service env (requestFor content email token)
              = Response statusCode data
            ∧ 200 ≤ statusCode < 300
            ∧ textOf env (resolved data) = Some x
            ∧ f ∉ noWrite s1)).
Proof.
  intros Hc. unfold extendScriptWithAPI.
  unfold mbind at 1. unfold M_bind at 1. unfold log at 1, emit at 1, modify at 1.
  fold (after (Log MsgExtending) s).
  unfold catch at 1. unfold mbind at 1. unfold M_bind at 1. rewrite Hc.
  clear Hc s.
  destruct s1 as [r1 fs nr nw inp ch tr].
  unfold mbind at 1. unfold M_bind at 1. unfold readFileSync.
  cbn [files noRead noWrite this stdin children trace].
  destruct (fs !! f) as [content|] eqn:F;
    [|run; extend_frame_tac; left; by eauto].
  destruct (decide (f ∈ nr));
    [run; extend_frame_tac; left; by eauto|].
  unfold mbind at 1. unfold M_bind at 1. unfold emit at 1, modify at 1.
  unfold catch at 1. unfold mbind at 1. unfold M_bind at 1.
  rewrite callExtendAPI_run.
  destruct (get credentials "email") as [email|];
    [|run; extend_frame_tac; right; left; by eauto].
  destruct (get credentials "token") as [token|];
    [|run; extend_frame_tac; right; left; by eauto].
  destruct (Http.validHeader email && Http.validHeader token);
    [|run; extend_frame_tac; right; left; by eauto].
  cbv zeta.
  destruct (service env (requestFor content email token)) as [st data|m] eqn:S;
    [|run; extend_frame_tac; right; right; left; eexists _, _; by rewrite S].
  destruct ((200 <=? st) && (st <? 300)) eqn:B.
  2:{ run. extend_frame_tac. right; right; left. eexists _, _. rewrite S.
      split; [done|]. split; [done|]. simpl. intros [? ?].
      apply andb_false_iff in B as [B|B];
        [apply Z.leb_gt in B|apply Z.ltb_ge in B]; lia. }
  assert (200 ≤ st < 300) as Hst.
  { apply andb_true_iff in B as [B1 B2].
    apply Z.leb_le in B1. apply Z.ltb_lt in B2. lia. }
  assert (¬ failing (service env (requestFor content email token))) as Hok.
  { rewrite S. simpl. intros H. by apply H. }
  run. rewrite writeData_run.
  destruct (textOf env (resolved data)) as [x|] eqn:T.
  - unfold writeFileSync. run. destruct (decide (f ∈ nw)); run.
    + extend_frame_tac. right; right; right; left. eexists _, _. by eauto.
    + extend_frame_tac. right; right; right; right.
      exists content, email, token, st, data, x. by eauto 10.
  - run. extend_frame_tac. right; right; right; left. eexists _, _. by eauto.
Qed.

Lemma promptForCredentials_events (s : State) :
  ∃ es, trace (promptForCredentials s).2 = trace s ++ es
        ∧ Forall (λ e, ofCredentials e = true) es
        ∧ ((promptForCredentials s).1 = Pending → (length (stdin s) < 2)%nat).
Proof.
  destruct s as [[out dir proc w cb cur enh en cred] fs nr nw inp ch tr].
  unfold promptForCredentials, question, readLine, writeFileSync. run.
  destruct inp as [|email [|token rest]]; run.
  - eexists. split; [by rewrite <- !app_assoc|]. split; [by repeat constructor|].
    simpl. lia.
  - eexists. split; [by rewrite <- !app_assoc|]. split; [by repeat constructor|].
    simpl. lia.
  - destruct (decide (cred ∈ nw)); run;
      (eexists; split; [by rewrite <- !app_assoc|]; split;
       [by repeat constructor|done]).
Qed.

Lemma getCredentials_events (s : State) :
  ∃ es, trace (getCredentials s).2 = trace s ++ es
        ∧ Forall (λ e, ofCredentials e = true) es
        ∧ ((getCredentials s).1 = Pending
           → (length (stdin s) < 2)%nat ∧ cacheFails s).
Proof.
  destruct (getCredentials_cases s)
    as [(Hc & es & -> & Hes)|(d & v & _ & _ & _ & ->)].
  - destruct (promptForCredentials_events (afterAll es s)) as (es' & Ht & Hf & Hp).
    exists (es ++ es'). split; [|split].
    + rewrite Ht. destruct s; simpl. by rewrite <- app_assoc.
    + apply Forall_app. split; [|done]. subst es.
      destruct (files s !! _); by repeat constructor.
    + intros H. split; [|done]. specialize (Hp H). by destruct s.
  - exists []. split; [by rewrite app_nil_r|]. split; [constructor|done].
Qed.

Lemma ticking_app (b : bool) (t u : list event) :
  ticking b (t ++ u) = ticking (ticking b t) u.
Proof. apply foldl_app. Qed.

Lemma ticking_credentials (b : bool) (es : list event) :
  Forall (λ e, ofCredentials e = true) es → ticking b es = b.
Proof.
  induction 1 as [|e es He _ IH]; [done|]. simpl.
  destruct e as [[]| | | |[]| | | | | |]; try done; apply IH.
Qed.

(** X14. [extendScriptWithAPI] never throws: every error is reported and
    the step ends.  Provided that the exchange with the service ends, with
    a response or with an error, the step can only fail to end by waiting
    at the prompt for the credentials, when they are not cached and the
    user gives fewer than two answers.  It leaves the recorder as it is. *)
Theorem extension_never_throws (env : Env) (f : string) (s : State) :
  this (extendScriptWithAPI env f s).2 = this s
  ∧ ((extendScriptWithAPI env f s).1 = Ok tt
     ∨ ((extendScriptWithAPI env f s).1 = Pending
        ∧ (length (stdin s) < 2)%nat ∧ cacheFails s)).
Proof.
  destruct (getCredentials_frame (after (Log MsgExtending) s)) as (Ht & _).
  destruct (getCredentials_events (after (Log MsgExtending) s))
    as (es & _ & _ & Hp).
  pose proof (getCredentials_no_throw (after (Log MsgExtending) s)) as Hn.
  destruct (getCredentials (after (Log MsgExtending) s))
    as [[credentials|e|] s1] eqn:E; simpl in *.
  - destruct (extend_cases env f s s1 credentials E)
      as (s' & es' & -> & Hthis & _). simpl. split; [|by left].
    rewrite Hthis, Ht. by destruct s.
  - by destruct (Hn e).
  - assert (extendScriptWithAPI env f s = (Pending, s1)) as ->.
    { unfold extendScriptWithAPI.
      unfold mbind at 1. unfold M_bind at 1.
      unfold log at 1, emit at 1, modify at 1.
      fold (after (Log MsgExtending) s).
      unfold catch at 1. unfold mbind at 1. unfold M_bind at 1.
      by rewrite E. }
    simpl. split; [rewrite Ht; by destruct s|]. right. split; [done|].
    destruct (Hp eq_refl) as [H1 H2]. split; [by destruct s|].
    by destruct s.
Qed.

(** X15. The loading indicator is never left running: whether the
    extension step succeeds, fails at any point or waits for the
    credentials, every interval it sets it clears. *)
Theorem indicator_is_cleared (env : Env) (f : string) (s : State) :
  ∃ es, trace (extendScriptWithAPI env f s).2 = trace s ++ es
        ∧ ticking false es = false.
Proof.
  destruct (getCredentials_events (after (Log MsgExtending) s))
    as (ces & Hces & Hf & _).
  pose proof (getCredentials_no_throw (after (Log MsgExtending) s)) as Hn.
  destruct (getCredentials (after (Log MsgExtending) s))
    as [[credentials|e|] s1] eqn:E; simpl in *.
  - destruct (extend_cases env f s s1 credentials E)
      as (s' & es & -> & _ & _ & _ & _ & _ & Ht & Hcase). simpl.
    exists ([Log MsgExtending] ++ ces ++ es). split.
    + rewrite Ht, Hces. destruct s; simpl. by rewrite <- !app_assoc.
    + rewrite !ticking_app. simpl. rewrite (ticking_credentials _ _ Hf).
      destruct Hcase as [(_ & -> & _)|[(_ & ->)|[(r & e & _ & -> & _)
        |[(r & e & _ & -> & _)
         |(c0 & em & tk & st & body & x & _ & _ & -> & _)]]]]; done.
  - by destruct (Hn e).
  - assert (extendScriptWithAPI env f s = (Pending, s1)) as ->.
    { unfold extendScriptWithAPI.
      unfold mbind at 1. unfold M_bind at 1.
      unfold log at 1, emit at 1, modify at 1.
      fold (after (Log MsgExtending) s).
      unfold catch at 1. unfold mbind at 1. unfold M_bind at 1.
      by rewrite E. }
    simpl. exists ([Log MsgExtending] ++ ces). split.
    + rewrite Hces. destruct s; simpl. by rewrite <- !app_assoc.
    + rewrite ticking_app. simpl. by rewrite (ticking_credentials _ _ Hf).
Qed.

(** X16. With a credential file that can be read and holds JSON, whatever
    its value, the extension step asks the user nothing: no question is
    put, the input is left as it is, and the credential file is not
    rewritten (unless it is the target).  Provided that the exchange with
    the service ends, with a response or with an error, the step ends. *)
Theorem cached_credentials_ask_nothing (env : Env) (f : string) (s : State)
    (data : string) (v : json) :
  files s !! credentialsFile (this s) = Some data →
  credentialsFile (this s) ∉ noRead s →
  parse data = Some v →
  ∃ s' es,
    extendScriptWithAPI env f s = (Ok tt, s')
    ∧ stdin s' = stdin s
    ∧ trace s' = trace s ++ es
    ∧ Forall (λ e, ofCredentials e = false) es
    ∧ (f ≠ credentialsFile (this s) →
       files s' !! credentialsFile (this s) = Some data).
Proof.
  intros F R P.
  assert (getCredentials (after (Log MsgExtending) s)
          = (Ok v, after (Log MsgExtending) s)) as E.
  { destruct (getCredentials_cases (after (Log MsgExtending) s))
      as [(Hc & _)|(d & v' & F' & _ & P' & ->)].
    - exfalso. destruct Hc as [H|[[_ H]|(d & H & H')]].
      + destruct s as [[]]; simpl in *. congruence.
      + destruct s as [[]]; simpl in *. done.
      + destruct s as [[]]; simpl in *. congruence.
    - destruct s as [[]]; simpl in *. congruence. }
  destruct (extend_cases env f s _ v E)
    as (s' & es & -> & _ & Hin & _ & _ & _ & Ht & Hcase).
  exists s', ([Log MsgExtending] ++ es). split; [done|].
  split; [rewrite Hin; by destruct s|].
  split; [rewrite Ht; destruct s; simpl; by rewrite <- app_assoc|].
  split.
  - apply Forall_app. split; [by repeat constructor|].
    destruct Hcase as [(_ & -> & _)|[(_ & ->)|[(r & e & _ & -> & _)
      |[(r & e & _ & -> & _)
       |(c0 & em & tk & st & body & x & _ & _ & -> & _)]]]];
      by repeat constructor.
  - intros Hf.
    destruct Hcase as [(-> & _)|[(-> & _)|[(r & e & -> & _)
      |[(r & e & -> & _)|(c0 & em & tk & st & body & x & _ & -> & _)]]]];
      destruct s as [[]]; simpl in *; try done.
    by rewrite lookup_insert_ne.
Qed.

Lemma cached_credentials_ask_nothing_witness :
  files cached !! credentialsFile (this cached)
  = Some (stringifyCredentials "a@b.com" "t")
  ∧ (credentialsFile (this cached) ∉ noRead cached)
  ∧ parse (stringifyCredentials "a@b.com" "t")
    = Some (credentialsOf "a@b.com" "t")
  ∧ ∃ s' es,
      extendScriptWithAPI (answering (Failure "down")) target cached = (Ok tt, s')
      ∧ stdin s' = stdin cached
      ∧ trace s' = trace cached ++ es
      ∧ Forall (λ e, ofCredentials e = false) es
      ∧ (target ≠ credentialsFile (this cached) →
         files s' !! credentialsFile (this cached)
         = Some (stringifyCredentials "a@b.com" "t")).
Proof.
  assert (credentialsFile (this cached) ∉ noRead cached) as H by set_solver.
  split; [reflexivity|]. split; [exact H|].
  split; [exact (parse_credentials_text "a@b.com" "t")|].
  exact (cached_credentials_ask_nothing (answering (Failure "down")) target
           cached _ _ eq_refl H (parse_credentials_text "a@b.com" "t")).
Defined.

(** X17. The events that an extension step which ends has added tell what
    happened to the target, when the target is not the credential file.
    Either they end with the error and [Original file preserved], and the
    target is as it was before the step, whatever failed (the read, the
    credentials, the request, the exchange or the write).  Or they end with
    the request that was sent, the stop of the indicator, [Script extended
    successfully] and [Updated file], in this order; the service answered
    that request with a status in 200..299, and the target, which existed,
    now holds the text of the value decoded from that answer. *)
Theorem report_is_truthful (env : Env) (f : string) (s : State) :
  f ≠ credentialsFile (this s) →
  (extendScriptWithAPI env f s).1 = Ok tt →
  ∃ es,
    trace (extendScriptWithAPI env f s).2 = trace s ++ es
    ∧ ((∃ pre e,
          es = pre ++ [Log (MsgExtendError e); Log (MsgPreserved f)]
          ∧ files (extendScriptWithAPI env f s).2 !! f = files s !! f)
       ∨ (∃ pre content email token statusCode data x,
            es = pre ++ [Request (requestFor content email token);
                         ClearInterval; Log MsgNewline;
                         Log MsgExtended; Log (MsgUpdated f)]
            ∧ files s !! f = Some content
            ∧ service env (requestFor content email token)
              = Response statusCode data
            ∧ 200 ≤ statusCode < 300
            ∧ textOf env (resolved data) = Some x
            ∧ files (extendScriptWithAPI env f s).2 !! f = Some x)).
Proof.
  intros Hf Hok.
  destruct (getCredentials_frame (after (Log MsgExtending) s))
    as (_ & _ & _ & _ & Hfiles).
  destruct (getCredentials_events (after (Log MsgExtending) s))
    as (ces & Hces & _ & _).
  specialize (Hfiles f). revert Hfiles Hces.
  destruct (getCredentials (after (Log MsgExtending) s))
    as [[credentials|e|] s1] eqn:E; intros Hfiles Hces; simpl in *.
  - destruct (extend_cases env f s s1 credentials E)
      as (s' & es & Hx & _ & _ & _ & _ & _ & Ht & Hcase).
    rewrite Hx. simpl.
    change (files (after (Log MsgExtending) s)) with (files s) in Hfiles.
    rewrite <- Hfiles by (by destruct s as [[]]).
    exists ([Log MsgExtending] ++ ces ++ es). split.
    { rewrite Ht, Hces. destruct s; simpl. by rewrite <- !app_assoc. }
    destruct Hcase as [(-> & -> & _)|[(-> & ->)|[(r & e & -> & -> & _)
      |[(r & e & -> & -> & _)
       |(content & email & token & st & data & x & F & -> & -> & S & Hst & T & _)]]]].
    + left. exists ([Log MsgExtending] ++ ces), (FsError f).
      split; [by rewrite <- !app_assoc|done].
    + left.
      exists ([Log MsgExtending] ++ ces
              ++ [SetInterval; ClearInterval; Log MsgNewline]), TypeError.
      split; [by rewrite <- !app_assoc|done].
    + left.
      exists ([Log MsgExtending] ++ ces
              ++ [SetInterval; Request r; ClearInterval; Log MsgNewline]), e.
      split; [by rewrite <- !app_assoc|done].
    + left.
      exists ([Log MsgExtending] ++ ces
              ++ [SetInterval; Request r; ClearInterval; Log MsgNewline;
                  ClearInterval; Log MsgNewline]), e.
      split; [by rewrite <- !app_assoc|done].
    + right.
      exists ([Log MsgExtending] ++ ces ++ [SetInterval]),
        content, email, token, st, data, x.
      split; [by rewrite <- !app_assoc|].
      split; [done|]. split; [done|]. split; [done|]. split; [done|].
      by rewrite lookup_insert_eq.
  - pose proof (getCredentials_no_throw (after (Log MsgExtending) s) e) as Hn.
    rewrite E in Hn. done.
  - exfalso. revert Hok. unfold extendScriptWithAPI.
    unfold mbind at 1. unfold M_bind at 1.
    unfold log at 1, emit at 1, modify at 1.
    fold (after (Log MsgExtending) s).
    unfold catch at 1. unfold mbind at 1. unfold M_bind at 1.
    by rewrite E.
Qed.

Lemma report_is_truthful_witness :
  let env := answering (Response 200 (extendedBody "X")) in
  target ≠ credentialsFile (this cached)
  ∧ (extendScriptWithAPI env target cached).1 = Ok tt
  ∧ last (trace (extendScriptWithAPI env target cached).2)
    = Some (Log (MsgUpdated target))
  ∧ files (extendScriptWithAPI env target cached).2 !! target = Some "X"
  ∧ ∃ es,
      trace (extendScriptWithAPI env target cached).2 = trace cached ++ es
      ∧ ((∃ pre e,
            es = pre ++ [Log (MsgExtendError e); Log (MsgPreserved target)]
            ∧ files (extendScriptWithAPI env target cached).2 !! target
              = files cached !! target)
         ∨ (∃ pre content email token statusCode data x,
              es = pre ++ [Request (requestFor content email token);
                           ClearInterval; Log MsgNewline;
                           Log MsgExtended; Log (MsgUpdated target)]
              ∧ files cached !! target = Some content
              ∧ service env (requestFor content email token)
                = Response statusCode data
              ∧ 200 ≤ statusCode < 300
              ∧ textOf env (resolved data) = Some x
              ∧ files (extendScriptWithAPI env target cached).2 !! target
                = Some x)).
Proof.
  intros env.
  assert (target ≠ credentialsFile (this cached)) as H1 by (by vm_compute).
  assert ((extendScriptWithAPI env target cached).1 = Ok tt) as H2
    by (by vm_compute).
  split; [exact H1|]. split; [exact H2|].
  split; [by vm_compute|]. split; [by vm_compute|].
  exact (report_is_truthful env target cached H1 H2).
Defined.

(** X18. A credential file that holds [null] makes the extension step
    fail with a type error before any request is sent: the indicator is
    started and stopped, the error is reported, the target is kept, and
    the user is not asked for credentials. *)
Theorem null_credentials_send_nothing (env : Env) (f : string) (s : State)
    (data content : string) :
  files s !! credentialsFile (this s) = Some data →
  credentialsFile (this s) ∉ noRead s →
  parse data = Some JNull →
  files s !! f = Some content →
  f ∉ noRead s →
  extendScriptWithAPI env f s
  = (Ok tt,
     afterAll [Log MsgExtending; SetInterval; ClearInterval; Log MsgNewline;
               Log (MsgExtendError TypeError); Log (MsgPreserved f)] s).
Proof.
  intros F R P Ff Rf.
  assert (getCredentials (after (Log MsgExtending) s)
          = (Ok JNull, after (Log MsgExtending) s)) as E.
  { destruct (getCredentials_cases (after (Log MsgExtending) s))
      as [(Hc & _)|(d & v' & F' & _ & P' & ->)].
    - exfalso. destruct Hc as [H|[[_ H]|(d & H & H')]].
      + destruct s as [[]]; simpl in *. congruence.
      + destruct s as [[]]; simpl in *. done.
      + destruct s as [[]]; simpl in *. congruence.
    - destruct s as [[]]; simpl in *. congruence. }
  unfold extendScriptWithAPI.
  unfold mbind at 1. unfold M_bind at 1. unfold log at 1, emit at 1, modify at 1.
  fold (after (Log MsgExtending) s).
  unfold catch at 1. unfold mbind at 1. unfold M_bind at 1. rewrite E.
  unfold mbind at 1. unfold M_bind at 1. unfold readFileSync.
  change (files (after (Log MsgExtending) s)) with (files s).
  change (noRead (after (Log MsgExtending) s)) with (noRead s).
  rewrite Ff. rewrite decide_False by done.
  unfold mbind at 1. unfold M_bind at 1. unfold emit at 1, modify at 1.
  unfold catch at 1. unfold mbind at 1. unfold M_bind at 1.
  rewrite callExtendAPI_run. simpl get. cbv iota.
  destruct s as [r fs nr nw inp ch tr]. run. by rewrite <- !app_assoc.
Qed.

Lemma null_credentials_send_nothing_witness :
  files nullCache !! credentialsFile (this nullCache) = Some "null"
  ∧ (credentialsFile (this nullCache) ∉ noRead nullCache)
  ∧ parse "null" = Some JNull
  ∧ files nullCache !! target = Some click
  ∧ (target ∉ noRead nullCache)
  ∧ extendScriptWithAPI (answering (Response 200 "ok")) target nullCache
    = (Ok tt,
       afterAll [Log MsgExtending; SetInterval; ClearInterval; Log MsgNewline;
                 Log (MsgExtendError TypeError); Log (MsgPreserved target)]
         nullCache).
Proof.
  assert (credentialsFile (this nullCache) ∉ noRead nullCache) as H2
    by set_solver.
  assert (target ∉ noRead nullCache) as H5 by set_solver.
  split; [reflexivity|]. split; [exact H2|]. split; [reflexivity|].
  split; [reflexivity|]. split; [exact H5|].
  exact (null_credentials_send_nothing (answering (Response 200 "ok")) target
           nullCache "null" click eq_refl H2 eq_refl eq_refl H5).
Defined.

(* ================================================================== *)
(** * The editors, continued *)
(* ================================================================== *)

Lemma quietly_refl (s : State) : quietly s s.
Proof. exists []. split; [by rewrite app_nil_r|constructor]. Qed.

Lemma quietly_same (s s' : State) : trace s' = trace s → quietly s s'.
Proof. intros E. exists []. split; [by rewrite app_nil_r|constructor]. Qed.

Lemma quietly_trans (s1 s2 s3 : State) :
  quietly s1 s2 → quietly s2 s3 → quietly s1 s3.
Proof.
  intros (es & E & H) (es' & E' & H'). exists (es ++ es'). split.
  - by rewrite E', E, <- app_assoc.
  - by apply Forall_app.
Qed.

Lemma tryTerminalEditor_quiet (f : string) (editors : list string) (i : nat)
    (s : State) :
  ∃ s', tryTerminalEditor f editors i s = (Ok tt, s') ∧ quietly s s'.
Proof.
  unfold tryTerminalEditor. destruct (editors !! i) as [ed|]; run.
  - eexists. split; [done|]. exists [Spawn ed [f]]. split; [done|].
    by repeat constructor.
  - eexists. split; [done|]. exists [Log MsgNoEditor; Log (MsgManualEdit f)].
    split; [by rewrite <- app_assoc|]. by repeat constructor.
Qed.

Lemma deliver_quiet (env : Env) (c : editorChild) (ev : editorEvent) (s : State) :
  ev ≠ EmitsClose (Some 0) →
  ∃ s', deliver env c ev s = (Ok tt, s') ∧ quietly s s'.
Proof.
  intros Hev. destruct ev as [content| |code]; simpl.
  - eexists. split; [done|]. by apply quietly_same.
  - apply tryTerminalEditor_quiet.
  - unfold onEditorClose. rewrite decide_False by congruence. run.
    eexists. split; [done|]. exists [Log MsgEditorErrors]. split; [done|].
    by repeat constructor.
Qed.

Lemma forEach_deliver_quiet (env : Env) (c : editorChild)
    (evs : list editorEvent) (s : State) :
  EmitsClose (Some 0) ∉ evs →
  ∃ s', forEach evs (deliver env c) s = (Ok tt, s') ∧ quietly s s'.
Proof.
  revert s. induction evs as [|ev evs IH]; intros s Hn.
  - exists s. split; [done|]. apply quietly_refl.
  - apply not_elem_of_cons in Hn as [Hev Hn].
    destruct (deliver_quiet env c ev s) as (s1 & E1 & Q1); [done|].
    destruct (IH s1 Hn) as (s2 & E2 & Q2).
    exists s2. simpl. unfold mbind, M_bind. rewrite E1, E2.
    split; [done|]. by eapply quietly_trans.
Qed.

Lemma serveEditors_step (env : Env) (n : nat) (s : State) (c : editorChild)
    (rest : list editorChild) :
  children s = c :: rest →
  serveEditors env (S n) s
  = match candidates c !! position c with
    | Some ed =>
        (forEach (editor env ed (editedFile c)) (deliver env c)
         ≫= λ _, serveEditors env n) (withChildren rest s)
    | None => serveEditors env n (withChildren rest s)
    end.
Proof.
  intros Hc. simpl. unfold mbind at 1. unfold M_bind at 1. unfold gets at 1.
  rewrite Hc.
  unfold mbind at 1. unfold M_bind at 1. unfold modify at 1.
  by destruct (candidates c !! position c).
Qed.

(** X19. The extension step starts only after an editor exits with the
    code zero: as long as no editor does, serving the spawned editors ends
    without an error and nothing of the extension happens (no credentials
    are asked, no request is sent, no extension message is printed),
    whatever the editors do otherwise and however many are served. *)
Theorem extension_needs_clean_exit (env : Env) (n : nat) (s : State) :
  noCleanExit env →
  (serveEditors env n s).1 = Ok tt ∧ quietly s (serveEditors env n s).2.
Proof.
  intros Hn. revert s. induction n as [|n IH]; intros s.
  - split; [done|]. apply quietly_refl.
  - destruct (children s) as [|c rest] eqn:Hc.
    + rewrite serveEditors_none by done. split; [done|]. apply quietly_refl.
    + rewrite (serveEditors_step env n s c rest Hc).
      assert (quietly s (withChildren rest s)) as Q0
        by (apply quietly_same; by destruct s).
      destruct (candidates c !! position c) as [ed|].
      * destruct (forEach_deliver_quiet env c (editor env ed (editedFile c))
                    (withChildren rest s) (Hn ed (editedFile c)))
          as (s1 & E1 & Q1).
        unfold mbind, M_bind. rewrite E1.
        destruct (IH s1) as [E Q]. split; [done|].
        eapply quietly_trans; [|exact Q]. exact (quietly_trans _ _ _ Q0 Q1).
      * destruct (IH (withChildren rest s)) as [E Q]. split; [done|].
        exact (quietly_trans _ _ _ Q0 Q).
Qed.

Lemma extension_needs_clean_exit_witness :
  noCleanExit (answering (Response 200 "ok"))
  ∧ (serveEditors (answering (Response 200 "ok")) 3
       (withChildren [childAt target terminalEditors 0] cached)).1 = Ok tt
  ∧ quietly (withChildren [childAt target terminalEditors 0] cached)
      (serveEditors (answering (Response 200 "ok")) 3
         (withChildren [childAt target terminalEditors 0] cached)).2.
Proof.
  assert (noCleanExit (answering (Response 200 "ok"))) as H.
  { intros ed f. simpl. intros Hin.
    apply elem_of_cons in Hin as [Hin|Hin]; [discriminate|].
    apply elem_of_cons in Hin as [Hin|Hin]; [discriminate|].
    by apply elem_of_nil in Hin. }
  split; [exact H|].
  exact (extension_needs_clean_exit (answering (Response 200 "ok")) 3
           (withChildren [childAt target terminalEditors 0] cached) H).
Defined.

(* ================================================================== *)
(** * The start of a recording *)
(* ================================================================== *)

(** X20. Code written to the artifact file before the watcher is attached
    is not picked up: when the codegen tool writes once, the poller then
    finds the file and attaches the watcher, and the codegen process
    closes, the session ends with [No code to save] although the file
    holds the code; the buffer stays empty and nothing is transformed. *)
Theorem first_write_is_lost (env : Env) (s : State) (content : string)
    (code : option Z) :
  watcher (this s) = None →
  currentCode (this s) = EmptyString →
  ∃ s',
    oneWriteSession env content code s = (Ok tt, s')
    ∧ files s' = <[outputFile (this s) := content]> (files s)
    ∧ currentCode (this s') = EmptyString
    ∧ watcher (this s') = None
    ∧ trace s' = trace s ++ [CloseWatcher; Log MsgNoCode].
Proof.
  destruct s as [[out dir proc w cb cur enh en cred] fs nr nw inp ch tr].
  simpl. intros -> ->.
  unfold oneWriteSession, codegenWrites, checkFile, startFileWatcher,
    onCodegenClose, stopWatching, promptForFilename.
  run. rewrite bool_decide_eq_true_2 by (rewrite lookup_insert_eq; eauto).
  run. eexists. repeat split. by rewrite <- app_assoc.
Qed.

Lemma first_write_is_lost_witness :
  watcher (this idle) = None
  ∧ currentCode (this idle) = EmptyString
  ∧ ∃ s',
      oneWriteSession (answering (Failure "down")) click (Some 0) idle
      = (Ok tt, s')
      ∧ files s' = <[outputFile (this idle) := click]> (files idle)
      ∧ currentCode (this s') = EmptyString
      ∧ watcher (this s') = None
      ∧ trace s' = trace idle ++ [CloseWatcher; Log MsgNoCode].
Proof.
  split; [reflexivity|]. split; [reflexivity|].
  exact (first_write_is_lost (answering (Failure "down")) idle click (Some 0)
           eq_refl eq_refl).
Defined.

(* ================================================================== *)
(** * The commands *)
(* ================================================================== *)

Import Cli.

Ltac run_cli :=
  repeat progress
    (unfold mbind, C_bind, mret, C_ret, call, say, exit, tryCatch, newRecorder;
     cbn [session console fst snd negb andb]).

(** X21. The [extend] command leaves with the status 1 exactly when the
    file does not exist, and then does nothing else than say so.  For a
    file that exists it announces the extension and runs it, and neither
    leaves with a status nor throws, whether the extension succeeds or
    fails: a failed extension is reported by the recorder only. *)
Theorem extend_command_status (env : Env) (dirname home : string)
    (enhancer : WaitEnhancer) (f : string) (p : Process) :
  let result := extendCommand env dirname home enhancer f p in
  match files (session p) !! f with
  | None =>
      result.1 = Exits 1
      ∧ console result.2
        = console p ++ [(length (trace (session p)), MsgFileNotFound f)]
      ∧ trace (session result.2) = trace (session p)
      ∧ files (session result.2) = files (session p)
      ∧ stdin (session result.2) = stdin (session p)
  | Some _ =>
      (result.1 = Returns tt ∨ result.1 = Waits)
      ∧ console result.2
        = console p ++ [(length (trace (session p)), MsgExtendingFile)]
      ∧ session result.2
        = (extendScriptWithAPI env f
             (withThis (constructor dirname home enhancer) (session p))).2
  end.
Proof.
  destruct p as [s out]. unfold extendCommand. run_cli.
  unfold modify, existsSync, gets. run_cli.
  change (files (withThis (constructor dirname home enhancer) s)) with (files s).
  destruct (files s !! f) as [content|] eqn:F.
  - rewrite bool_decide_eq_true_2 by eauto. run_cli.
    destruct (extend_frame env f
                (withThis (constructor dirname home enhancer) s))
      as (r & s' & E & Hr & _).
    rewrite E. destruct Hr as [-> | ->]; run_cli;
      (split; [by eauto|]); split; by destruct s.
  - rewrite bool_decide_eq_false_2 by (by intros [? ?]). run_cli.
    by destruct s.
Qed.

(** X22. On an interrupt of [record -o name], what is saved under the
    name is the buffer, while whether anything is saved depends on the
    answer of [stopRecording], that is on the artifact file when it
    exists: with an artifact file that is not empty the buffer is saved,
    with an empty one nothing is; the process then leaves with the
    status 0. *)
Theorem interrupt_saves_buffer (p : Process) (o c : string) :
  files (session p) !! outputFile (this (session p)) = Some c →
  outputFile (this (session p)) ∉ noRead (session p) →
  JS.truthy o = true →
  Path.join [recordingDir (this (session p)); o] ∉ noWrite (session p) →
  (onInterrupt (Some o) p).1 = Exits 0
  ∧ files (session (onInterrupt (Some o) p).2)
    = (if JS.truthy c
       then <[Path.join [recordingDir (this (session p)); o]
              := currentCode (this (session p))]> (files (session p))
       else files (session p))
  ∧ codegenProcess (this (session (onInterrupt (Some o) p).2)) = None
  ∧ watcher (this (session (onInterrupt (Some o) p).2)) = None.
Proof.
  destruct p as [s out].
  destruct s as [[outf dir proc w cb cur enh en cred] fs nr nw inp ch tr].
  simpl. intros F R To W. unfold onInterrupt. run_cli.
  unfold stopRecording, stopWatching, readFileSync, saveCodeToFile,
    writeFileSync.
  destruct proc, w; run; rewrite bool_decide_eq_true_2 by eauto; run;
    rewrite F; rewrite decide_False by done; run_cli; rewrite To;
    destruct (JS.truthy c); run_cli; run;
    rewrite ?decide_False by done; run_cli; done.
Qed.

(** X23. The [credentials] command asks for the email and the token
    without looking at the credentials that are cached, writes them over
    the credential file, and reports success; it reports success as well
    when the file could not be written and the credentials are lost. *)
Theorem credentials_command_reports_success (dirname home : string)
    (enhancer : WaitEnhancer) (p : Process) (email token : string)
    (rest : list string) :
  stdin (session p) = email :: token :: rest →
  let file := Path.join [home; ".kusho-credentials"] in
  let lost := bool_decide (file ∈ noWrite (session p)) in
  ∃ p',
    credentialsCommand dirname home enhancer p = (Returns tt, p')
    ∧ console p'
      = console p ++ [(length (trace (session p')), MsgCredentialsUpdated)]
    ∧ trace (session p')
      = trace (session p)
        ++ [Log MsgUpdateCredentials; Log MsgCredentialsRequired;
            Question AskEmail; Question AskToken;
            Log (if lost then MsgCredentialsNotSaved else MsgCredentialsSaved)]
    ∧ files (session p')
      = (if lost then files (session p)
         else <[file := stringifyCredentials email token]> (files (session p)))
    ∧ stdin (session p') = rest.
Proof.
  destruct p as [s out].
  destruct s as [r fs nr nw inp ch tr].
  simpl. intros ->. unfold credentialsCommand. run_cli.
  unfold updateCredentials, promptForCredentials, question, readLine,
    writeFileSync, constructor.
  repeat progress (run_cli; run).
  destruct (decide (Path.join [home; ".kusho-credentials"] ∈ nw)) as [H|H].
  - rewrite (bool_decide_eq_true_2 _ H). repeat progress (run_cli; run).
    eexists. repeat split; by rewrite <- ?app_assoc.
  - rewrite (bool_decide_eq_false_2 _ H). repeat progress (run_cli; run).
    eexists. repeat split; by rewrite <- ?app_assoc.
Qed.

Lemma interrupt_saves_buffer_witness :
  files (session (started afterOneWrite))
    !! outputFile (this (session (started afterOneWrite))) = Some click
  ∧ (outputFile (this (session (started afterOneWrite)))
       ∉ noRead (session (started afterOneWrite)))
  ∧ JS.truthy "out.js" = true
  ∧ (Path.join [recordingDir (this (session (started afterOneWrite))); "out.js"]
       ∉ noWrite (session (started afterOneWrite)))
  ∧ (onInterrupt (Some "out.js") (started afterOneWrite)).1 = Exits 0
  ∧ files (session (onInterrupt (Some "out.js") (started afterOneWrite)).2)
      !! "/app/recordings/out.js"
    = Some (wrapInTestFunction click).
Proof.
  assert (outputFile (this (session (started afterOneWrite)))
            ∉ noRead (session (started afterOneWrite))) as H2
    by (intros H; vm_compute in H; discriminate).
  assert (Path.join [recordingDir (this (session (started afterOneWrite)));
                     "out.js"]
            ∉ noWrite (session (started afterOneWrite))) as H4
    by (intros H; vm_compute in H; discriminate).
  split; [reflexivity|]. split; [exact H2|]. split; [reflexivity|].
  split; [exact H4|].
  destruct (interrupt_saves_buffer (started afterOneWrite) "out.js" click
              eq_refl H2 eq_refl H4) as (E & F & _).
  split; [exact E|]. rewrite F. reflexivity.
Defined.

Lemma credentials_command_reports_success_witness :
  stdin (session (started brokenCache)) = ["a@b.com"; "t"]
  ∧ ∃ p',
      credentialsCommand "/app" "/home/u" quietEnhancer (started brokenCache)
      = (Returns tt, p')
      ∧ console p' = [(5%nat, MsgCredentialsUpdated)]
      ∧ files (session p') = files brokenCache
      ∧ Log MsgCredentialsNotSaved ∈ trace (session p').
Proof.
  split; [reflexivity|].
  destruct (credentials_command_reports_success "/app" "/home/u" quietEnhancer
              (started brokenCache) "a@b.com" "t" [] eq_refl)
    as (p' & E & Hc & Ht & Hf & _).
  exists p'. split; [exact E|]. split; [by rewrite Hc, Ht|].
  split; [exact Hf|]. rewrite Ht. set_solver.
Defined.

(* ================================================================== *)
(** * From the close of the codegen process to the extended script *)
(* ================================================================== *)

(** The close of the codegen process when the name asked for is free. *)
Lemma close_saves (env : Env) (s : State) (code : option Z)
    (answer : string) (rest : list string) :
  let p := Path.join [recordingDir (this s); filenameFor env answer] in
  JS.trim (currentCode (this s)) ≠ EmptyString →
  stdin s = answer :: rest →
  files s !! p = None →
  p ∉ noWrite s →
  children s = [] →
  ∃ s2,
    onCodegenClose env code s = (Ok tt, s2)
    ∧ children s2 = [childAt p terminalEditors 0]
    ∧ files s2 = <[p := currentCode (this s)]> (files s)
    ∧ noRead s2 = noRead s ∧ noWrite s2 = noWrite s
    ∧ credentialsFile (this s2) = credentialsFile (this s)
    ∧ stdin s2 = rest.
Proof.
  intros p Hc Hin Hp Hw Hch. unfold onCodegenClose.
  unfold mbind at 1. unfold M_bind at 1.
  assert (∃ s0, stopWatching s = (Ok tt, s0)
                ∧ currentCode (this s0) = currentCode (this s)
                ∧ recordingDir (this s0) = recordingDir (this s)
                ∧ credentialsFile (this s0) = credentialsFile (this s)
                ∧ files s0 = files s ∧ noRead s0 = noRead s
                ∧ noWrite s0 = noWrite s ∧ stdin s0 = stdin s
                ∧ children s0 = children s)
    as (s0 & -> & H1 & H2 & H3 & H4 & H5 & H6 & H7 & H8).
  { destruct s as [[out dir proc w cb cur enh en cred] fs nr nw inp ch tr].
    unfold stopWatching. destruct w; run; by eexists. }
  assert (whileExists (S (S (size (files s0))))
            (JS.replace ".js" EmptyString (filenameFor env answer)) 1
            (Path.join [recordingDir (this s0); filenameFor env answer])
            (withStdin rest
               (afterAll [Log MsgCompleted; Question AskFilename] s0))
          = (Ok p, withStdin rest
                     (afterAll [Log MsgCompleted; Question AskFilename] s0)))
    as E.
  { simpl. unfold mbind, M_bind, existsSync, gets.
    rewrite H2. fold p.
    assert (files (withStdin rest
                     (afterAll [Log MsgCompleted; Question AskFilename] s0))
            = files s) as -> by (by destruct s0).
    by rewrite bool_decide_eq_false_2 by (rewrite Hp; by intros [? ?]). }
  rewrite (promptForFilename_run env s0 answer p rest)
    by (rewrite ?H1, ?H7; done).
  rewrite H6. rewrite decide_False by done.
  eexists. split; [done|]. rewrite H1, H4, H8, Hch.
  destruct s0; simpl in *. by subst.
Qed.

(** An extension that goes well, with cached credentials. *)
Lemma extend_succeeds (env : Env) (f : string) (s : State)
    (data content body x : string) (credentials : json)
    (email token : option json) (statusCode : Z) :
  files s !! credentialsFile (this s) = Some data →
  credentialsFile (this s) ∉ noRead s →
  parse data = Some credentials →
  get credentials "email" = Some email →
  get credentials "token" = Some token →
  Http.validHeader email = true →
  Http.validHeader token = true →
  files s !! f = Some content →
  f ∉ noRead s →
  f ∉ noWrite s →
  service env (requestFor content email token) = Response statusCode body →
  200 ≤ statusCode < 300 →
  resolved body = JString x →
  extendScriptWithAPI env f s
  = (Ok tt,
     afterAll [Log MsgExtending; SetInterval;
               Request (requestFor content email token); ClearInterval;
               Log MsgNewline; Log MsgExtended; Log (MsgUpdated f)]
       (withFiles (<[f := x]> (files s)) s)).
Proof.
  intros F R P He Ht Ve Vt Ff Rf Wf Hs Hst Hx.
  assert (getCredentials (after (Log MsgExtending) s)
          = (Ok credentials, after (Log MsgExtending) s)) as E.
  { destruct (getCredentials_cases (after (Log MsgExtending) s))
      as [(Hc & _)|(d & v' & F' & _ & P' & ->)].
    - exfalso. destruct Hc as [H|[[_ H]|(d & H & H')]].
      + destruct s as [[]]; simpl in *. congruence.
      + destruct s as [[]]; simpl in *. done.
      + destruct s as [[]]; simpl in *. congruence.
    - destruct s as [[]]; simpl in *. congruence. }
  unfold extendScriptWithAPI.
  unfold mbind at 1. unfold M_bind at 1. unfold log at 1, emit at 1, modify at 1.
  fold (after (Log MsgExtending) s).
  unfold catch at 1. unfold mbind at 1. unfold M_bind at 1. rewrite E.
  unfold mbind at 1. unfold M_bind at 1. unfold readFileSync.
  change (files (after (Log MsgExtending) s)) with (files s).
  change (noRead (after (Log MsgExtending) s)) with (noRead s).
  rewrite Ff. rewrite decide_False by done.
  unfold mbind at 1. unfold M_bind at 1. unfold emit at 1, modify at 1.
  unfold catch at 1. unfold mbind at 1. unfold M_bind at 1.
  rewrite callExtendAPI_run, He, Ht, Ve, Vt. cbv zeta. cbn [andb]. rewrite Hs.
  assert ((200 <=? statusCode) && (statusCode <? 300) = true) as ->.
  { apply andb_true_iff. split; [apply Z.leb_le|apply Z.ltb_lt]; lia. }
  rewrite Hx. unfold writeData, writeFileSync.
  destruct s as [r1 fs nr nw inp ch tr]. simpl in *. run.
  rewrite decide_False by done. run. by rewrite <- !app_assoc.
Qed.

(** X24. From the close of the codegen process to the extended script.
    With code in the buffer, a name that is free, an editor [nano] in
    which the user saves a text and leaves with the code zero, credentials
    that are cached and whose email and token are valid values of a
    header, and a service that answers the request for that text with a
    status in 200..299 and a script, the session ends with the file of the
    test holding the script answered: the buffer is saved, the text saved
    in the editor is what is sent, and the answer replaces it. *)
Theorem recording_ends_extended (env : Env) (s : State) (code : option Z)
    (answer edited data body x : string) (rest : list string)
    (credentials : json) (email token : option json) (statusCode : Z) :
  let p := Path.join [recordingDir (this s); filenameFor env answer] in
  JS.trim (currentCode (this s)) ≠ EmptyString →
  stdin s = answer :: rest →
  children s = [] →
  files s !! p = None →
  p ∉ noWrite s →
  p ∉ noRead s →
  editor env "nano" p = [Saves edited; EmitsClose (Some 0)] →
  files s !! credentialsFile (this s) = Some data →
  credentialsFile (this s) ∉ noRead s →
  parse data = Some credentials →
  get credentials "email" = Some email →
  get credentials "token" = Some token →
  Http.validHeader email = true →
  Http.validHeader token = true →
  service env (requestFor edited email token) = Response statusCode body →
  200 ≤ statusCode < 300 →
  resolved body = JString x →
  ∃ s',
    closing env code s = (Ok tt, s')
    ∧ files s' = <[p := x]> (files s)
    ∧ Request (requestFor edited email token) ∈ trace s'
    ∧ last (trace s') = Some (Log (MsgUpdated p))
    ∧ stdin s' = rest
    ∧ children s' = [].
Proof.
  intros p Hc Hin Hch Hp Hw Hr Hed F R P He Ht Ve Vt Hs Hst Hx.
  destruct (close_saves env s code answer rest Hc Hin Hp Hw Hch)
    as (s2 & E2 & Hch2 & Hf2 & Hnr2 & Hnw2 & Hcred2 & Hin2).
  fold p in Hch2, Hf2.
  assert (p ≠ credentialsFile (this s)) as Hne.
  { intros Heq. rewrite <- Heq in F. congruence. }
  pose (s3 := after (Log MsgEdited) (saved p [edited] (withChildren [] s2))).
  assert (files s3 = <[p := edited]> (<[p := currentCode (this s)]> (files s)))
    as Hf3.
  { unfold s3. destruct s2; simpl in *. by subst. }
  assert (noRead s3 = noRead s ∧ noWrite s3 = noWrite s
          ∧ credentialsFile (this s3) = credentialsFile (this s)
          ∧ stdin s3 = rest ∧ children s3 = []) as (Hnr3 & Hnw3 & Hcred3 & Hin3 & Hch3).
  { unfold s3. destruct s2; simpl in *. by subst. }
  assert (extendScriptWithAPI env p s3
          = (Ok tt,
             afterAll [Log MsgExtending; SetInterval;
                       Request (requestFor edited email token); ClearInterval;
                       Log MsgNewline; Log MsgExtended; Log (MsgUpdated p)]
               (withFiles (<[p := x]> (files s3)) s3))) as E3.
  { apply (extend_succeeds env p s3 data edited body x credentials email token
             statusCode); try done.
    - rewrite Hf3, Hcred3. by rewrite !lookup_insert_ne.
    - by rewrite Hnr3, Hcred3.
    - rewrite Hf3. by rewrite lookup_insert_eq.
    - by rewrite Hnr3.
    - by rewrite Hnw3. }
  unfold closing. unfold mbind at 1. unfold M_bind at 1. rewrite E2.
  rewrite (serve_close env p terminalEditors 0 0 "nano" [edited] (Some 0) s2
             Hch2 eq_refl Hed).
  rewrite decide_True by done. fold s3. unfold detach. rewrite E3.
  clearbody s3.
  eexists. split; [done|]. destruct s3; simpl in *. subst. split.
  - by rewrite !insert_insert_eq.
  - split; [|split; [by rewrite last_app|done]].
    apply elem_of_app. right. do 2 (apply elem_of_cons; right).
    apply elem_of_cons. by left.
Qed.

Lemma recording_ends_extended_witness :
  let env := withNano "edited" (Response 200 (extendedBody "X")) in
  JS.trim (currentCode (this finished)) ≠ EmptyString
  ∧ stdin finished = ["login"]
  ∧ children finished = []
  ∧ files finished !! target = None
  ∧ (target ∉ noWrite finished)
  ∧ (target ∉ noRead finished)
  ∧ editor env "nano" target = [Saves "edited"; EmitsClose (Some 0)]
  ∧ files finished !! credentialsFile (this finished)
    = Some (stringifyCredentials "a@b.com" "t")
  ∧ (credentialsFile (this finished) ∉ noRead finished)
  ∧ parse (stringifyCredentials "a@b.com" "t")
    = Some (credentialsOf "a@b.com" "t")
  ∧ get (credentialsOf "a@b.com" "t") "email" = Some (Some (JString "a@b.com"))
  ∧ get (credentialsOf "a@b.com" "t") "token" = Some (Some (JString "t"))
  ∧ Http.validHeader (Some (JString "a@b.com")) = true
  ∧ Http.validHeader (Some (JString "t")) = true
  ∧ service env (requestFor "edited" (Some (JString "a@b.com"))
                   (Some (JString "t")))
    = Response 200 (extendedBody "X")
  ∧ 200 ≤ 200 < 300
  ∧ resolved (extendedBody "X") = JString "X"
  ∧ ∃ s',
      closing env (Some 0) finished = (Ok tt, s')
      ∧ files s' = <[target := "X"]> (files finished)
      ∧ Request (requestFor "edited" (Some (JString "a@b.com"))
                   (Some (JString "t"))) ∈ trace s'
      ∧ last (trace s') = Some (Log (MsgUpdated target))
      ∧ stdin s' = []
      ∧ children s' = [].
Proof.
  intros env.
  assert (JS.trim (currentCode (this finished)) ≠ EmptyString) as H1
    by (by vm_compute).
  assert (target ∉ noWrite finished) as H5 by set_solver.
  assert (target ∉ noRead finished) as H6 by set_solver.
  assert (credentialsFile (this finished) ∉ noRead finished) as H9
    by set_solver.
  assert (200 ≤ 200 < 300) as H14 by lia.
  split; [exact H1|]. split; [reflexivity|]. split; [reflexivity|].
  split; [reflexivity|]. split; [exact H5|]. split; [exact H6|].
  split; [reflexivity|]. split; [reflexivity|]. split; [exact H9|].
  split; [exact (parse_credentials_text "a@b.com" "t")|].
  split; [reflexivity|]. split; [reflexivity|]. split; [reflexivity|].
  split; [reflexivity|]. split; [reflexivity|].
  split; [exact H14|]. split; [reflexivity|].
  exact (recording_ends_extended env finished (Some 0) "login" "edited"
           (stringifyCredentials "a@b.com" "t") (extendedBody "X") "X" []
           (credentialsOf "a@b.com" "t") (Some (JString "a@b.com"))
           (Some (JString "t")) 200
           H1 eq_refl eq_refl eq_refl H5 H6 eq_refl eq_refl H9
           (parse_credentials_text "a@b.com" "t") eq_refl eq_refl eq_refl
           eq_refl eq_refl H14 eq_refl).
Defined.

(** What [configure] leaves. *)
Lemma configure_run (dirname home : string) (enhancer : WaitEnhancer)
    (waitEnhancement : bool) (output : option string) (p : Process) :
  configure dirname home enhancer waitEnhancement output p
  = (Returns tt,
     {| session :=
          withThis (setOnCodeUpdate (Some (SaveOutput output))
                      (setEnableWaitEnhancement waitEnhancement
                         (constructor dirname home enhancer))) (session p);
        console := console p |}).
Proof.
  destruct p as [s out]. destruct s as [r fs nr nw inp ch tr].
  unfold configure, onUpdate. destruct waitEnhancement;
    repeat progress (run_cli; run); done.
Qed.

(** X25. The [record] command makes a new recorder and configures it from
    its options.  The observer of the recorder is the one closed over
    [options.output]: on each new code it saves the buffer under that name
    when a name is given, and does nothing otherwise.  The option
    [--no-wait-enhancement] decides whether the analyzer is used: the
    recorder calls the analyzer on a new code exactly when the option is
    not given, and buffers the wrapping of the enhanced code then, of the
    code itself otherwise. *)
Theorem wait_enhancement_option (dirname home : string)
    (enhancer : WaitEnhancer) (waitEnhancement : bool)
    (output : option string) (p : Process) (c : string) :
  ∃ p' r s' es,
    configure dirname home enhancer waitEnhancement output p = (Returns tt, p')
    ∧ onCodeUpdate (this (session p')) = Some (SaveOutput output)
    ∧ enableWaitEnhancement (this (session p')) = waitEnhancement
    ∧ currentCode (this (session p')) = EmptyString
    ∧ handleCodeUpdate c (session p') = (r, s')
    ∧ trace s' = trace (session p) ++ es
    ∧ currentCode (this s')
      = wrapInTestFunction
          (if waitEnhancement then enhanceCode enhancer c else c)
    ∧ (EnhanceCode c ∈ es ↔ waitEnhancement = true)
    ∧ (AnalyzeAndSuggestWaits c ∈ es ↔ waitEnhancement = true)
    ∧ (Callback (currentCode (this s')) ∈ es)
    ∧ match output with
      | Some name =>
          if JS.truthy name then
            let path := Path.join [Path.join [dirname; "recordings"]; name] in
            if decide (path ∈ noWrite (session p))
            then r = Throw (FsError path) ∧ files s' = files (session p)
            else r = Ok tt
                 ∧ files s' = <[path := currentCode (this s')]>
                                (files (session p))
          else r = Ok tt ∧ files s' = files (session p)
      | None => r = Ok tt ∧ files s' = files (session p)
      end.
Proof.
  rewrite configure_run. eexists.
  destruct (handle_run
              (withThis (setOnCodeUpdate (Some (SaveOutput output))
                           (setEnableWaitEnhancement waitEnhancement
                              (constructor dirname home enhancer)))
                 (session p)) c)
    as (r & s' & rest & E & Ht & _ & _ & _ & _ & Htr & Ho).
  exists r, s'. eexists. split; [done|].
  split; [by destruct p as [[]]|]. split; [by destruct p as [[]]|].
  split; [by destruct p as [[]]|]. split; [exact E|].
  assert (trace (withThis (setOnCodeUpdate (Some (SaveOutput output))
                             (setEnableWaitEnhancement waitEnhancement
                                (constructor dirname home enhancer)))
                   (session p)) = trace (session p)) as Etr
    by (by destruct p as [[]]).
  rewrite Etr in Htr. split; [exact Htr|].
  assert (currentCode (this s')
          = wrapInTestFunction
              (if waitEnhancement then enhanceCode enhancer c else c)) as Ecur
    by (rewrite Ht; by destruct p as [[]]).
  split; [exact Ecur|]. rewrite Ecur.
  cbn [this withThis onCodeUpdate setOnCodeUpdate enableWaitEnhancement
       waitEnhancer setEnableWaitEnhancement constructor recordingDir
       noWrite files] in Ho.
  assert (withThis_files : ∀ r0 s0, files (withThis r0 s0) = files s0)
    by (by intros ? []).
  assert (withThis_noWrite : ∀ r0 s0, noWrite (withThis r0 s0) = noWrite s0)
    by (by intros ? []).
  rewrite ?withThis_files, ?withThis_noWrite in Ho.
  assert (Forall (λ e, ofEnhancement e = false) rest
          ∧ Callback (wrapInTestFunction
                        (if waitEnhancement then enhanceCode enhancer c else c))
            ∈ rest) as [Hq Hcb].
  { destruct output as [out|].
    - destruct (JS.truthy out); [cbv zeta in Ho; destruct (decide _)|];
        destruct Ho as (_ & _ & ->);
        (split; [by repeat constructor|apply elem_of_cons; by left]).
    - destruct Ho as (_ & _ & ->).
      split; [by repeat constructor|apply elem_of_cons; by left]. }
  assert (∀ e, ofEnhancement e = true →
               e ∉ display
                     (wrapInTestFunction
                        (if waitEnhancement then enhanceCode enhancer c else c))
                   ++ rest) as Hno.
  { intros e He Hin. apply elem_of_app in Hin as [Hin|Hin].
    - unfold display in Hin. repeat (apply elem_of_cons in Hin as [->|Hin]);
        try done. by apply elem_of_nil in Hin.
    - rewrite Forall_forall in Hq. specialize (Hq e Hin). congruence. }
  cbn [this withThis enableWaitEnhancement waitEnhancer setOnCodeUpdate
       setEnableWaitEnhancement constructor] in Hno |- *.
  split; [|split; [|split]].
  - destruct waitEnhancement; cbn [app]; (split; [intros Hin|intros Heq]);
      try done.
    + apply elem_of_cons. by left.
    + by destruct (Hno (EnhanceCode c) eq_refl).
  - destruct waitEnhancement; cbn [app]; (split; [intros Hin|intros Heq]);
      try done.
    + apply elem_of_cons. right. apply elem_of_cons. by left.
    + by destruct (Hno (AnalyzeAndSuggestWaits c) eq_refl).
  - apply elem_of_app. right. apply elem_of_app. by right.
  - destruct output as [out|]; [|by destruct Ho as (? & ? & _)].
    destruct (JS.truthy out); [|by destruct Ho as (? & ? & _)].
    cbv zeta in Ho |- *. destruct (decide _); by destruct Ho as (? & ? & _).
Qed.

(* ================================================================== *)
(** * The decoding of the answer *)
(* ================================================================== *)

Lemma parse_extendedBody (x : string) :
  parse (extendedBody x) = Some (JObject [("extendedScript", JString x)]).
Proof.
  unfold parse.
  assert (∃ n, fuelFor (extendedBody x) = S (S (S n))) as [n ->].
  { unfold fuelFor, extendedBody. rewrite !app_cons.
    cbn [String.length]. eexists. rewrite Nat.add_1_r. simpl.
    by rewrite !Nat.add_succ_r. }
  unfold extendedBody.
  change ("{" +:+ quote "extendedScript" +:+ ": " +:+ quote x +:+ "}")
    with (String "{" (quote "extendedScript"
                      +:+ String ":" (" " +:+ quote x +:+ "}"))).
  rewrite (quote_app "extendedScript") at 1.
  rewrite <- (app_empty_l (String DQ _)).
  rewrite value_object by done. rewrite <- quote_app.
  rewrite <- (app_empty_l (quote "extendedScript" +:+ _)).
  rewrite members_quoted by done.
  reflexivity.
Qed.

(** X26. A body that is a JSON object with the one field [extendedScript],
    holding a text that is not empty and written as JSON writes a string,
    is decoded to that very text, whatever characters it holds. *)
Theorem extended_script_is_decoded (x : string) :
  x ≠ EmptyString →
  resolved (extendedBody x) = JString x.
Proof.
  intros Hx. unfold resolved. rewrite parse_extendedBody.
  cbn [get member]. rewrite decide_True by done.
  rewrite decide_False by done. cbn [orElse truthy].
  by destruct x.
Qed.

Lemma extended_script_is_decoded_witness :
  click ≠ EmptyString ∧ resolved (extendedBody click) = JString click.
Proof.
  assert (click ≠ EmptyString) as H by done.
  split; [exact H|]. exact (extended_script_is_decoded click H).
Defined.
